(** * Reliability watchdogs of the browser-automation agent

    A shallow embedding of the failure-detection-and-recovery code of
    [browser_use/browser/watchdogs/*.py] and [browser_use/tools/error_classifier.py],
    with the properties of the design document stated and proved over it.

    Conventions of the embedding.
    - Python [str] is [string]; [str.lower()] and substring tests are modelled
      on the ASCII range (tag names, CDP error texts and the keyword tables of
      the source are ASCII).
    - Python [float] durations, timestamps and pixel coordinates are the
      rationals ([Q]) they denote; every constant of the source (0.5, 2.0,
      30.0, ...) is exactly representable. Pixel coordinates are finite
      doubles, and the difference of two of them is rounded as the
      subtraction of doubles rounds it ([Float64.sub]).
    - Python [dict] used as a map is a [gmap]; the selector map, whose
      iteration order matters, is an association list in insertion order.
    - A call to the browser session, the CDP client or the event bus may
      raise; such calls are given by an environment the definitions are
      parametrised by, and [try]/[except] is written out. *)

From Stdlib Require Import ZArith QArith Qabs Qminmax Qround Lqa Lia Bool List Ascii.
From stdpp Require Import base option list gmap strings pretty.
Import ListNotations.

Local Open Scope Z_scope.

(** ** Python strings *)

Module PyStr.

(** [c.lower()] for one character of the ASCII range. *)
Definition lower_ascii (c : ascii) : ascii :=
  let n := N_of_ascii c in
  if ((65 <=? n) && (n <=? 90))%N then ascii_of_N (n + 32) else c.

(** [s.lower()] *)
Fixpoint lower (s : string) : string :=
  match s with
  | EmptyString => EmptyString
  | String c s' => String (lower_ascii c) (lower s')
  end.

(** [needle in hay] *)
Fixpoint contains (needle hay : string) : bool :=
  String.prefix needle hay
  || match hay with
     | EmptyString => false
     | String _ hay' => contains needle hay'
     end.

(** [any(k in s for k in keywords)] *)
Definition any_in (keywords : list string) (s : string) : bool :=
  existsb (fun k => contains k s) keywords.

(** Truthiness of a [str]: non-empty. *)
Definition truthy (s : string) : bool :=
  match s with EmptyString => false | _ => true end.

(** [a == b] on strings. *)
Definition eqb (a b : string) : bool := bool_decide (a = b).

End PyStr.

#[global] Arguments PyStr.lower : simpl never.
#[global] Arguments PyStr.contains : simpl never.
#[global] Arguments PyStr.any_in : simpl never.

(** ** Rational comparisons, as booleans *)

Definition Qltb (a b : Q) : bool := negb (Qle_bool b a).
Definition Qgeb (a b : Q) : bool := Qle_bool b a.
Definition Qgtb (a b : Q) : bool := negb (Qle_bool a b).

(** ** DOM element snapshots ([browser_use.dom.views]) *)

(** [DOMRect]: only the corner coordinates are read by the watchdogs. *)
Record DOMRect := { x : Q; y : Q }.

(** [EnhancedDOMTreeNode], the fields the watchdogs read. *)
Record EnhancedDOMTreeNode := {
  target_id : string;
  node_id : Z;
  backend_node_id : Z;
  element_index : Z;
  node_name : string;
  tag_name : string;       (* the value of the [tag_name] accessor *)
  attributes : gmap string string;
  absolute_position : option DOMRect;
  children_text : string   (* the value of [get_all_children_text(max_depth=2)] *)
}.

(** The selector map [dict[int, EnhancedDOMTreeNode]], in insertion order. *)
Abbreviation SelectorMap := (list (Z * EnhancedDOMTreeNode)).

(** [selector_map.get(index)] *)
Fixpoint selector_get (m : SelectorMap) (index : Z) : option EnhancedDOMTreeNode :=
  match m with
  | [] => None
  | (k, n) :: m' => if bool_decide (k = index) then Some n else selector_get m' index
  end.

#[global] Arguments selector_get : simpl never.

(** [selector_map.values()] *)
Definition selector_values (m : SelectorMap) : list EnhancedDOMTreeNode := map snd m.

(** ** Double-precision arithmetic

    A finite double is the rational it denotes. The subtraction of two
    doubles yields the double nearest to their exact difference. *)

Module Float64.

(** The integer nearest to [c / d], ties to the even one. *)
Definition round_half_even (c d : Z) : Z :=
  let f := c / d in
  let r := c mod d in
  match 2 * r ?= d with
  | Lt => f
  | Gt => f + 1
  | Eq => if Z.even f then f else f + 1
  end.

(** The [k] with [2^k <= a / d < 2^(k+1)]. *)
Definition floor_log2 (a d : positive) : Z :=
  let k := Z.log2 (Z.pos a) - Z.log2 (Z.pos d) in
  let below :=
    if 0 <=? k then Z.pos a <? Z.pos d * 2 ^ k
    else Z.pos a * 2 ^ (- k) <? Z.pos d in
  if below then k - 1 else k.

(** [n * 2^e] *)
Definition scale2 (n e : Z) : Q :=
  if 0 <=? e then inject_Z (n * 2 ^ e) else n # (2 ^ Z.to_pos (- e)).

(** [a / d] rounded to 53 significant bits. *)
Definition round_positive (a d : positive) : Q :=
  let e := floor_log2 a d - 52 in
  let n :=
    if 0 <=? e then round_half_even (Z.pos a) (Z.pos d * 2 ^ e)
    else round_half_even (Z.pos a * 2 ^ (- e)) (Z.pos d) in
  scale2 n e.

(** The double nearest to [q], ties to the one with an even significand. The
    exponent is not bounded: a difference too large for a double, which the
    source computes as infinity, is a large number here, and both fail every
    comparison with 50 from below; a difference of two doubles too small for
    a normal double is a multiple of the least double, and exact in both. *)
Definition round (q : Q) : Q :=
  let r := Qred q in
  match Qnum r with
  | 0 => 0%Q
  | Z.pos a => round_positive a (Qden r)
  | Z.neg a => (- round_positive a (Qden r))%Q
  end.

(** [a - b] on two doubles. *)
Definition sub (a b : Q) : Q := round (a - b).

End Float64.

(** ** Stale-element best-match scoring
    ([ElementStalenessWatchdog._find_by_element_characteristics]) *)

Module Scoring.

(** The node-name test of the loop body. *)
Definition name_matches (stale_node fresh_node : EnhancedDOMTreeNode) : bool :=
  PyStr.truthy (node_name stale_node) && PyStr.truthy (node_name fresh_node)
  && PyStr.eqb (PyStr.lower (node_name stale_node)) (PyStr.lower (node_name fresh_node)).

(** The attribute loop: [for attr in common_attrs: if ... == ...: score += 2]. *)
Definition add_attribute_points (stale_node fresh_node : EnhancedDOMTreeNode) (score : Z) : Z :=
  if bool_decide (attributes stale_node ≠ ∅) && bool_decide (attributes fresh_node ≠ ∅) then
    let common_attrs : gset string :=
      dom (attributes stale_node) ∩ dom (attributes fresh_node) in
    set_fold (fun attr score =>
                if bool_decide (attributes stale_node !! attr = attributes fresh_node !! attr)
                then score + 2 else score)
             score common_attrs
  else score.

(** The position test: [x_diff = abs(stale.x - fresh.x)], [y_diff] likewise,
    and [x_diff < 50 and y_diff < 50]. *)
Definition position_matches (stale_node fresh_node : EnhancedDOMTreeNode) : bool :=
  match absolute_position stale_node, absolute_position fresh_node with
  | Some p, Some q =>
      let x_diff := Qabs (Float64.sub (x p) (x q)) in
      let y_diff := Qabs (Float64.sub (y p) (y q)) in
      Qltb x_diff 50 && Qltb y_diff 50
  | _, _ => false
  end.

(** The score one iteration of the loop computes for [fresh_node]. *)
Definition score (stale_node fresh_node : EnhancedDOMTreeNode) : Z :=
  let score := 0 in
  let score := if name_matches stale_node fresh_node then score + 10 else score in
  let score := add_attribute_points stale_node fresh_node score in
  let score := if position_matches stale_node fresh_node then score + 5 else score in
  score.

(** Loop state: [(best_match, best_match_score)]. *)
Definition best_step (stale_node : EnhancedDOMTreeNode)
    (st : option EnhancedDOMTreeNode * Z) (fresh_node : EnhancedDOMTreeNode)
    : option EnhancedDOMTreeNode * Z :=
  let '(best_match, best_match_score) := st in
  let score := score stale_node fresh_node in
  if (best_match_score <? score) && (15 <=? score)
  then (Some fresh_node, score)
  else (best_match, best_match_score).

Definition best_loop (stale_node : EnhancedDOMTreeNode)
    (st : option EnhancedDOMTreeNode * Z) (nodes : list EnhancedDOMTreeNode) :=
  fold_left (best_step stale_node) nodes st.

Definition _find_by_element_characteristics
    (stale_node : EnhancedDOMTreeNode) (fresh_selector_map : SelectorMap)
    : option EnhancedDOMTreeNode :=
  fst (best_loop stale_node (None, 0) (selector_values fresh_selector_map)).

(** The attribute keys present on both nodes with equal values. *)
Definition equal_attributes (stale_node fresh_node : EnhancedDOMTreeNode) : gset string :=
  filter (fun attr => attributes stale_node !! attr = attributes fresh_node !! attr)
         (dom (attributes stale_node) ∩ dom (attributes fresh_node)).

End Scoring.

(** What the loop has established after the candidates [seen]. *)
Definition best_so_far (stale_node : EnhancedDOMTreeNode)
    (seen : list EnhancedDOMTreeNode) (st : option EnhancedDOMTreeNode * Z) : Prop :=
  match fst st with
  | None =>
      snd st = 0 /\ forall c, c ∈ seen -> Scoring.score stale_node c < 15
  | Some best =>
      snd st = Scoring.score stale_node best /\ 15 <= snd st
      /\ exists i, seen !! i = Some best
           /\ (forall j c, seen !! j = Some c -> Scoring.score stale_node c <= snd st)
           /\ (forall j c, (j < i)%nat -> seen !! j = Some c
                           -> Scoring.score stale_node c < snd st)
  end.

(** The position test as the design document words it: both nodes have a
    recorded position and the two differ by less than 50 pixels on each axis. *)
Definition documented_position_matches (stale_node fresh_node : EnhancedDOMTreeNode) : bool :=
  match absolute_position stale_node, absolute_position fresh_node with
  | Some p, Some q => Qltb (Qabs (x p - x q)) 50 && Qltb (Qabs (y p - y q)) 50
  | _, _ => false
  end.

(** The score with the position test of the design document. *)
Definition documented_score (stale_node fresh_node : EnhancedDOMTreeNode) : Z :=
  (if Scoring.name_matches stale_node fresh_node then 10 else 0)
  + 2 * Z.of_nat (size (Scoring.equal_attributes stale_node fresh_node))
  + (if documented_position_matches stale_node fresh_node then 5 else 0).


(** ** Exceptions and watchdog state

    A handler runs over a world [W] (the watchdog's own dictionaries, the
    event it was given, the calls it has made so far). The outcome of a
    call into the browser session, the CDP client or the event bus is
    [Ok] with its value or [Exc] with the text [str(e)] of the exception
    raised. A handler returns, raises, or, where it loops, may exhaust
    the iterations it is given. State changes made before an exception
    persist, as mutations of Python objects do. *)

Inductive Res (A : Type) : Type :=
| Ok (a : A)
| Exc (message : string).
Arguments Ok {A} a.
Arguments Exc {A} message.

Inductive Run (A : Type) : Type :=
| Returns (a : A)
| Raises (message : string)
| OutOfFuel.
Arguments Returns {A} a.
Arguments Raises {A} message.
Arguments OutOfFuel {A}.

Definition M (W A : Type) : Type := W -> Run A * W.

#[global] Instance M_ret {W} : MRet (M W) := fun A a w => (Returns a, w).

#[global] Instance M_bind {W} : MBind (M W) := fun A B f c w =>
  match c w with
  | (Returns a, w') => f a w'
  | (Raises e, w') => (Raises e, w')
  | (OutOfFuel, w') => (OutOfFuel, w')
  end.

(** [try: body except Exception as e: handler] *)
Definition try_except {W A} (body : M W A) (handler : string -> M W A) : M W A :=
  fun w =>
    match body w with
    | (Raises e, w') => handler e w'
    | (r, w') => (r, w')
    end.

Definition get_world {W} : M W W := fun w => (Returns w, w).
Definition modify {W} (f : W -> W) : M W unit := fun w => (Returns tt, f w).

(** The outcome of an external call, as the caller sees it. *)
Definition outcome {A} (r : Res A) : Run A :=
  match r with
  | Ok a => Returns a
  | Exc e => Raises e
  end.

(** An external call whose outcome the environment fixes. *)
Definition external {W A} (r : Res A) : M W A := fun w => (outcome r, w).

(** What one iteration of a loop asks for next. *)
Inductive Step (S R : Type) : Type :=
| Next (s : S)        (* go on with the loop test *)
| Break (s : S)       (* [break] *)
| Return (r : R).     (* [return r] from the enclosing function *)
Arguments Next {S R} s.
Arguments Break {S R} s.
Arguments Return {S R} r.

(** [while cond: body], run for at most [fuel] iterations: the loop
    variables at its exit ([inl]) or the value returned from inside it
    ([inr]). The test reads the loop variables and the world. *)
Fixpoint while {W S R} (fuel : nat) (cond : S -> W -> bool) (body : S -> M W (Step S R))
    (s : S) : M W (S + R) :=
  match fuel with
  | O => fun w => (OutOfFuel, w)
  | Datatypes.S fuel' =>
      fun w =>
        if cond s w then
          (step ← body s;
           match step with
           | Next s' => while fuel' cond body s'
           | Break s' => mret (inl s')
           | Return r => mret (inr r)
           end) w
        else (Returns (inl s), w)
  end.

(** ** Element staleness watchdog ([element_staleness_watchdog.py]) *)

Module Staleness.

(** The events the watchdog listens to ([browser_use.browser.events]); only
    [ScrollEvent] may carry no node. [fields] stands for the other fields. *)
Inductive Event :=
| ClickElementEvent (node : EnhancedDOMTreeNode) (fields : gmap string string)
| TypeTextEvent (node : EnhancedDOMTreeNode) (fields : gmap string string)
| UploadFileEvent (node : EnhancedDOMTreeNode) (fields : gmap string string)
| ScrollEvent (node : option EnhancedDOMTreeNode) (fields : gmap string string).

Definition event_node (event : Event) : option EnhancedDOMTreeNode :=
  match event with
  | ClickElementEvent n _ | TypeTextEvent n _ | UploadFileEvent n _ => Some n
  | ScrollEvent n _ => n
  end.

Definition event_fields (event : Event) : gmap string string :=
  match event with
  | ClickElementEvent _ f | TypeTextEvent _ f | UploadFileEvent _ f | ScrollEvent _ f => f
  end.

(** [event.node = fresh_element] *)
Definition set_event_node (event : Event) (fresh_element : EnhancedDOMTreeNode) : Event :=
  match event with
  | ClickElementEvent _ f => ClickElementEvent fresh_element f
  | TypeTextEvent _ f => TypeTextEvent fresh_element f
  | UploadFileEvent _ f => UploadFileEvent fresh_element f
  | ScrollEvent _ f => ScrollEvent (Some fresh_element) f
  end.

(** The [details] of the [BrowserErrorEvent] the watchdog emits. *)
Record ErrorDetails := {
  details_action_type : string;
  details_element_index : Z;
  details_retry_count : Z
}.

(** Calls the watchdog makes on its collaborators, in order. *)
Inductive Effect :=
| CdpDescribeNode (nodeId : Z)
| DomClearCache
| DispatchBrowserStateRequest
| SelectorMapLookup (index : Z)
| DispatchBrowserError (error_type message : string) (details : ErrorDetails).

(** [describe_result['node']['nodeName']], when the reply carries it. *)
Record DescribeReply := { reply_node_name : option string }.

(** The DOM watchdog as seen from here. *)
Record DomWatchdog := {
  selector_map : option SelectorMap;
  clear_cache : Res unit
}.

(** What the collaborators answer during one handling of an event. *)
Record Env := {
  get_or_create_cdp_session : Res unit;
  describeNode : Res DescribeReply;
  time : Q;                              (* [time.time()] *)
  _dom_watchdog : option DomWatchdog;    (* [browser_session._dom_watchdog] *)
  state_request : Res unit;              (* dispatch and await of the state request *)
  dispatch_error : Res unit              (* [event_bus.dispatch(BrowserErrorEvent(...))] *)
}.

Record World := {
  _retry_counts : gmap string Z;
  _last_dom_rebuild : Q;
  event : Event;
  effects : list Effect
}.

Definition set_retry_counts (f : gmap string Z -> gmap string Z) (w : World) : World :=
  {| _retry_counts := f (_retry_counts w); _last_dom_rebuild := _last_dom_rebuild w;
     event := event w; effects := effects w |}.

Definition set_last_dom_rebuild (t : Q) (w : World) : World :=
  {| _retry_counts := _retry_counts w; _last_dom_rebuild := t;
     event := event w; effects := effects w |}.

Definition set_event (e : Event) (w : World) : World :=
  {| _retry_counts := _retry_counts w; _last_dom_rebuild := _last_dom_rebuild w;
     event := e; effects := effects w |}.

Definition record (e : Effect) (w : World) : World :=
  {| _retry_counts := _retry_counts w; _last_dom_rebuild := _last_dom_rebuild w;
     event := event w; effects := effects w ++ [e] |}.

(** A recorded call on a collaborator. *)
Definition call {A} (e : Effect) (outcome : Res A) : M World A :=
  modify (record e) ;; external outcome.

Definition _get_element_key (node : EnhancedDOMTreeNode) : string :=
  target_id node +:+ "_" +:+ pretty (element_index node) +:+ "_" +:+ pretty (node_id node).

Definition _get_retry_count (retry_key : string) : M World Z :=
  w ← get_world; mret (default 0 (_retry_counts w !! retry_key)).

Definition _increment_retry_count (retry_key : string) : M World unit :=
  c ← _get_retry_count retry_key;
  modify (set_retry_counts <[retry_key := c + 1]>).

Definition _reset_retry_count (retry_key : string) : M World unit :=
  modify (set_retry_counts (delete retry_key)).

Definition stale_indicators : list string :=
  [ "node not found";
    "could not find node";
    "invalid node id";
    "node is not attached";
    "disconnected frame";
    "execution context destroyed" ].

Definition _check_element_staleness (env : Env) (node : EnhancedDOMTreeNode) : M World bool :=
  try_except
    (if negb (PyStr.truthy (target_id node)) then mret false
     else
       external (get_or_create_cdp_session env) ;;
       try_except
         (describe_result ← call (CdpDescribeNode (node_id node)) (describeNode env);
          let original_name := node_name node in
          let current_name := PyStr.lower (default "" (reply_node_name describe_result)) in
          if PyStr.truthy original_name && PyStr.truthy current_name
             && negb (PyStr.eqb (PyStr.lower original_name) current_name)
          then mret true
          else mret false)
         (fun e =>
            let error_str := PyStr.lower e in
            if PyStr.any_in stale_indicators error_str then mret true
            else mret false))
    (fun e => mret false).

Definition _get_dom_watchdog (env : Env) : option DomWatchdog := _dom_watchdog env.

Definition _force_dom_rebuild (env : Env) : M World unit :=
  let current_time := time env in
  w ← get_world;
  if Qltb (current_time - _last_dom_rebuild w) 1 then mret tt
  else
    try_except
      (match _get_dom_watchdog env with
       | Some dom_watchdog => call DomClearCache (clear_cache dom_watchdog)
       | None => mret tt
       end ;;
       call DispatchBrowserStateRequest (state_request env) ;;
       modify (set_last_dom_rebuild current_time))
      (fun e => mret tt).

Definition _find_fresh_element_equivalent (env : Env) (stale_node : EnhancedDOMTreeNode)
    : M World (option EnhancedDOMTreeNode) :=
  try_except
    (match _get_dom_watchdog env with
     | None => mret None
     | Some dom_watchdog =>
         match selector_map dom_watchdog with
         | None | Some [] => mret None
         | Some fresh_selector_map =>
             modify (record (SelectorMapLookup (element_index stale_node))) ;;
             match selector_get fresh_selector_map (element_index stale_node) with
             | Some fresh_element => mret (Some fresh_element)
             | None =>
                 mret (Scoring._find_by_element_characteristics stale_node fresh_selector_map)
             end
         end
     end)
    (fun e => mret None).

Definition _update_event_with_fresh_element (fresh_element : EnhancedDOMTreeNode)
    : M World unit :=
  modify (fun w => set_event (set_event_node (event w) fresh_element) w).

Definition _handle_stale_element (env : Env) (action_type : string)
    (stale_node : EnhancedDOMTreeNode) (retry_key : string) : M World unit :=
  retry_count ← _get_retry_count retry_key;
  let max_retries := 2 in
  if max_retries <=? retry_count then
    let error_msg :=
      "Element staleness retry limit exceeded for " +:+ action_type
      +:+ " on element " +:+ pretty (element_index stale_node) in
    call (DispatchBrowserError "ElementStalenessRetryExceeded" error_msg
            {| details_action_type := action_type;
               details_element_index := element_index stale_node;
               details_retry_count := retry_count |})
         (dispatch_error env)
  else
    try_except
      (_increment_retry_count retry_key ;;
       _force_dom_rebuild env ;;
       fresh_element ← _find_fresh_element_equivalent env stale_node;
       match fresh_element with
       | Some fresh_element =>
           _update_event_with_fresh_element fresh_element ;;
           _reset_retry_count retry_key
       | None => mret tt
       end)
      (fun e => mret tt).

Definition _handle_element_action_with_staleness_check (env : Env)
    (action_type : string) (node : EnhancedDOMTreeNode) : M World unit :=
  let element_key := _get_element_key node in
  let retry_key := action_type +:+ "_" +:+ element_key in
  try_except
    (is_stale ← _check_element_staleness env node;
     if (is_stale : bool) then _handle_stale_element env action_type node retry_key
     else _reset_retry_count retry_key)
    (fun e => mret tt).

(** The four handlers, dispatched on the class of the event held by the world. *)
Definition on_event (env : Env) : M World unit :=
  w ← get_world;
  match event w with
  | ClickElementEvent node _ => _handle_element_action_with_staleness_check env "click" node
  | TypeTextEvent node _ => _handle_element_action_with_staleness_check env "type" node
  | UploadFileEvent node _ => _handle_element_action_with_staleness_check env "upload" node
  | ScrollEvent (Some node) _ => _handle_element_action_with_staleness_check env "scroll" node
  | ScrollEvent None _ => mret tt
  end.

(** The counter of [retry_key], 0 when absent. *)
Definition retry_count_of (w : World) (retry_key : string) : Z :=
  default 0 (_retry_counts w !! retry_key).

(** Successive handlings of the same stale element, one environment each. *)
Fixpoint handle_stale_repeatedly (envs : list Env) (action_type : string)
    (stale_node : EnhancedDOMTreeNode) (retry_key : string) (w : World) : World :=
  match envs with
  | [] => w
  | env :: envs' =>
      handle_stale_repeatedly envs' action_type stale_node retry_key
        (snd (_handle_stale_element env action_type stale_node retry_key w))
  end.

Definition is_error_event (e : Effect) : bool :=
  match e with DispatchBrowserError _ _ _ => true | _ => false end.

(** How many error events the watchdog has dispatched. *)
Definition errors_emitted (w : World) : nat :=
  length (List.filter is_error_event (effects w)).

(** The environment of a handling in which the element is not found again. *)
Definition unresolved (stale_node : EnhancedDOMTreeNode) (env : Env) : Prop :=
  forall w, fst (_find_fresh_element_equivalent env stale_node w) = Returns None.

(** The indicator list as the design document gives it. *)
Definition documented_stale_indicators : list string :=
  [ "node not found";
    "invalid node id";
    "node is not attached";
    "disconnected frame";
    "execution context destroyed" ].

End Staleness.

(** Sample inputs of the staleness check. *)
Module StalenessSamples.

Definition button : EnhancedDOMTreeNode :=
  {| target_id := "T1"; node_id := 47; backend_node_id := 907; element_index := 7;
     node_name := "BUTTON"; tag_name := "button"; attributes := {[ "id" := "submit-1" ]};
     absolute_position := Some {| x := 100; y := 200 |}; children_text := "Submit" |}.

Definition world : Staleness.World :=
  {| Staleness._retry_counts := ∅; Staleness._last_dom_rebuild := 0;
     Staleness.event := Staleness.ClickElementEvent button ∅;
     Staleness.effects := [] |}.

(** The node-description query fails with [message]. *)
Definition failing_env (message : string) : Staleness.Env :=
  {| Staleness.get_or_create_cdp_session := Ok tt;
     Staleness.describeNode := Exc message;
     Staleness.time := 1000;
     Staleness._dom_watchdog := None;
     Staleness.state_request := Ok tt;
     Staleness.dispatch_error := Ok tt |}.

(** The query succeeds and reports a node named [name]. *)
Definition describing_env (name : string) : Staleness.Env :=
  {| Staleness.get_or_create_cdp_session := Ok tt;
     Staleness.describeNode := Ok {| Staleness.reply_node_name := Some name |};
     Staleness.time := 1000;
     Staleness._dom_watchdog := None;
     Staleness.state_request := Ok tt;
     Staleness.dispatch_error := Ok tt |}.

End StalenessSamples.

(** Environments of a stale element: the query reports the node as gone, and
    the rebuilt selector map is [index]. *)
Module RecoverySamples.

Definition stale_env (index : SelectorMap) : Staleness.Env :=
  {| Staleness.get_or_create_cdp_session := Ok tt;
     Staleness.describeNode := Exc "No node with given id found: node not found";
     Staleness.time := 1000;
     Staleness._dom_watchdog :=
       Some {| Staleness.selector_map := Some index; Staleness.clear_cache := Ok tt |};
     Staleness.state_request := Ok tt;
     Staleness.dispatch_error := Ok tt |}.

Definition other : EnhancedDOMTreeNode :=
  {| target_id := "T1"; node_id := 60; backend_node_id := 960; element_index := 2;
     node_name := "A"; tag_name := "a"; attributes := {[ "href" := "/home" ]};
     absolute_position := None; children_text := "Home" |}.

Definition fresh_button : EnhancedDOMTreeNode :=
  {| target_id := "T1"; node_id := 81; backend_node_id := 981; element_index := 7;
     node_name := "BUTTON"; tag_name := "button"; attributes := {[ "id" := "submit-1" ]};
     absolute_position := Some {| x := 100; y := 200 |}; children_text := "Submit" |}.

Definition click_world : Staleness.World :=
  {| Staleness._retry_counts := ∅; Staleness._last_dom_rebuild := 0;
     Staleness.event :=
       Staleness.ClickElementEvent StalenessSamples.button {[ "button" := "left" ]};
     Staleness.effects := [] |}.

End RecoverySamples.

(** Sample elements: a submit button and candidates of a rebuilt index. *)
Module ScoringSamples.

Definition mk_node (index : Z) (name : string) (attrs : list (string * string))
    (pos : option (Q * Q)) : EnhancedDOMTreeNode :=
  {| target_id := "T1"; node_id := 40 + index; backend_node_id := 900 + index;
     element_index := index; node_name := name; tag_name := PyStr.lower name;
     attributes := list_to_map attrs;
     absolute_position := (fun p => {| x := fst p; y := snd p |}) <$> pos;
     children_text := "" |}.

Definition stale_button : EnhancedDOMTreeNode :=
  mk_node 7 "BUTTON" [("id", "submit-1"); ("class", "btn")] (Some (100%Q, 200%Q)).

(** shares only the tag *)
Definition tag_only : EnhancedDOMTreeNode :=
  mk_node 3 "button" [("id", "cancel")] (Some (400%Q, 900%Q)).

(** shares the tag, the id attribute and lies within 50px *)
Definition full_match : EnhancedDOMTreeNode :=
  mk_node 9 "button" [("id", "submit-1"); ("class", "primary")] (Some (120%Q, 230%Q)).

(** a second candidate with the same score as [full_match] *)
Definition full_match_twin : EnhancedDOMTreeNode :=
  mk_node 11 "button" [("id", "submit-1")] (Some (149%Q, 151%Q)).

(** exactly 50px away on the x axis: outside the tolerance *)
Definition at_tolerance : EnhancedDOMTreeNode :=
  mk_node 12 "button" [("id", "submit-1")] (Some (150%Q, 200%Q)).

Definition fresh_index : SelectorMap :=
  [(3, tag_only); (9, full_match); (11, full_match_twin); (12, at_tolerance)].

End ScoringSamples.

(** A reference at x = 50 and a candidate at x = 2^-70, of the same tag and
    id and at the same height. *)
Module RoundingSamples.

Definition stale_button : EnhancedDOMTreeNode :=
  ScoringSamples.mk_node 7 "BUTTON" [("id", "submit-1")] (Some (50%Q, 200%Q)).

Definition near_origin : EnhancedDOMTreeNode :=
  ScoringSamples.mk_node 5 "button" [("id", "submit-1")]
    (Some ((1 # 2 ^ 70)%Q, 200%Q)).

End RoundingSamples.

(** ** Error classification ([browser_use/tools/error_classifier.py]) *)

(** The regular expressions of the classifier are literals joined by [.*];
    a pattern is the list of its literal segments. [re.search] without
    [re.DOTALL]: [.] matches any character but a newline. *)
Module Regex.

Definition Pattern := list string.

Definition is_newline (c : ascii) : bool := Ascii.eqb c "010"%char.

(** [s] with the literal [lit] removed from its start, if it starts with it. *)
Fixpoint strip_prefix (lit s : string) : option string :=
  match lit with
  | EmptyString => Some s
  | String a lit' =>
      match s with
      | String b s' => if Ascii.eqb a b then strip_prefix lit' s' else None
      | EmptyString => None
      end
  end.

(** [.*] followed by what [k] accepts. *)
Fixpoint dot_star (k : string -> bool) (s : string) : bool :=
  k s
  || match s with
     | EmptyString => false
     | String c s' => if is_newline c then false else dot_star k s'
     end.

(** The pattern matches at the start of [s]. *)
Fixpoint match_here (segments : Pattern) (s : string) : bool :=
  match segments with
  | [] => true
  | lit :: rest =>
      match strip_prefix lit s with
      | Some s' =>
          match rest with
          | [] => true
          | _ => dot_star (match_here rest) s'
          end
      | None => false
      end
  end.

(** [re.search(pattern, s)]: the pattern matches at some offset of [s]. *)
Fixpoint search (segments : Pattern) (s : string) : bool :=
  match_here segments s
  || match s with
     | EmptyString => false
     | String _ s' => search segments s'
     end.

End Regex.

#[global] Arguments Regex.search : simpl never.

Module ErrorClassifier.

Inductive ErrorCategory :=
| RETRYABLE_NETWORK
| RETRYABLE_TIMING
| RETRYABLE_RESOURCE
| RETRYABLE_STALE_ELEMENT
| PERMANENT_INVALID_INPUT
| PERMANENT_NOT_FOUND
| PERMANENT_ACCESS_DENIED
| PERMANENT_CONFIGURATION
| UNKNOWN.

Record ErrorClassificationResult := {
  category : ErrorCategory;
  should_retry : bool;
  retry_delay : Q;
  max_retries : Z;
  user_message : string;
  technical_details : string
}.

(** [a or b] on strings *)
Definition str_or (a b : string) : string := if PyStr.truthy a then a else b.

(** [ErrorClassificationResult.__init__], with its defaults *)
Definition new_result (category : ErrorCategory) (should_retry : bool)
    (retry_delay : option Q) (max_retries : option Z)
    (user_message technical_details : option string) : ErrorClassificationResult :=
  {| category := category;
     should_retry := should_retry;
     retry_delay := default 0%Q retry_delay;
     max_retries := default 0 max_retries;
     user_message := str_or (default "" user_message) "An error occurred";
     technical_details := str_or (default "" technical_details) "" |}.

(** A Python exception as the classifier reads it. *)
Record PyError := {
  error_text : string;          (* [str(error)] *)
  error_type_name : string;     (* [type(error).__name__] *)
  is_TimeoutError : bool        (* [isinstance(error, TimeoutError)] *)
}.

Definition network_patterns : list (Regex.Pattern * string) :=
  [ (["net::err_"], "Network error");
    (["connection"; "refuse"], "Connection refused");
    (["connection"; "timeout"], "Connection timeout");
    (["dns"; "not"; "resolv"], "DNS resolution failed");
    (["name"; "not"; "resolv"], "Domain name resolution failed");
    (["internet"; "disconnect"], "Internet connection lost");
    (["network"; "chang"], "Network configuration changed");
    (["ssl"; "protocol"; "error"], "SSL/TLS protocol error");
    (["cert"; "error"], "Certificate error");
    (["failed to fetch"], "Network fetch failed");
    (["load"; "fail"], "Resource load failed") ].

Definition timing_patterns : list (Regex.Pattern * string) :=
  [ (["timeout"], "Operation timed out");
    (["wait"; "timeout"], "Wait operation timed out");
    (["element"; "not"; "found"; "within"], "Element detection timeout");
    (["page"; "load"; "timeout"], "Page load timeout");
    (["navigation"; "timeout"], "Navigation timeout") ].

Definition resource_patterns : list (Regex.Pattern * string) :=
  [ (["insufficient"; "resource"], "Insufficient resources");
    (["memory"; "exceed"], "Memory limit exceeded");
    (["disk"; "full"], "Disk space full");
    (["too"; "many"; "request"], "Rate limit exceeded");
    (["service"; "unavailable"], "Service temporarily unavailable");
    (["server"; "error"], "Server error");
    (["internal"; "error"], "Internal server error") ].

Definition stale_element_patterns : list (Regex.Pattern * string) :=
  [ (["stale"; "element"], "Stale element reference");
    (["element"; "no"; "longer"; "attach"], "Element detached from DOM");
    (["node"; "not"; "found"], "DOM node not found");
    (["invalid"; "node"; "id"], "Invalid node identifier");
    (["element"; "reference"; "invalid"], "Invalid element reference");
    (["execution"; "context"; "destroy"], "Execution context destroyed") ].

Definition invalid_input_patterns : list (Regex.Pattern * string) :=
  [ (["invalid"; "index"], "Invalid element index");
    (["element"; "index"; "not"; "found"], "Element index not found");
    (["parameter"; "missing"], "Required parameter missing");
    (["invalid"; "parameter"], "Invalid parameter value");
    (["malformed"; "url"], "Malformed URL");
    (["invalid"; "selector"], "Invalid CSS selector") ].

Definition not_found_patterns : list (Regex.Pattern * string) :=
  [ (["not"; "found"; "in"; "browser"; "state"], "Element not in browser state");
    (["text"; "not"; "found"; "on"; "page"], "Text not found on page");
    (["file"; "not"; "exist"], "File does not exist");
    (["path"; "not"; "exist"], "Path does not exist");
    (["page"; "not"; "found"], "Page not found (404)") ].

Definition access_denied_patterns : list (Regex.Pattern * string) :=
  [ (["access"; "denied"], "Access denied");
    (["permission"; "denied"], "Permission denied");
    (["unauthorized"], "Unauthorized access");
    (["forbidden"], "Forbidden access");
    (["authentication"; "required"], "Authentication required") ].

Definition configuration_patterns : list (Regex.Pattern * string) :=
  [ (["cdp"; "client"; "not"; "initialize"], "Browser connection not initialized");
    (["browser"; "not"; "start"], "Browser failed to start");
    (["invalid"; "configuration"], "Invalid configuration");
    (["missing"; "dependency"], "Missing dependency");
    (["incompatible"; "version"], "Incompatible version") ].

(** [for pattern, description in patterns: if re.search(...): return ...]:
    the description of the first pattern found in [error_str]. *)
Fixpoint first_match (patterns : list (Regex.Pattern * string)) (error_str : string)
    : option string :=
  match patterns with
  | [] => None
  | (pattern, description) :: patterns' =>
      if Regex.search pattern error_str then Some description
      else first_match patterns' error_str
  end.

Definition classify_error (error : PyError) (action_name : string)
    (context : option (gmap string string)) : ErrorClassificationResult :=
  let context := match context with
                 | Some c => if bool_decide (c = ∅) then ∅ else c
                 | None => ∅
                 end in
  let error_str := PyStr.lower (error_text error) in
  let error_type := error_type_name error in
  match first_match network_patterns error_str with
  | Some description =>
      new_result RETRYABLE_NETWORK true (Some 2%Q) (Some 3)
        (Some ("Network issue: " +:+ description +:+ ". Retrying..."))
        (Some error_str)
  | None =>
  match first_match timing_patterns error_str with
  | Some description =>
      new_result RETRYABLE_TIMING true (Some 3%Q) (Some 2)
        (Some ("Timing issue: " +:+ description +:+ ". Retrying with longer timeout..."))
        (Some error_str)
  | None =>
  match first_match resource_patterns error_str with
  | Some description =>
      new_result RETRYABLE_RESOURCE true (Some 5%Q) (Some 2)
        (Some ("Resource issue: " +:+ description +:+ ". Waiting before retry..."))
        (Some error_str)
  | None =>
  match first_match stale_element_patterns error_str with
  | Some description =>
      new_result RETRYABLE_STALE_ELEMENT true (Some (1 # 2)%Q) (Some 2)
        (Some ("Element became stale: " +:+ description +:+ ". Refreshing and retrying..."))
        (Some error_str)
  | None =>
  match first_match invalid_input_patterns error_str with
  | Some description =>
      new_result PERMANENT_INVALID_INPUT false None None
        (Some ("Invalid input: " +:+ description +:+ ". Please check your parameters."))
        (Some error_str)
  | None =>
  match first_match not_found_patterns error_str with
  | Some description =>
      new_result PERMANENT_NOT_FOUND false None None
        (Some ("Not found: " +:+ description +:+ ". The requested item is not available."))
        (Some error_str)
  | None =>
  match first_match access_denied_patterns error_str with
  | Some description =>
      new_result PERMANENT_ACCESS_DENIED false None None
        (Some ("Access denied: " +:+ description +:+ ". Check permissions or authentication."))
        (Some error_str)
  | None =>
  match first_match configuration_patterns error_str with
  | Some description =>
      new_result PERMANENT_CONFIGURATION false None None
        (Some ("Configuration error: " +:+ description +:+ ". Check system setup."))
        (Some error_str)
  | None =>
      if is_TimeoutError error then
        new_result RETRYABLE_TIMING true (Some 3%Q) (Some 2)
          (Some "Operation timed out. Retrying with extended timeout...")
          (Some error_str)
      else
        new_result UNKNOWN false None None
          (Some "An unexpected error occurred. Please try the action again manually.")
          (Some (error_type +:+ ": " +:+ error_str))
  end end end end end end end end.

(** [get_retry_strategy]; [jitter] is the value [random.uniform(0, 1.0)]
    returns when the branch that draws it runs. *)
Definition get_retry_strategy (classification : ErrorClassificationResult)
    (attempt_number : Z) (jitter : Q) : bool * Q :=
  if negb (should_retry classification) then (false, 0%Q)
  else if max_retries classification <=? attempt_number then (false, 0%Q)
  else
    let base_delay := retry_delay classification in
    let delay :=
      match category classification with
      | RETRYABLE_NETWORK => (base_delay * 2 ^ attempt_number)%Q
      | RETRYABLE_TIMING => (base_delay + inject_Z attempt_number * 2)%Q
      | RETRYABLE_RESOURCE => (base_delay * (3 # 2) ^ attempt_number + jitter)%Q
      | RETRYABLE_STALE_ELEMENT => base_delay
      | _ => base_delay
      end in
    let delay := Qmin delay 30 in
    (true, delay).

End ErrorClassifier.

(** Sample errors. *)
Module ErrorSamples.

Definition connection_reset : ErrorClassifier.PyError :=
  {| ErrorClassifier.error_text := "net::ERR_CONNECTION_RESET at https://example.org/";
     ErrorClassifier.error_type_name := "RuntimeError";
     ErrorClassifier.is_TimeoutError := false |}.

Definition bare_timeout : ErrorClassifier.PyError :=
  {| ErrorClassifier.error_text := "";
     ErrorClassifier.error_type_name := "TimeoutError";
     ErrorClassifier.is_TimeoutError := true |}.

Definition division : ErrorClassifier.PyError :=
  {| ErrorClassifier.error_text := "division by zero";
     ErrorClassifier.error_type_name := "ZeroDivisionError";
     ErrorClassifier.is_TimeoutError := false |}.

End ErrorSamples.

(** ** Network reliability watchdog ([network_reliability_watchdog.py]) *)

Module NetworkReliability.

Record NavigationStartedEvent := {
  started_url : string;
  started_target_id : string
}.

Record NavigationCompleteEvent := {
  complete_url : string;
  complete_target_id : string;
  error_message : option string
}.

(** [Page.reload]'s parameters: [ignoreCache], when passed. *)
Inductive Effect :=
| Sleep (seconds : Q)
| EvaluateLocationHref
| PageReload (ignoreCache : option bool)
| DispatchNavigateToUrl (url target_id : string).

Record Env := {
  time : Q;                               (* [time.time()] *)
  jitter : Q;                             (* [random.uniform(0, 1.0)] *)
  get_or_create_cdp_session : Res unit;
  location_href : Res (option string);    (* the value of [window.location.href] *)
  reload : Res unit;
  dispatch_navigate : Res unit
}.

Record World := {
  _network_failure_count : gmap string Z;
  _last_network_failure : gmap string Q;
  effects : list Effect
}.

Definition set_failure_count (f : gmap string Z -> gmap string Z) (w : World) : World :=
  {| _network_failure_count := f (_network_failure_count w);
     _last_network_failure := _last_network_failure w;
     effects := effects w |}.

Definition set_last_failure (f : gmap string Q -> gmap string Q) (w : World) : World :=
  {| _network_failure_count := _network_failure_count w;
     _last_network_failure := f (_last_network_failure w);
     effects := effects w |}.

Definition record (e : Effect) (w : World) : World :=
  {| _network_failure_count := _network_failure_count w;
     _last_network_failure := _last_network_failure w;
     effects := effects w ++ [e] |}.

Definition call {A} (e : Effect) (outcome : Res A) : M World A :=
  modify (record e) ;; external outcome.

(** [self._network_failure_count.pop(url, None); self._last_network_failure.pop(url, None)] *)
Definition forget (url : string) (w : World) : World :=
  set_last_failure (delete url) (set_failure_count (delete url) w).

(** One iteration of the sweep of [on_NavigationStartedEvent]. *)
Definition expire (current_time : Q) (w : World) (url : string) : World :=
  match _last_network_failure w !! url with
  | Some last_failure =>
      if Qgtb (current_time - last_failure) 300 then forget url w else w
  | None => w
  end.

Definition on_NavigationStartedEvent (env : Env) (event : NavigationStartedEvent)
    : M World unit :=
  let current_time := time env in
  modify (fun w =>
            fold_left (expire current_time) (map fst (map_to_list (_last_network_failure w))) w).

Definition permanent_errors : list string :=
  [ "name_not_resolved";
    "dns_probe_finished_nxdomain";
    "cert_authority_invalid";
    "cert_common_name_invalid" ].

Definition _calculate_retry_strategy (url error_message : string) (failure_count : Z)
    (jitter : Q) : bool * Q :=
  let max_retries := 3 in
  let error_lower := PyStr.lower error_message in
  if PyStr.any_in permanent_errors error_lower then (false, 0%Q)
  else if max_retries <=? failure_count then (false, 0%Q)
  else
    let base_delay := 2%Q in
    let retry_delay := (base_delay * 2 ^ (failure_count - 1))%Q in
    let retry_delay := Qmin retry_delay 30 in
    let retry_delay := (retry_delay + jitter)%Q in
    (true, retry_delay).

Definition _handle_network_error (env : Env) (url error_message target_id : string)
    : M World unit :=
  let current_time := time env in
  w ← get_world;
  let failure_count := default 0 (_network_failure_count w !! url) + 1 in
  modify (set_failure_count <[url := failure_count]>) ;;
  modify (set_last_failure <[url := current_time]>) ;;
  let '(should_retry, retry_delay) :=
    _calculate_retry_strategy url error_message failure_count (jitter env) in
  if should_retry then
    modify (record (Sleep retry_delay)) ;;
    try_except
      (external (get_or_create_cdp_session env) ;;
       current_url_result ← call EvaluateLocationHref (location_href env);
       let current_url := default "" current_url_result in
       if PyStr.eqb current_url url || PyStr.eqb current_url "about:blank"
       then call (PageReload (Some true)) (reload env)
       else call (DispatchNavigateToUrl url target_id) (dispatch_navigate env))
      (fun e => mret tt)
  else mret tt.

Definition network_keywords : list string :=
  [ "net::err_";
    "dns_probe_finished";
    "connection_refused";
    "connection_timed_out";
    "network_changed";
    "internet_disconnected";
    "name_not_resolved";
    "connection_reset";
    "ssl_protocol_error";
    "cert_";
    "timeout";
    "failed to load";
    "server not found" ].

Definition on_NavigationCompleteEvent (env : Env) (event : NavigationCompleteEvent)
    : M World unit :=
  match error_message event with
  | None | Some EmptyString => modify (forget (complete_url event))
  | Some message =>
      let error_lower := PyStr.lower message in
      let is_network_error := PyStr.any_in network_keywords error_lower in
      if is_network_error
      then _handle_network_error env (complete_url event) message (complete_target_id event)
      else mret tt
  end.

(** The failure counter of [url], when it has one. *)
Definition failures (w : World) (url : string) : option Z :=
  _network_failure_count w !! url.

End NetworkReliability.

(** A navigation that keeps failing with a connection reset. *)
Module NetworkSamples.

Definition url : string := "https://example.org/".

Definition env_at (t : Q) : NetworkReliability.Env :=
  {| NetworkReliability.time := t;
     NetworkReliability.jitter := 1 # 4;
     NetworkReliability.get_or_create_cdp_session := Ok tt;
     NetworkReliability.location_href := Ok (Some url);
     NetworkReliability.reload := Ok tt;
     NetworkReliability.dispatch_navigate := Ok tt |}.

Definition initial : NetworkReliability.World :=
  {| NetworkReliability._network_failure_count := ∅;
     NetworkReliability._last_network_failure := ∅;
     NetworkReliability.effects := [] |}.

Definition started : NetworkReliability.NavigationStartedEvent :=
  {| NetworkReliability.started_url := url; NetworkReliability.started_target_id := "T1" |}.

Definition failed : NetworkReliability.NavigationCompleteEvent :=
  {| NetworkReliability.complete_url := url;
     NetworkReliability.complete_target_id := "T1";
     NetworkReliability.error_message := Some "net::ERR_CONNECTION_RESET" |}.

(** Two failures, recorded at times 0 and 10. *)
Definition after_two_failures : NetworkReliability.World :=
  snd (NetworkReliability.on_NavigationCompleteEvent (env_at 10) failed
         (snd (NetworkReliability.on_NavigationCompleteEvent (env_at 0) failed initial))).

End NetworkSamples.

(** ** Form reliability watchdog ([form_reliability_watchdog.py]) *)

Module FormReliability.

(** The dict [_capture_page_state] returns; a missing key is [None], or
    [false] for the flags, which are only read through [.get(key, False)]. *)
Record PageState := {
  url : option string;
  title : option string;
  hasErrorMessages : bool;
  hasSuccessMessages : bool;
  hasLoadingIndicators : bool;
  formCount : option Z;
  readyState : option string
}.

(** [{}] *)
Definition empty_state : PageState :=
  {| url := None; title := None; hasErrorMessages := false; hasSuccessMessages := false;
     hasLoadingIndicators := false; formCount := None; readyState := None |}.

(** An element the error selectors match: its trimmed text and whether it is displayed. *)
Record ErrorElement := { text : string; visible : bool }.

Record ErrorData := { errorCount : nat; errorMessages : list string }.

(** The page script of [_handle_form_submission_error]. *)
Definition error_script (errorElements : list ErrorElement) : ErrorData :=
  let errors := List.filter (fun err => visible err && PyStr.truthy (text err)) errorElements in
  {| errorCount := length errors;
     errorMessages := map text (firstn 3 errors) |}.

Record ElementInfo := { info_tag_name : string; info_text : string; info_index : Z }.

(** The value the input script returns for the element. *)
Record InputData := {
  value : option string;
  focused : bool;
  disabled : bool;
  readonly : bool
}.

Inductive LogRecord :=
| InfoUrlChanged (new_url : option string)       (* successful - URL changed *)
| InfoSuccessMessage                             (* successful - success message detected *)
| WarningSubmissionFailed (element : ElementInfo) (error_text : string)
| WarningSubmissionUnclear (element : ElementInfo)
| WarningInputMismatch (expected current : string)
| WarningInputDisabled
| WarningInputReadonly
| DebugTracking (element : ElementInfo)
| DebugStillProcessing
| DebugInputVerified
| DebugLostFocus
| DebugEnterInForm
| DebugFailed (where_ message : string).

Definition is_debug (l : LogRecord) : bool :=
  match l with
  | DebugTracking _ | DebugStillProcessing | DebugInputVerified | DebugLostFocus
  | DebugEnterInForm | DebugFailed _ _ => true
  | _ => false
  end.

Inductive Effect :=
| Sleep (seconds : Q)
| CapturePageState
| QueryErrorMessages
| QueryInputValue (backend_node_id : Z)
| QueryFormContext
| Log (l : LogRecord).

Record Env := {
  agent_focus : option string;                  (* [agent_focus.target_id], when focused *)
  get_or_create_cdp_session : Res unit;
  page_state : nat -> Res PageState;            (* the n-th run of the page-state script *)
  error_elements : Res (list ErrorElement);     (* what the error script finds *)
  input_data : Res (option InputData);          (* what the input script returns *)
  form_context : Res (option bool)              (* [inForm] of the form-context script *)
}.

Record World := {
  captures : nat;         (* runs of the page-state script so far *)
  effects : list Effect
}.

Definition record (e : Effect) (w : World) : World :=
  {| captures := captures w; effects := effects w ++ [e] |}.

Definition count_capture (w : World) : World :=
  {| captures := S (captures w); effects := effects w |}.

Definition log (l : LogRecord) : M World unit := modify (record (Log l)).
Definition sleep (seconds : Q) : M World unit := modify (record (Sleep seconds)).

Definition call {A} (e : Effect) (r : Res A) : M World A :=
  modify (record e) ;; external r.

Definition _capture_page_state (env : Env) : M World PageState :=
  try_except
    (w ← get_world;
     modify count_capture ;;
     call CapturePageState (page_state env (captures w)))
    (fun e => mret empty_state).

Definition submit_keywords : list string :=
  [ "submit"; "send"; "save"; "continue"; "proceed"; "next";
    "login"; "sign in"; "register"; "sign up"; "search";
    "go"; "apply"; "confirm"; "create"; "add"; "update" ].

Definition _is_likely_submit_button (element : EnhancedDOMTreeNode) : bool :=
  let text_content := PyStr.lower (children_text element) in
  PyStr.any_in submit_keywords text_content.

(** ['; '.join(messages)] *)
Fixpoint join (messages : list string) : string :=
  match messages with
  | [] => ""
  | [m] => m
  | m :: rest => m +:+ "; " +:+ join rest
  end.

Definition _handle_form_submission_error (env : Env) (element_info : ElementInfo)
    : M World unit :=
  try_except
    (errorElements ← call QueryErrorMessages (error_elements env);
     let error_data := error_script errorElements in
     let error_messages := errorMessages error_data in
     match error_messages with
     | _ :: _ =>
         let error_text := join error_messages in
         log (WarningSubmissionFailed element_info error_text)
     | [] => log (WarningSubmissionFailed element_info "Unknown error")
     end)
    (fun e => log (DebugFailed "Error message extraction failed" e)).

(** [a != b] on the values of [.get('url')] *)
Definition url_differs (a b : option string) : bool := negb (bool_decide (a = b)).

Definition max_wait_time : Q := 10.
Definition check_interval : Q := 1 # 2.

(** The body of the polling loop; the loop variable is [elapsed]. *)
Definition verify_poll (env : Env) (pre_submit_state : PageState)
    (element_info : ElementInfo) (elapsed : Q) : M World (Step Q unit) :=
  current_state ← _capture_page_state env;
  if url_differs (url current_state) (url pre_submit_state) then
    log (InfoUrlChanged (url current_state)) ;; mret (Return tt)
  else if hasSuccessMessages current_state then
    log InfoSuccessMessage ;; mret (Return tt)
  else if hasErrorMessages current_state then
    _handle_form_submission_error env element_info ;; mret (Return tt)
  else if hasLoadingIndicators current_state then
    log DebugStillProcessing ;;
    sleep (check_interval * 2) ;;
    mret (Next (elapsed + check_interval * 2)%Q)
  else
    sleep check_interval ;;
    mret (Next (elapsed + check_interval)%Q).

(** Iterations granted to the polling loop. *)
Definition verify_fuel : nat := 21.

Definition _verify_form_submission_success (env : Env) (pre_submit_state : PageState)
    (element_info : ElementInfo) : M World unit :=
  try_except
    (let elapsed := 0%Q in
     exit ← while verify_fuel (fun elapsed _ => Qltb elapsed max_wait_time)
                  (verify_poll env pre_submit_state element_info) elapsed;
     match exit with
     | inr tt => mret tt
     | inl _ =>
         final_state ← _capture_page_state env;
         if negb (url_differs (url final_state) (url pre_submit_state))
            && negb (hasSuccessMessages final_state)
         then log (WarningSubmissionUnclear element_info)
         else mret tt
     end)
    (fun e => log (DebugFailed "Form submission verification failed" e)).

Definition _track_form_submission (env : Env) (element : EnhancedDOMTreeNode)
    : M World unit :=
  try_except
    (match agent_focus env with
     | None => mret tt
     | Some focus_target_id =>
         external (get_or_create_cdp_session env) ;;
         pre_submit_state ← _capture_page_state env;
         let element_info :=
           {| info_tag_name := tag_name element;
              info_text := children_text element;
              info_index := element_index element |} in
         log (DebugTracking element_info) ;;
         sleep 1 ;;
         _verify_form_submission_success env pre_submit_state element_info
     end)
    (fun e => log (DebugFailed "Form submission tracking failed" e)).

(** [attributes.get(key, '').lower() if attributes else ''] *)
Definition attribute_lower (element : EnhancedDOMTreeNode) (key : string) : string :=
  if bool_decide (attributes element ≠ ∅)
  then PyStr.lower (default "" (attributes element !! key))
  else "".

Definition is_submit_element (element : EnhancedDOMTreeNode) : bool :=
  let tag_name :=
    if PyStr.truthy (tag_name element) then PyStr.lower (tag_name element) else "" in
  let element_type := attribute_lower element "type" in
  let element_role := attribute_lower element "role" in
  (PyStr.eqb tag_name "button"
   && (PyStr.eqb element_type "submit" || PyStr.eqb element_type ""))
  || (PyStr.eqb tag_name "input" && PyStr.eqb element_type "submit")
  || PyStr.eqb element_role "button"
  || _is_likely_submit_button element.

(** [event.node] of a click; [None] is the case the handler's guard covers. *)
Definition on_ClickElementEvent (env : Env) (node : option EnhancedDOMTreeNode)
    : M World unit :=
  match node with
  | None => mret tt
  | Some element =>
      if is_submit_element element then _track_form_submission env element
      else mret tt
  end.

Definition _verify_input_success (env : Env) (element : EnhancedDOMTreeNode)
    (expected_text : string) : M World unit :=
  try_except
    (match agent_focus env with
     | None => mret tt
     | Some focus_target_id =>
         external (get_or_create_cdp_session env) ;;
         if bool_decide (backend_node_id element = 0) then mret tt
         else
           input_data ← call (QueryInputValue (backend_node_id element)) (input_data env);
           match input_data with
           | None => mret tt
           | Some input_data =>
               match value input_data with
               | None => fun w => (Raises "argument of type 'NoneType' is not iterable", w)
               | Some current_value =>
                   if PyStr.contains expected_text current_value
                      || PyStr.contains current_value expected_text
                   then log DebugInputVerified
                   else
                     log (WarningInputMismatch expected_text current_value) ;;
                     if disabled input_data then log WarningInputDisabled
                     else if readonly input_data then log WarningInputReadonly
                     else if negb (focused input_data) then log DebugLostFocus
                     else mret tt
               end
           end
     end)
    (fun e => log (DebugFailed "Input verification failed" e)).

Definition on_TypeTextEvent (env : Env) (node : option EnhancedDOMTreeNode)
    (text : string) : M World unit :=
  match node with
  | None => mret tt
  | Some element =>
      sleep (1 # 10) ;;
      _verify_input_success env element text
  end.

Definition _detect_form_submission_by_enter (env : Env) : M World unit :=
  try_except
    (match agent_focus env with
     | None => mret tt
     | Some focus_target_id =>
         external (get_or_create_cdp_session env) ;;
         form_data ← call QueryFormContext (form_context env);
         match form_data with
         | Some true => log DebugEnterInForm ;; sleep (1 # 2)
         | _ => mret tt
         end
     end)
    (fun e => log (DebugFailed "Form context detection failed" e)).

Definition on_SendKeysEvent (env : Env) (keys : string) : M World unit :=
  if PyStr.eqb keys "Enter" then _detect_form_submission_by_enter env
  else mret tt.

(** What the [n]-th run of the page-state script yields to the watchdog. *)
Definition state_at (env : Env) (n : nat) : PageState :=
  match page_state env n with
  | Ok s => s
  | Exc _ => empty_state
  end.

(** A poll that decides nothing: URL as before, no success and no error flag. *)
Definition quiet (pre_submit_state current_state : PageState) : bool :=
  negb (url_differs (url current_state) (url pre_submit_state))
  && negb (hasSuccessMessages current_state)
  && negb (hasErrorMessages current_state).

(** The wait after a quiet poll. *)
Definition poll_wait (current_state : PageState) : Q :=
  if hasLoadingIndicators current_state then (check_interval * 2)%Q else check_interval.

(** [elapsed] after [k] quiet polls that started at run [first] of the script. *)
Fixpoint elapsed_after (env : Env) (first : nat) (elapsed : Q) (k : nat) : Q :=
  match k with
  | O => elapsed
  | S k' =>
      elapsed_after env (S first) (elapsed + poll_wait (state_at env first))%Q k'
  end.

(** The world after [k] quiet polls. *)
Fixpoint world_after (env : Env) (w : World) (k : nat) : World :=
  match k with
  | O => w
  | S k' =>
      let current_state := state_at env (captures w) in
      let w1 := record CapturePageState (count_capture w) in
      let w2 := if hasLoadingIndicators current_state
                then record (Log DebugStillProcessing) w1 else w1 in
      world_after env (record (Sleep (poll_wait current_state)) w2) k'
  end.

(** The records above debug level among the effects. *)
Definition reported (effects : list Effect) : list LogRecord :=
  omap (fun e => match e with
                 | Log l => if is_debug l then None else Some l
                 | _ => None
                 end) effects.

(** The tick rule as the design document words it: the success flag counts
    when it is newly true, that is true now and not before the submission. *)
Inductive Verdict := Success | Failure | Undecided.

Definition documented_tick (pre_submit_state current_state : PageState) : Verdict :=
  if url_differs (url current_state) (url pre_submit_state) then Success
  else if hasSuccessMessages current_state && negb (hasSuccessMessages pre_submit_state)
  then Success
  else if hasErrorMessages current_state then Failure
  else Undecided.

(** The verdict the watchdog reports, read off its log. *)
Definition reported_verdict (records : list LogRecord) : Verdict :=
  match records with
  | InfoUrlChanged _ :: _ | InfoSuccessMessage :: _ => Success
  | WarningSubmissionFailed _ _ :: _ => Failure
  | _ => Undecided
  end.

End FormReliability.

#[global] Arguments FormReliability.error_script : simpl never.
#[global] Arguments FormReliability.join : simpl never.

(** A form page whose success banner is already shown before the click. *)
Module FormSamples.

Definition state (u : string) (error success loading : bool) : FormReliability.PageState :=
  {| FormReliability.url := Some u; FormReliability.title := Some "Form";
     FormReliability.hasErrorMessages := error;
     FormReliability.hasSuccessMessages := success;
     FormReliability.hasLoadingIndicators := loading;
     FormReliability.formCount := Some 1; FormReliability.readyState := Some "complete" |}.

Definition submit_info : FormReliability.ElementInfo :=
  {| FormReliability.info_tag_name := "button"; FormReliability.info_text := "Submit";
     FormReliability.info_index := 7 |}.

Definition initial : FormReliability.World :=
  {| FormReliability.captures := 0; FormReliability.effects := [] |}.

(** Every run of the page-state script sees [s]; the error script finds [errors]. *)
Definition constant_env (s : FormReliability.PageState)
    (errors : list FormReliability.ErrorElement) : FormReliability.Env :=
  {| FormReliability.agent_focus := Some "T1";
     FormReliability.get_or_create_cdp_session := Ok tt;
     FormReliability.page_state := fun _ => Ok s;
     FormReliability.error_elements := Ok errors;
     FormReliability.input_data := Ok None;
     FormReliability.form_context := Ok None |}.

(** The first [n] runs see [before], the later ones [after]. *)
Definition changing_env (n : nat) (before after : FormReliability.PageState)
    (errors : list FormReliability.ErrorElement) : FormReliability.Env :=
  {| FormReliability.agent_focus := Some "T1";
     FormReliability.get_or_create_cdp_session := Ok tt;
     FormReliability.page_state := fun k => if (k <? n)%nat then Ok before else Ok after;
     FormReliability.error_elements := Ok errors;
     FormReliability.input_data := Ok None;
     FormReliability.form_context := Ok None |}.

Definition four_errors : list FormReliability.ErrorElement :=
  [ {| FormReliability.text := "Email is required"; FormReliability.visible := true |};
    {| FormReliability.text := "hidden hint"; FormReliability.visible := false |};
    {| FormReliability.text := ""; FormReliability.visible := true |};
    {| FormReliability.text := "Password too short"; FormReliability.visible := true |};
    {| FormReliability.text := "Accept the terms"; FormReliability.visible := true |};
    {| FormReliability.text := "Captcha missing"; FormReliability.visible := true |} ].

End FormSamples.

(** ** Dynamic content watchdog ([dynamic_content_watchdog.py]) *)

Module DynamicContent.

Record NavigationCompleteEvent := {
  complete_url : string;
  complete_target_id : string;
  error_message : option string
}.

(** What the page scripts return. *)
Record LoadingData := {
  hasVisibleLoading : bool;
  hasFetchActivity : bool;
  documentReady : bool
}.

Record SpaData := { isSPA : bool; contentReady : bool }.

Record ImageData := { hasLazyImages : bool; allLoaded : bool }.

Record ListData := { emptyLists : Z; hasEmptyLists : bool }.

Inductive LogRecord :=
| DebugMonitoringEnabled (url : string)
| DebugWaiting (url : string)
| DebugStabilized (url : string)
| DebugContentChanged (url : string)
| WarningStabilizationTimeout (url : string)
| DebugSpaLoaded
| DebugLazyImagesLoaded
| DebugWaitingForLists
| DebugListsPopulated
| DebugFailed (where_ message : string).

Inductive Effect :=
| Sleep (seconds : Q)
| NetworkEnable
| EvaluateContentHash
| EvaluateLoadingActivity
| EvaluateSpaContent
| EvaluateLazyImages
| EvaluateDynamicLists
| Log (l : LogRecord).

(** The outcome of the [n]-th [Runtime.evaluate] of a handling, by script;
    [Ok None] is a reply without a value. *)
Record Env := {
  get_or_create_cdp_session : Res unit;
  network_enable : Res unit;
  content_hash : nat -> Res (option string);
  loading_activity : nat -> Res (option LoadingData);
  spa_content : nat -> Res (option SpaData);
  lazy_images : nat -> Res (option ImageData);
  dynamic_lists : nat -> Res (option ListData)
}.

Record World := {
  evaluations : nat;       (* [Runtime.evaluate] calls so far *)
  effects : list Effect
}.

Definition record (e : Effect) (w : World) : World :=
  {| evaluations := evaluations w; effects := effects w ++ [e] |}.

Definition count_evaluation (w : World) : World :=
  {| evaluations := S (evaluations w); effects := effects w |}.

Definition log (l : LogRecord) : M World unit := modify (record (Log l)).
Definition sleep (seconds : Q) : M World unit := modify (record (Sleep seconds)).

Definition call {A} (e : Effect) (r : Res A) : M World A :=
  modify (record e) ;; external r.

(** [Runtime.evaluate] of one of the scripts. *)
Definition evaluate {A} (e : Effect) (script : nat -> Res A) : M World A :=
  w ← get_world;
  modify count_evaluation ;;
  call e (script (evaluations w)).

Definition _setup_network_monitoring (env : Env) (url : string) : M World unit :=
  try_except
    (call NetworkEnable (network_enable env) ;;
     log (DebugMonitoringEnabled url))
    (fun e => log (DebugFailed "Network monitoring setup failed" e)).

Definition _get_content_hash (env : Env) : M World string :=
  try_except
    (result ← evaluate EvaluateContentHash (content_hash env);
     mret (default "0" result))
    (fun e => mret "0").

Definition _check_loading_activity (env : Env) : M World bool :=
  try_except
    (result ← evaluate EvaluateLoadingActivity (loading_activity env);
     match result with
     | Some loading_data =>
         mret (hasVisibleLoading loading_data
               || hasFetchActivity loading_data
               || negb (documentReady loading_data))
     | None => mret (false || false || negb true)
     end)
    (fun e => mret false).

(** The variables of the stabilization loop. *)
Record Stabilization := {
  stabilization_time : Q;
  last_content_hash : option string;
  stable_start_time : option Q
}.

Definition check_interval : Q := 1 # 2.
Definition stable_duration_required : Q := 2.

Definition stabilization_poll (env : Env) (url : string) (s : Stabilization)
    : M World (Step Stabilization unit) :=
  content_hash ← _get_content_hash env;
  let unchanged := bool_decide (Some content_hash = last_content_hash s) in
  if unchanged
     && match stable_start_time s with
        | Some start =>
            Qgeb (stabilization_time s - start) stable_duration_required
        | None => false
        end
  then log (DebugStabilized url) ;; mret (Break s)
  else
    s1 ← (if unchanged then
            match stable_start_time s with
            | None =>
                mret {| stabilization_time := stabilization_time s;
                        last_content_hash := last_content_hash s;
                        stable_start_time := Some (stabilization_time s) |}
            | Some _ => mret s
            end
          else
            log (DebugContentChanged url) ;;
            mret {| stabilization_time := stabilization_time s;
                    last_content_hash := Some content_hash;
                    stable_start_time := None |});
    is_loading ← _check_loading_activity env;
    let s2 := if (is_loading : bool)
              then {| stabilization_time := stabilization_time s1;
                      last_content_hash := last_content_hash s1;
                      stable_start_time := None |}
              else s1 in
    sleep check_interval ;;
    mret (Next {| stabilization_time := (stabilization_time s2 + check_interval)%Q;
                  last_content_hash := last_content_hash s2;
                  stable_start_time := stable_start_time s2 |}).

(** Iterations granted to a loop that counts half seconds up to [timeout]. *)
Definition poll_fuel (timeout : Q) : nat := S (Z.to_nat (Qceiling (timeout * 2))).

Definition _wait_for_content_stabilization (env : Env) (url : string) (timeout : Q)
    : M World unit :=
  try_except
    (let start := {| stabilization_time := 0; last_content_hash := None;
                     stable_start_time := None |} in
     log (DebugWaiting url) ;;
     exit ← while (poll_fuel timeout)
                  (fun s _ => Qltb (stabilization_time s) timeout)
                  (stabilization_poll env url) start;
     match exit with
     | inr tt => mret tt
     | inl s =>
         if Qgeb (stabilization_time s) timeout
         then log (WarningStabilizationTimeout url)
         else mret tt
     end)
    (fun e => log (DebugFailed "Content stabilization monitoring failed" e)).

Definition default_timeout : Q := 15.

Definition _start_dynamic_content_monitoring (env : Env) (target_id url : string)
    : M World unit :=
  try_except
    (external (get_or_create_cdp_session env) ;;
     _setup_network_monitoring env url ;;
     _wait_for_content_stabilization env url default_timeout)
    (fun e => log (DebugFailed "Dynamic content monitoring failed" e)).

Definition on_NavigationCompleteEvent (env : Env) (event : NavigationCompleteEvent)
    : M World unit :=
  match error_message event with
  | Some (String _ _) => mret tt
  | _ => _start_dynamic_content_monitoring env (complete_target_id event) (complete_url event)
  end.

Definition _wait_for_spa_content (env : Env) (timeout : Q) : M World unit :=
  try_except
    (let check_interval := (1 # 2)%Q in
     while (R := unit) (poll_fuel timeout) (fun elapsed _ => Qltb elapsed timeout)
       (fun elapsed =>
          result ← evaluate EvaluateSpaContent (spa_content env);
          let spa_is := match result with Some d => isSPA d | None => false end in
          let ready := match result with Some d => contentReady d | None => false end in
          if negb spa_is || ready then
            (if spa_is then log DebugSpaLoaded else mret tt) ;;
            mret (Break elapsed)
          else
            sleep check_interval ;;
            mret (Next (elapsed + check_interval)%Q)) 0%Q ;;
     mret tt)
    (fun e => log (DebugFailed "SPA content check failed" e)).

Definition _wait_for_lazy_loaded_images (env : Env) (timeout : Q) : M World unit :=
  try_except
    (let check_interval := (1 # 2)%Q in
     while (R := unit) (poll_fuel timeout) (fun elapsed _ => Qltb elapsed timeout)
       (fun elapsed =>
          result ← evaluate EvaluateLazyImages (lazy_images env);
          let has_lazy := match result with Some d => hasLazyImages d | None => false end in
          let loaded := match result with Some d => allLoaded d | None => true end in
          if negb has_lazy || loaded then
            (if has_lazy then log DebugLazyImagesLoaded else mret tt) ;;
            mret (Break elapsed)
          else
            sleep check_interval ;;
            mret (Next (elapsed + check_interval)%Q)) 0%Q ;;
     mret tt)
    (fun e => log (DebugFailed "Lazy image check failed" e)).

Definition _wait_for_dynamic_lists (env : Env) (timeout : Q) : M World unit :=
  try_except
    (initial_result ← evaluate EvaluateDynamicLists (dynamic_lists env);
     let initial_empty := match initial_result with Some d => emptyLists d | None => 0 end in
     let initial_has := match initial_result with Some d => hasEmptyLists d | None => false end in
     if negb initial_has then mret tt
     else
       let check_interval := (1 # 2)%Q in
       log DebugWaitingForLists ;;
       while (R := unit) (poll_fuel timeout) (fun elapsed _ => Qltb elapsed timeout)
         (fun elapsed =>
            result ← evaluate EvaluateDynamicLists (dynamic_lists env);
            let now_empty := match result with Some d => emptyLists d | None => 0 end in
            if now_empty <? initial_empty then
              log DebugListsPopulated ;;
              mret (Break elapsed)
            else
              sleep check_interval ;;
              mret (Next (elapsed + check_interval)%Q)) 0%Q ;;
       mret tt)
    (fun e => log (DebugFailed "Dynamic list check failed" e)).

Definition _ensure_dynamic_content_loaded (env : Env) (target_id : string) : M World unit :=
  try_except
    (external (get_or_create_cdp_session env) ;;
     _wait_for_spa_content env 8 ;;
     _wait_for_lazy_loaded_images env 5 ;;
     _wait_for_dynamic_lists env 5)
    (fun e => log (DebugFailed "Dynamic content verification failed" e)).

(** [event.target_id], when the event has the attribute and it is not empty. *)
Definition on_BrowserStateRequestEvent (env : Env) (target_id : option string)
    : M World unit :=
  match target_id with
  | Some (String c s) => _ensure_dynamic_content_loaded env (String c s)
  | _ => mret tt
  end.

(** *** The observations of the stabilization loop, tick by tick *)

(** The fingerprint the [n]-th evaluation hands to the loop. *)
Definition hash_at (env : Env) (n : nat) : string :=
  match content_hash env n with
  | Ok (Some h) => h
  | _ => "0"
  end.

(** The loading signal the [n]-th evaluation hands to the loop. *)
Definition loading_at (env : Env) (n : nat) : bool :=
  match loading_activity env n with
  | Ok (Some d) => hasVisibleLoading d || hasFetchActivity d || negb (documentReady d)
  | _ => false
  end.

(** Tick [i] of a loop whose first evaluation is number [first] computes the
    fingerprint with evaluation [first + 2 i] and the loading signal with
    evaluation [first + 2 i + 1]. *)
Definition tick_hash (env : Env) (first i : nat) : string := hash_at env (first + 2 * i).
Definition tick_loading (env : Env) (first i : nat) : bool := loading_at env (first + 2 * i + 1).

(** The fingerprint of tick [i] equals that of the tick before. *)
Definition unchanged (env : Env) (first i : nat) : bool :=
  match i with
  | O => false
  | S j => bool_decide (tick_hash env first (S j) = tick_hash env first j)
  end.

(** A tick with an unchanged fingerprint and no loading activity. *)
Definition calm (env : Env) (first i : nat) : bool :=
  unchanged env first i && negb (tick_loading env first i).

(** The number of calm ticks in a row just before tick [i]. *)
Fixpoint calm_run (env : Env) (first i : nat) : nat :=
  match i with
  | O => O
  | S j => if calm env first j then S (calm_run env first j) else O
  end.

(** [stabilization_time] at tick [i]. *)
Fixpoint tick_time (i : nat) : Q :=
  match i with
  | O => 0
  | S j => (tick_time j + check_interval)%Q
  end.

(** The loop variables at the start of tick [i]. *)
Definition tick_state (env : Env) (first i : nat) : Stabilization :=
  {| stabilization_time := tick_time i;
     last_content_hash :=
       match i with O => None | S j => Some (tick_hash env first j) end;
     stable_start_time :=
       match calm_run env first i with
       | O => None
       | S r => Some (tick_time (i - S r))
       end |}.

(** Tick [i] declares the content stable. *)
Definition declares_stable (env : Env) (first i : nat) : bool :=
  unchanged env first i && (4 <=? calm_run env first i)%nat.

(** What tick [i] adds to the world when it does not declare stability. *)
Definition tick_world (env : Env) (url : string) (first i : nat) (w : World) : World :=
  let w1 := record EvaluateContentHash (count_evaluation w) in
  let w2 := if unchanged env first i then w1 else record (Log (DebugContentChanged url)) w1 in
  let w3 := record EvaluateLoadingActivity (count_evaluation w2) in
  record (Sleep check_interval) w3.

(** The world after ticks [0 .. k-1]. *)
Fixpoint ticks_world (env : Env) (url : string) (first k : nat) (w : World) : World :=
  match k with
  | O => w
  | S j => tick_world env url first j (ticks_world env url first j w)
  end.

(** The ticks waited, and whether stability was declared, read off the effects. *)
Definition ticks_waited (w : World) : nat :=
  length (List.filter (fun e => match e with Sleep _ => true | _ => false end) (effects w)).

Definition declared_stable (w : World) : bool :=
  existsb (fun e => match e with Log (DebugStabilized _) => true | _ => false end) (effects w).

Definition timed_out (w : World) : bool :=
  existsb (fun e => match e with Log (WarningStabilizationTimeout _) => true | _ => false end)
          (effects w).

(** [env] with its [n]-th fingerprint evaluation failing. *)
Definition with_failed_hash (env : Env) (n : nat) (message : string) : Env :=
  {| get_or_create_cdp_session := get_or_create_cdp_session env;
     network_enable := network_enable env;
     content_hash := fun m => if (m =? n)%nat then Exc message else content_hash env m;
     loading_activity := loading_activity env;
     spa_content := spa_content env;
     lazy_images := lazy_images env;
     dynamic_lists := dynamic_lists env |}.

End DynamicContent.

(** A page at rest: the same fingerprint at every evaluation, nothing loading. *)
Module DynamicSamples.

Definition initial : DynamicContent.World :=
  {| DynamicContent.evaluations := 0; DynamicContent.effects := [] |}.

Definition still_page : DynamicContent.Env :=
  {| DynamicContent.get_or_create_cdp_session := Ok tt;
     DynamicContent.network_enable := Ok tt;
     DynamicContent.content_hash := fun _ => Ok (Some "-1640531527");
     DynamicContent.loading_activity :=
       fun _ => Ok (Some {| DynamicContent.hasVisibleLoading := false;
                            DynamicContent.hasFetchActivity := false;
                            DynamicContent.documentReady := true |});
     DynamicContent.spa_content := fun _ => Ok None;
     DynamicContent.lazy_images := fun _ => Ok None;
     DynamicContent.dynamic_lists := fun _ => Ok None |}.

(** A page whose fingerprint changes at every evaluation. *)
Definition restless_page : DynamicContent.Env :=
  {| DynamicContent.get_or_create_cdp_session := Ok tt;
     DynamicContent.network_enable := Ok tt;
     DynamicContent.content_hash := fun n => Ok (Some (pretty n));
     DynamicContent.loading_activity := fun _ => Ok None;
     DynamicContent.spa_content := fun _ => Ok None;
     DynamicContent.lazy_images := fun _ => Ok None;
     DynamicContent.dynamic_lists := fun _ => Ok None |}.

(** A page on which no script can be evaluated. *)
Definition broken_page : DynamicContent.Env :=
  {| DynamicContent.get_or_create_cdp_session := Ok tt;
     DynamicContent.network_enable := Exc "Network.enable failed";
     DynamicContent.content_hash := fun _ => Exc "Execution context was destroyed";
     DynamicContent.loading_activity := fun _ => Exc "Execution context was destroyed";
     DynamicContent.spa_content := fun _ => Exc "Execution context was destroyed";
     DynamicContent.lazy_images := fun _ => Exc "Execution context was destroyed";
     DynamicContent.dynamic_lists := fun _ => Exc "Execution context was destroyed" |}.

End DynamicSamples.

(** ** Returning normally *)

(** [c] does not exhaust its iterations. *)
Definition finishes {W A} (c : M W A) : Prop :=
  forall w, fst (c w) <> OutOfFuel.

(** [c] returns: it neither raises nor exhausts its iterations. *)
Definition returns {W A} (c : M W A) : Prop :=
  forall w, exists a, fst (c w) = Returns a.

(** ** Enhanced navigation watchdog ([enhanced_navigation_watchdog.py]) *)

Module EnhancedNavigation.

Record NavigationStartedEvent := {
  started_url : string;
  started_target_id : string
}.

Record NavigationCompleteEvent := {
  complete_url : string;
  complete_target_id : string;
  error_message : option string
}.

(** What the page scripts return; a key the reply lacks is [None]. *)
Record PageLoadState := {
  isDocumentReady : option bool;
  hasVisibleLoading : option bool
}.

Record ChallengeData := {
  challengeFound : bool;
  hasCheckbox : bool;
  hasButton : bool
}.

Record ContentData := {
  contentFound : option bool;
  textLength : option Z;
  hasLinks : option bool
}.

Inductive LogRecord :=
| DebugNavigationStarted (url : string) (attempt : Z)
| WarningCompletedWithError (message : string)
| DebugPageLoaded (url : string)
| DebugStillLoading (url : string)
| DebugDocumentReady (url : string)
| WarningPageLoadTimeout (url : string)
| WarningChallengeDetected (url : string)
| InfoChallengeResolved (url : string)
| WarningChallengeTimeout (url : string)
| DebugContentVerified (url : string)
| WarningLimitedContent (url : string)
| InfoReloading (url : string) (retry : Z)
| ErrorLogged (where_ message : string)
| DebugFailed (where_ message : string).

(** [Page.reload] is recorded with the [ignoreCache] parameter it is given,
    [None] when the call passes no parameters. *)
Inductive Effect :=
| Sleep (seconds : Q)
| GetSession (target_id : string)
| EvaluatePageLoad
| EvaluateChallenge
| EvaluateClickCheckbox
| EvaluateClickButton
| EvaluateChallengeText
| EvaluateContent
| PageReload (ignoreCache : option bool)
| DispatchBrowserError (error_type message : string)
| Log (l : LogRecord).

(** The outcome of the [n]-th call on the browser session of a handling and
    the time it takes, in milliseconds. *)
Record Env := {
  human_delay : Q;                                   (* [random.uniform(0.3, 1.2)] *)
  latency_ms : nat -> N;
  get_or_create_cdp_session : nat -> Res unit;
  page_load_state : nat -> Res (option PageLoadState);
  challenge_data : nat -> Res (option ChallengeData);
  click : nat -> Res unit;
  still_has_challenge : nat -> Res (option bool);
  content_data : nat -> Res (option ContentData);
  reload : nat -> Res unit;
  dispatch_error : Res unit
}.

Record World := {
  _navigation_attempts : gmap string Z;
  _loading_retry_count : gmap string Z;
  clock : Q;             (* [asyncio.get_event_loop().time()] *)
  calls : nat;           (* calls on the browser session so far *)
  effects : list Effect
}.

Definition record (e : Effect) (w : World) : World :=
  {| _navigation_attempts := _navigation_attempts w;
     _loading_retry_count := _loading_retry_count w;
     clock := clock w; calls := calls w; effects := effects w ++ [e] |}.

Definition advance (seconds : Q) (w : World) : World :=
  {| _navigation_attempts := _navigation_attempts w;
     _loading_retry_count := _loading_retry_count w;
     clock := (clock w + seconds)%Q; calls := calls w; effects := effects w |}.

Definition count_call (w : World) : World :=
  {| _navigation_attempts := _navigation_attempts w;
     _loading_retry_count := _loading_retry_count w;
     clock := clock w; calls := S (calls w); effects := effects w |}.

Definition set_navigation_attempts (f : gmap string Z -> gmap string Z) (w : World) : World :=
  {| _navigation_attempts := f (_navigation_attempts w);
     _loading_retry_count := _loading_retry_count w;
     clock := clock w; calls := calls w; effects := effects w |}.

Definition set_loading_retry_count (f : gmap string Z -> gmap string Z) (w : World) : World :=
  {| _navigation_attempts := _navigation_attempts w;
     _loading_retry_count := f (_loading_retry_count w);
     clock := clock w; calls := calls w; effects := effects w |}.

Definition log (l : LogRecord) : M World unit := modify (record (Log l)).

(** [await asyncio.sleep(seconds)] *)
Definition sleep (seconds : Q) : M World unit :=
  modify (fun w => advance seconds (record (Sleep seconds) w)).

Definition seconds_of_ms (ms : N) : Q := inject_Z (Z.of_N ms) / 1000.

(** A call on the browser session: it takes its time, then returns or raises. *)
Definition call {A} (env : Env) (e : Effect) (r : nat -> Res A) : M World A :=
  w ← get_world;
  modify (fun w => advance (seconds_of_ms (latency_ms env (calls w)))
                     (record e (count_call w))) ;;
  external (r (calls w)).

Definition session (env : Env) (target_id : string) : M World unit :=
  call env (GetSession target_id) (get_or_create_cdp_session env).

Definition on_NavigationStartedEvent (env : Env) (event : NavigationStartedEvent)
    : M World unit :=
  let delay := human_delay env in
  sleep delay ;;
  w ← get_world;
  let attempt := default 0 (_navigation_attempts w !! started_url event) + 1 in
  modify (set_navigation_attempts <[started_url event := attempt]>) ;;
  modify (set_loading_retry_count <[started_url event := 0]>) ;;
  log (DebugNavigationStarted (started_url event) attempt).

(** [d.get(key, default)] on a boolean key *)
Definition get_bool (v : option bool) (default_value : bool) : bool := default default_value v.

(** The [try] block inside the loop of [_verify_page_loaded]: [Some step]
    when it returns or continues, [None] when control falls out of it. *)
Definition page_load_check (env : Env) (target_id url : string) (start_time : Q)
    : M World (option (Step Q unit)) :=
  try_except
    (session env target_id ;;
     result ← call env EvaluatePageLoad (page_load_state env);
     let isReady (d : bool) :=
       match result with Some s => get_bool (isDocumentReady s) d | None => d end in
     let isLoading (d : bool) :=
       match result with Some s => get_bool (hasVisibleLoading s) d | None => d end in
     if isReady false && negb (isLoading true) then
       log (DebugPageLoaded url) ;; mret (Some (Return tt))
     else if isLoading false then
       log (DebugStillLoading url) ;; sleep 2 ;; mret (Some (Next start_time))
     else if isReady false then
       log (DebugDocumentReady url) ;; sleep 1 ;; mret (Some (Return tt))
     else mret None)
    (fun e => log (DebugFailed "Page load check failed" e) ;; mret None).

Definition page_load_max_wait : Q := 30.
Definition page_load_fuel : nat := 61.

Definition _verify_page_loaded (env : Env) (target_id url : string) : M World unit :=
  let max_wait_time := page_load_max_wait in
  w ← get_world;
  let start_time := clock w in
  exit ← while page_load_fuel
            (fun start_time w => Qltb (clock w - start_time) max_wait_time)
            (fun start_time =>
               checked ← page_load_check env target_id url start_time;
               match checked with
               | Some step => mret step
               | None => sleep 1 ;; mret (Next start_time)
               end)
            start_time;
  match exit with
  | inr tt => mret tt
  | inl _ => log (WarningPageLoadTimeout url)
  end.

Definition challenge_max_wait : Q := 15.
Definition challenge_fuel : nat := 31.

Definition _wait_for_challenge_resolution (env : Env) (target_id url : string)
    : M World unit :=
  let max_wait_time := challenge_max_wait in
  w ← get_world;
  let start_time := clock w in
  exit ← while challenge_fuel
            (fun start_time w => Qltb (clock w - start_time) max_wait_time)
            (fun start_time =>
               try_except
                 (session env target_id ;;
                  result ← call env EvaluateChallengeText (still_has_challenge env);
                  let still_has_challenge := default true result in
                  if negb still_has_challenge then
                    log (InfoChallengeResolved url) ;; mret (Return tt)
                  else
                    sleep 1 ;; mret (Next start_time))
                 (fun e =>
                    log (DebugFailed "Challenge resolution check failed" e) ;;
                    sleep 1 ;; mret (Next start_time)))
            start_time;
  match exit with
  | inr tt => mret tt
  | inl _ => log (WarningChallengeTimeout url)
  end.

Definition _handle_antibot_challenge (env : Env) (target_id url : string)
    (challenge : ChallengeData) : M World unit :=
  log (WarningChallengeDetected url) ;;
  try_except
    (session env target_id ;;
     (if hasCheckbox challenge then
        call env EvaluateClickCheckbox (click env) ;; sleep 2
      else mret tt) ;;
     (if hasButton challenge then
        call env EvaluateClickButton (click env) ;; sleep 3
      else mret tt) ;;
     _wait_for_challenge_resolution env target_id url)
    (fun e => log (ErrorLogged "Failed to handle anti-bot challenge" e)).

Definition _detect_and_handle_antibot (env : Env) (target_id url : string) : M World unit :=
  try_except
    (session env target_id ;;
     result ← call env EvaluateChallenge (challenge_data env);
     match result with
     | Some challenge =>
         if challengeFound challenge
         then _handle_antibot_challenge env target_id url challenge
         else mret tt
     | None => mret tt
     end)
    (fun e => log (DebugFailed "Anti-bot detection failed" e)).

Definition _consider_page_reload (env : Env) (target_id url : string) : M World unit :=
  w ← get_world;
  let retry_count := default 0 (_loading_retry_count w !! url) in
  if retry_count <? 2 then
    modify (set_loading_retry_count <[url := retry_count + 1]>) ;;
    log (InfoReloading url (retry_count + 1)) ;;
    try_except
      (session env target_id ;;
       call env (PageReload None) (reload env) ;;
       sleep 3)
      (fun e => log (ErrorLogged "Page reload failed" e))
  else mret tt.

(** The test of [_verify_content_loaded] on the reply of the content script. *)
Definition content_sufficient (content_data : option ContentData) : bool :=
  match content_data with
  | Some d =>
      get_bool (contentFound d) false
      || (100 <? default 0 (textLength d))
      || get_bool (hasLinks d) false
  | None => false || (100 <? 0) || false
  end.

Definition _verify_content_loaded (env : Env) (target_id url : string) : M World unit :=
  try_except
    (session env target_id ;;
     sleep 1 ;;
     content_data ← call env EvaluateContent (content_data env);
     if content_sufficient content_data then log (DebugContentVerified url)
     else
       log (WarningLimitedContent url) ;;
       _consider_page_reload env target_id url)
    (fun e => log (DebugFailed "Content verification failed" e)).

Definition on_NavigationCompleteEvent (env : Env) (event : NavigationCompleteEvent)
    : M World unit :=
  try_except
    (match error_message event with
     | Some (String c s) => log (WarningCompletedWithError (String c s))
     | _ =>
         sleep 1 ;;
         _verify_page_loaded env (complete_target_id event) (complete_url event) ;;
         _detect_and_handle_antibot env (complete_target_id event) (complete_url event) ;;
         _verify_content_loaded env (complete_target_id event) (complete_url event)
     end)
    (fun e =>
       log (ErrorLogged "Enhanced navigation failed" e) ;;
       modify (record (DispatchBrowserError "EnhancedNavigationFailed"
                         ("Enhanced navigation processing failed: " +:+ e))) ;;
       external (dispatch_error env)).

(** The reloads among the effects, with the [ignoreCache] each was given. *)
Definition reloads (es : list Effect) : list (option bool) :=
  omap (fun e => match e with PageReload p => Some p | _ => None end) es.

(** The events of one URL, each with the environment of its handling. *)
Inductive Handling :=
| Started (env : Env) (target_id : string)
| Completed (env : Env) (target_id : string).

Definition handle (url : string) (h : Handling) (w : World) : World :=
  match h with
  | Started env target_id =>
      snd (on_NavigationStartedEvent env
             {| started_url := url; started_target_id := target_id |} w)
  | Completed env target_id =>
      snd (on_NavigationCompleteEvent env
             {| complete_url := url; complete_target_id := target_id;
                error_message := None |} w)
  end.

Definition handle_all (url : string) (hs : list Handling) (w : World) : World :=
  fold_left (fun w h => handle url h w) hs w.

Definition is_completed (h : Handling) : bool :=
  match h with Completed _ _ => true | Started _ _ => false end.

End EnhancedNavigation.

(** A page that has loaded but shows nothing. *)
Module NavigationSamples.

Definition url : string := "https://example.org/empty".

Definition blank_page : EnhancedNavigation.Env :=
  {| EnhancedNavigation.human_delay := 1 # 2;
     EnhancedNavigation.latency_ms := fun _ => 20%N;
     EnhancedNavigation.get_or_create_cdp_session := fun _ => Ok tt;
     EnhancedNavigation.page_load_state :=
       fun _ => Ok (Some {| EnhancedNavigation.isDocumentReady := Some true;
                            EnhancedNavigation.hasVisibleLoading := Some false |});
     EnhancedNavigation.challenge_data := fun _ => Ok None;
     EnhancedNavigation.click := fun _ => Ok tt;
     EnhancedNavigation.still_has_challenge := fun _ => Ok (Some false);
     EnhancedNavigation.content_data :=
       fun _ => Ok (Some {| EnhancedNavigation.contentFound := Some false;
                            EnhancedNavigation.textLength := Some 100;
                            EnhancedNavigation.hasLinks := Some false |});
     EnhancedNavigation.reload := fun _ => Ok tt;
     EnhancedNavigation.dispatch_error := Ok tt |}.

(** A page that never stops showing a spinner and a challenge. *)
Definition stuck_page : EnhancedNavigation.Env :=
  {| EnhancedNavigation.human_delay := 1 # 2;
     EnhancedNavigation.latency_ms := fun _ => 0%N;
     EnhancedNavigation.get_or_create_cdp_session := fun _ => Ok tt;
     EnhancedNavigation.page_load_state := fun _ => Exc "Target closed";
     EnhancedNavigation.challenge_data :=
       fun _ => Ok (Some {| EnhancedNavigation.challengeFound := true;
                            EnhancedNavigation.hasCheckbox := true;
                            EnhancedNavigation.hasButton := true |});
     EnhancedNavigation.click := fun _ => Ok tt;
     EnhancedNavigation.still_has_challenge := fun _ => Ok (Some true);
     EnhancedNavigation.content_data := fun _ => Exc "Target closed";
     EnhancedNavigation.reload := fun _ => Exc "Target closed";
     EnhancedNavigation.dispatch_error := Exc "event bus stopped" |}.

Definition initial : EnhancedNavigation.World :=
  {| EnhancedNavigation._navigation_attempts := ∅;
     EnhancedNavigation._loading_retry_count := ∅;
     EnhancedNavigation.clock := 0;
     EnhancedNavigation.calls := 0;
     EnhancedNavigation.effects := [] |}.

End NavigationSamples.

(** [c] keeps the property [P] of the world, whatever its outcome. *)
Definition preserves {W A} (P : W -> Prop) (c : M W A) : Prop :=
  forall w, P w -> P (snd (c w)).

(** *** What the reload bound reads *)

Module ReloadBudget.

(** The reload counter of [url], 0 when absent. *)
Definition retry_count (w : EnhancedNavigation.World) (url : string) : Z :=
  default 0 (EnhancedNavigation._loading_retry_count w !! url).

(** A property of the world that reads nothing but the reload counters and
    the reloads issued so far. *)
Definition reads_reloads_only (P : EnhancedNavigation.World -> Prop) : Prop :=
  forall w w',
    EnhancedNavigation._loading_retry_count w' = EnhancedNavigation._loading_retry_count w ->
    EnhancedNavigation.reloads (EnhancedNavigation.effects w')
    = EnhancedNavigation.reloads (EnhancedNavigation.effects w) ->
    P w -> P w'.

(** Since the reloads [issued] and a counter value [counted], [url] has been
    reloaded [n] more times, each without an [ignoreCache] parameter and
    each counted, and the counter has not passed 2. *)
Definition within_budget (url : string) (issued : list (option bool)) (counted : Z)
    (w : EnhancedNavigation.World) : Prop :=
  exists n : nat,
    EnhancedNavigation.reloads (EnhancedNavigation.effects w) = issued ++ replicate n None
    /\ counted + Z.of_nat n <= retry_count w url
    /\ retry_count w url <= 2.

End ReloadBudget.

(** ** Further definitions: the values of the error categories *)

Module ErrorCategoryValue.

Import ErrorClassifier.

(** [category.value], the string of the [Enum] member. *)
Definition value (category : ErrorCategory) : string :=
  match category with
  | RETRYABLE_NETWORK => "retryable_network"
  | RETRYABLE_TIMING => "retryable_timing"
  | RETRYABLE_RESOURCE => "retryable_resource"
  | RETRYABLE_STALE_ELEMENT => "retryable_stale_element"
  | PERMANENT_INVALID_INPUT => "permanent_invalid_input"
  | PERMANENT_NOT_FOUND => "permanent_not_found"
  | PERMANENT_ACCESS_DENIED => "permanent_access_denied"
  | PERMANENT_CONFIGURATION => "permanent_configuration"
  | UNKNOWN => "unknown"
  end.

End ErrorCategoryValue.
(** ** Network reliability watchdog: the connection check and the ledger *)

Module NetworkHealth.

Import NetworkReliability.

(** [_check_connection_health]; [navigator_onLine] is what evaluating
    [navigator.onLine] answers: the value of the reply, when it has one. *)
Definition _check_connection_health (env : Env) (navigator_onLine : Res (option bool))
    : M World bool :=
  try_except
    (external (get_or_create_cdp_session env) ;;
     result ← external navigator_onLine;
     mret (default false result))
    (fun e => mret false).

(** Both dictionaries of the ledger have the same keys. *)
Definition ledger_consistent (w : World) : Prop :=
  dom (_network_failure_count w) = dom (_last_network_failure w).

(** Successive failures of the same navigation, one environment each. *)
Fixpoint fail_repeatedly (envs : list Env) (url error_message target_id : string)
    (w : World) : World :=
  match envs with
  | [] => w
  | env :: envs' =>
      fail_repeatedly envs' url error_message target_id
        (snd (_handle_network_error env url error_message target_id w))
  end.

Definition is_sleep (e : Effect) : bool :=
  match e with Sleep _ => true | _ => false end.

(** The retries attempted so far: each one starts with a sleep. *)
Definition retries_attempted (w : World) : nat :=
  length (List.filter is_sleep (effects w)).

End NetworkHealth.
(** ** Form reliability watchdog: the time spent sleeping *)

Module FormTiming.

Import FormReliability.

(** The seconds of one effect that are spent in [asyncio.sleep]. *)
Definition sleep_seconds (e : Effect) : Q :=
  match e with
  | Sleep seconds => seconds
  | _ => 0
  end.

(** The seconds slept over a record of effects. *)
Definition slept (es : list Effect) : Q :=
  fold_right (fun e total => (sleep_seconds e + total)%Q) 0%Q es.

End FormTiming.

#[global] Arguments FormTiming.slept : simpl never.

(** A page on which the page-state script cannot be evaluated. *)
Module UnreadableFormSamples.

Definition env : FormReliability.Env :=
  {| FormReliability.agent_focus := Some "T1";
     FormReliability.get_or_create_cdp_session := Ok tt;
     FormReliability.page_state := fun _ => Exc "Execution context was destroyed";
     FormReliability.error_elements := Ok [];
     FormReliability.input_data :=
       Ok (Some {| FormReliability.value := Some "";
                   FormReliability.focused := false;
                   FormReliability.disabled := true;
                   FormReliability.readonly := false |});
     FormReliability.form_context := Ok None |}.

End UnreadableFormSamples.

(** * Properties *)

(** ** Rational comparisons *)

Lemma Qltb_lt a b : Qltb a b = true <-> (a < b)%Q.
Proof.
  unfold Qltb. rewrite negb_true_iff, <- not_true_iff_false, Qle_bool_iff.
  split; [apply Qnot_le_lt | apply Qlt_not_le].
Qed.

Lemma Qltb_ge a b : Qltb a b = false <-> (b <= a)%Q.
Proof. unfold Qltb. rewrite negb_false_iff. apply Qle_bool_iff. Qed.

Lemma Qgeb_ge a b : Qgeb a b = true <-> (b <= a)%Q.
Proof. apply Qle_bool_iff. Qed.

Lemma Qgeb_lt a b : Qgeb a b = false <-> (a < b)%Q.
Proof.
  unfold Qgeb. rewrite <- not_true_iff_false, Qle_bool_iff.
  split; [apply Qnot_le_lt | apply Qlt_not_le].
Qed.

Lemma Qgtb_gt a b : Qgtb a b = true <-> (b < a)%Q.
Proof. apply (Qltb_lt b a). Qed.

Lemma Qgtb_le a b : Qgtb a b = false <-> (a <= b)%Q.
Proof. apply (Qltb_ge b a). Qed.


(** ** Double-precision rounding *)

Lemma round_respects_Qeq (p q : Q) : (p == q)%Q -> Float64.round p = Float64.round q.
Proof. intros Heq. unfold Float64.round. rewrite (Qred_complete p q Heq). reflexivity. Qed.

Lemma round_opp (q : Q) : (Float64.round (- q) == - Float64.round q)%Q.
Proof.
  unfold Float64.round. rewrite Qred_opp.
  destruct (Qred q) as [[|a|a] d]; cbn [Qnum Qden Qopp Z.opp].
  - reflexivity.
  - reflexivity.
  - rewrite Qopp_involutive. reflexivity.
Qed.

(** The computed difference changes sign with the order of its operands. *)
Lemma sub_antisym (a b : Q) : (Float64.sub a b == - Float64.sub b a)%Q.
Proof.
  unfold Float64.sub. rewrite <- round_opp.
  rewrite (round_respects_Qeq (a - b) (- (b - a))); [reflexivity|ring].
Qed.

Lemma sub_abs_sym (a b : Q) : (Qabs (Float64.sub a b) == Qabs (Float64.sub b a))%Q.
Proof. rewrite sub_antisym. apply Qabs_opp. Qed.

Lemma sub_self (a : Q) : Float64.sub a a = 0%Q.
Proof.
  unfold Float64.sub. rewrite (round_respects_Qeq (a - a) 0); [reflexivity|ring].
Qed.


Lemma round_half_even_floor (c d : Z) :
  0 < d -> c / d <= Float64.round_half_even c d <= c / d + 1.
Proof.
  intros Hd. unfold Float64.round_half_even.
  destruct (2 * (c mod d) ?= d); [destruct (Z.even (c / d))|..]; lia.
Qed.

(** Below the midpoint under [N], the nearest integer is under [N]. *)
Lemma round_half_even_below (c d N : Z) :
  0 < d -> 2 * c < (2 * N - 1) * d -> Float64.round_half_even c d <= N - 1.
Proof.
  intros Hd Hc. unfold Float64.round_half_even.
  pose proof (Z.div_mod c d ltac:(lia)) as Hdiv.
  pose proof (Z.mod_pos_bound c d Hd) as Hmod.
  destruct (Z.compare_spec (2 * (c mod d)) d) as [Heq|Hlt|Hgt];
    [destruct (Z.even (c / d))|..]; nia.
Qed.

(** From the midpoint under an even [N] on, the nearest integer is [N] at least. *)
Lemma round_half_even_above (c d N : Z) :
  0 < d -> Z.even N = true -> (2 * N - 1) * d <= 2 * c ->
  N <= Float64.round_half_even c d.
Proof.
  intros Hd HN Hc. unfold Float64.round_half_even.
  pose proof (Z.div_mod c d ltac:(lia)) as Hdiv.
  pose proof (Z.mod_pos_bound c d Hd) as Hmod.
  destruct (Z.compare_spec (2 * (c mod d)) d) as [Heq|Hlt|Hgt].
  - assert (Hf : N - 1 <= c / d) by nia.
    destruct (Z.even (c / d)) eqn:Heven; [|lia].
    assert (c / d <> N - 1); [|lia].
    intros Hfn. rewrite Hfn, Z.sub_1_r, Z.even_pred, <- Z.negb_even, HN in Heven.
    discriminate.
  - nia.
  - nia.
Qed.

Lemma floor_log2_spec (a d : positive) :
  let k := Float64.floor_log2 a d in
  (0 <= k -> Z.pos d * 2 ^ k <= Z.pos a < Z.pos d * 2 ^ (k + 1))
  /\ (k < 0 -> Z.pos d <= Z.pos a * 2 ^ (- k) < 2 * Z.pos d).
Proof.
  cbv zeta. unfold Float64.floor_log2.
  pose proof (Z.log2_spec (Z.pos a) ltac:(lia)) as [Ha1 Ha2].
  pose proof (Z.log2_spec (Z.pos d) ltac:(lia)) as [Hd1 Hd2].
  pose proof (Z.log2_nonneg (Z.pos a)) as Hla.
  pose proof (Z.log2_nonneg (Z.pos d)) as Hld.
  set (la := Z.log2 (Z.pos a)) in *. set (ld := Z.log2 (Z.pos d)) in *.
  rewrite <- Z.add_1_r in Ha2, Hd2.
  rewrite Z.pow_add_r in Ha2, Hd2 by lia. change (2 ^ 1) with 2 in Ha2, Hd2.
  assert (Hpa : 0 < 2 ^ la) by (apply Z.pow_pos_nonneg; lia).
  assert (Hpd : 0 < 2 ^ ld) by (apply Z.pow_pos_nonneg; lia).
  destruct (Z.leb_spec 0 (la - ld)) as [Hk|Hk].
  - assert (Hsplit : 2 ^ la = 2 ^ ld * 2 ^ (la - ld)).
    { rewrite <- Z.pow_add_r by lia. f_equal. lia. }
    assert (Hpk : 0 < 2 ^ (la - ld)) by (apply Z.pow_pos_nonneg; lia).
    destruct (Z.ltb_spec (Z.pos a) (Z.pos d * 2 ^ (la - ld))) as [Hb|Hb].
    + split.
      * intros Hk1. replace (la - ld - 1 + 1) with (la - ld) by lia.
        split; [|exact Hb].
        assert (Hs2 : 2 ^ (la - ld) = 2 * 2 ^ (la - ld - 1)).
        { rewrite <- (Z.pow_succ_r 2 (la - ld - 1)) by lia. f_equal. lia. }
        assert (0 < 2 ^ (la - ld - 1)) by (apply Z.pow_pos_nonneg; lia).
        nia.
      * intros Hk1. assert (la - ld = 0) as Hz by lia.
        replace (- (la - ld - 1)) with 1 by lia. change (2 ^ 1) with 2.
        rewrite Hz in Hsplit, Hb. change (2 ^ 0) with 1 in Hsplit, Hb. nia.
    + split; [|lia]. intros _. split; [exact Hb|].
      rewrite Z.pow_add_r by lia. change (2 ^ 1) with 2. nia.
  - assert (Hsplit : 2 ^ ld = 2 ^ la * 2 ^ (- (la - ld))).
    { rewrite <- Z.pow_add_r by lia. f_equal. lia. }
    assert (Hpk : 0 < 2 ^ (- (la - ld))) by (apply Z.pow_pos_nonneg; lia).
    destruct (Z.ltb_spec (Z.pos a * 2 ^ (- (la - ld))) (Z.pos d)) as [Hb|Hb].
    + split; [lia|]. intros _.
      replace (- (la - ld - 1)) with (- (la - ld) + 1) by lia.
      rewrite Z.pow_add_r by lia. change (2 ^ 1) with 2. nia.
    + split; [lia|]. intros _. nia.
Qed.


(** A positive rational rounds to a double under 50 exactly when it lies
    under the midpoint between 50 and the double before it. *)
Lemma round_positive_under_50 (a d : positive) :
  (0 <= Float64.round_positive a d)%Q
  /\ ((Float64.round_positive a d < 50)%Q
      <-> Z.pos a * 2 ^ 48 < (50 * 2 ^ 48 - 1) * Z.pos d).
Proof.
  unfold Float64.round_positive.
  pose proof (floor_log2_spec a d) as Hlog. cbv zeta in Hlog.
  set (k := Float64.floor_log2 a d) in *.
  destruct Hlog as [Hnonneg Hneg].
  destruct (Z.leb_spec 0 (k - 52)) as [He|He].
  - (* the integers from 2^52 on are their own doubles *)
    destruct (Hnonneg ltac:(lia)) as [Hlow _].
    assert (Hsplit : 2 ^ k = 2 ^ 52 * 2 ^ (k - 52)).
    { rewrite <- Z.pow_add_r by lia. f_equal. lia. }
    assert (Hpe : 0 < 2 ^ (k - 52)) by (apply Z.pow_pos_nonneg; lia).
    pose proof (round_half_even_floor (Z.pos a) (Z.pos d * 2 ^ (k - 52)) ltac:(nia))
      as [Hfloor _].
    assert (Hf : 2 ^ 52 <= Z.pos a / (Z.pos d * 2 ^ (k - 52))).
    { apply Z.div_le_lower_bound; nia. }
    set (n := Float64.round_half_even _ _) in *.
    unfold Float64.scale2. destruct (Z.leb_spec 0 (k - 52)) as [_|]; [|lia].
    unfold Qle, Qlt. cbn [Qnum Qden inject_Z]. rewrite !Z.mul_1_r.
    change (Qnum 50) with 50. split; [nia|].
    assert (2 ^ 52 <= n * 2 ^ (k - 52)) by nia.
    split; [intros Hlt; change (2 ^ 52) with 4503599627370496 in *; lia|].
    intros Hlt. exfalso. change (2 ^ 52) with 4503599627370496 in *.
    change (2 ^ 48) with 281474976710656 in *. nia.
  - assert (Hpe : 0 < 2 ^ (- (k - 52))) by (apply Z.pow_pos_nonneg; lia).
    pose proof (round_half_even_floor (Z.pos a * 2 ^ (- (k - 52))) (Z.pos d) ltac:(lia))
      as [Hfloor Hceil].
    assert (Hdenominator : Z.pos (2 ^ Z.to_pos (- (k - 52))) = 2 ^ (- (k - 52))).
    { rewrite Pos2Z.inj_pow, Z2Pos.id by lia. reflexivity. }
    unfold Float64.scale2. destruct (Z.leb_spec 0 (k - 52)) as [|_]; [lia|].
    unfold Qle, Qlt. cbn [Qnum Qden]. rewrite Hdenominator, !Z.mul_1_r.
    change (Qnum 50) with 50. change (Z.pos (Qden 50)) with 1. rewrite ?Z.mul_1_r.
    assert (Hfloor0 : 0 <= Z.pos a * 2 ^ (- (k - 52)) / Z.pos d)
      by (apply Z.div_pos; nia).
    split; [nia|].
    destruct (Z_lt_le_dec k 5) as [Hk4|Hk5]; [|destruct (Z.eq_dec k 5) as [Hk|Hk]].
    + (* under 32: the double is 32 at most *)
      assert (Hc : Z.pos a * 2 ^ (- (k - 52)) < Z.pos d * 2 ^ 53).
      { destruct (Z_lt_le_dec k 0) as [Hk0|Hk0].
        - destruct (Hneg Hk0) as [_ Hup].
          replace (- (k - 52)) with (- k + 52) by lia.
          rewrite Z.pow_add_r by lia.
          change (2 ^ 53) with (2 * 2 ^ 52).
          assert (0 < 2 ^ 52) by reflexivity. nia.
        - destruct (Hnonneg Hk0) as [_ Hup].
          assert (Hs : 2 ^ 53 = 2 ^ (k + 1) * 2 ^ (- (k - 52))).
          { rewrite <- Z.pow_add_r by lia. f_equal. lia. }
          rewrite Hs. nia. }
      assert (Hn : Float64.round_half_even (Z.pos a * 2 ^ (- (k - 52))) (Z.pos d) <= 2 ^ 53).
      { assert (Z.pos a * 2 ^ (- (k - 52)) / Z.pos d < 2 ^ 53)
          by (apply Z.div_lt_upper_bound; lia).
        lia. }
      assert (Hbig : 2 ^ 48 <= 2 ^ (- (k - 52))) by (apply Z.pow_le_mono_r; lia).
      change (2 ^ 53) with 9007199254740992 in *.
      change (2 ^ 48) with 281474976710656 in *.
      split; intros _.
      * destruct (Z_lt_le_dec k 0) as [Hk0|Hk0].
        -- destruct (Hneg Hk0) as [_ Hup].
           assert (2 <= 2 ^ (- k)).
           { change 2 with (2 ^ 1) at 1. apply Z.pow_le_mono_r; lia. }
           nia.
        -- destruct (Hnonneg Hk0) as [_ Hup].
           assert (2 ^ (k + 1) <= 2 ^ 5) by (apply Z.pow_le_mono_r; lia).
           change (2 ^ 5) with 32 in *. nia.
      * nia.
    + (* between 32 and 64: the doubles are 2^-47 apart *)
      subst k. rewrite Hk in *. change (- (5 - 52)) with 47 in *.
      destruct (Hnonneg ltac:(lia)) as [Hlow Hup].
      change (2 ^ 47) with 140737488355328 in *.
      change (2 ^ 48) with 281474976710656 in *.
      split.
      * intros Hlt.
        destruct (Z_lt_le_dec (Z.pos a * 281474976710656)
                    ((50 * 281474976710656 - 1) * Z.pos d)) as [Hin|Hout]; [exact Hin|].
        pose proof (round_half_even_above (Z.pos a * 140737488355328) (Z.pos d)
                      (50 * 140737488355328) ltac:(lia) eq_refl ltac:(lia)).
        lia.
      * intros Hin.
        pose proof (round_half_even_below (Z.pos a * 140737488355328) (Z.pos d)
                      (50 * 140737488355328) ltac:(lia) ltac:(lia)).
        lia.
    + (* from 64 on *)
      destruct (Hnonneg ltac:(lia)) as [Hlow _].
      assert (Hs : 2 ^ 52 = 2 ^ k * 2 ^ (- (k - 52))).
      { rewrite <- Z.pow_add_r by lia. f_equal. lia. }
      assert (Hk6 : 2 ^ 6 <= 2 ^ k) by (apply Z.pow_le_mono_r; lia).
      change (2 ^ 6) with 64 in Hk6.
      assert (Hf : 2 ^ 52 <= Z.pos a * 2 ^ (- (k - 52)) / Z.pos d).
      { apply Z.div_le_lower_bound; [lia|]. rewrite Hs. nia. }
      change (2 ^ 48) with 281474976710656 in *.
      split; intros Hlt; exfalso; nia.
Qed.

(** The difference as computed is under 50 exactly when the exact one is
    under 50 - 2^-48. *)
Lemma round_under_50 (q : Q) :
  (Qabs (Float64.round q) < 50)%Q <-> (Qabs q < 50 - (1 # 2 ^ 48))%Q.
Proof.
  rewrite <- (Qred_correct q) at 2. unfold Float64.round.
  destruct (Qred q) as [[|a|a] d]; cbn [Qnum Qden].
  - split; intros _; reflexivity.
  - destruct (round_positive_under_50 a d) as [Hpos Hiff].
    rewrite (Qabs_pos _ Hpos), Hiff.
    unfold Qlt. cbn [Qabs Qnum Qden Z.abs Qminus Qplus Qopp].
    change (2 ^ 48) with 281474976710656. change (Z.pos (2 ^ 48)) with 281474976710656.
    lia.
  - destruct (round_positive_under_50 a d) as [Hpos Hiff].
    rewrite Qabs_opp, (Qabs_pos _ Hpos), Hiff.
    unfold Qlt. cbn [Qabs Qnum Qden Z.abs Qminus Qplus Qopp].
    change (2 ^ 48) with 281474976710656. change (Z.pos (2 ^ 48)) with 281474976710656.
    lia.
Qed.

(** ** Stale-element best-match scoring *)

Lemma add_attribute_points_spec (stale_node fresh_node : EnhancedDOMTreeNode) (base : Z) :
  Scoring.add_attribute_points stale_node fresh_node base
  = base + 2 * Z.of_nat (size (Scoring.equal_attributes stale_node fresh_node)).
Proof.
  unfold Scoring.add_attribute_points, Scoring.equal_attributes.
  destruct (bool_decide (attributes stale_node ≠ ∅)) eqn:Hs; simpl.
  2: { apply bool_decide_eq_false in Hs. apply dec_stable in Hs. rewrite Hs.
       rewrite dom_empty_L, intersection_empty_l_L, filter_empty_L, size_empty;
         [lia | apply _]. }
  destruct (bool_decide (attributes fresh_node ≠ ∅)) eqn:Hf; simpl.
  2: { apply bool_decide_eq_false in Hf. apply dec_stable in Hf. rewrite Hf.
       rewrite dom_empty_L, intersection_empty_r_L, filter_empty_L, size_empty;
         [lia | apply _]. }
  clear Hs Hf.
  generalize (dom (attributes stale_node) ∩ dom (attributes fresh_node)).
  intros X.
  apply (set_fold_ind_L
           (fun r (Y : gset string) =>
              r = base + 2 * Z.of_nat
                    (size (filter (fun attr => attributes stale_node !! attr
                                               = attributes fresh_node !! attr) Y)))).
  - rewrite filter_empty_L, size_empty; [lia | apply _].
  - intros attr Y r Hnotin ->.
    rewrite filter_union_L; [|apply _].
    case_bool_decide as Heq.
    + rewrite filter_singleton_True_L; [|first [done|apply _]..].
      rewrite size_union, size_singleton; [lia|].
      apply disjoint_singleton_l. rewrite elem_of_filter. tauto.
    + rewrite filter_singleton_False_L; [|first [done|apply _]..].
      rewrite (left_id_L ∅ (∪)). reflexivity.
Qed.

Lemma elem_of_equal_attributes (stale_node fresh_node : EnhancedDOMTreeNode) (attr : string) :
  attr ∈ Scoring.equal_attributes stale_node fresh_node
  <-> exists v, attributes stale_node !! attr = Some v /\ attributes fresh_node !! attr = Some v.
Proof.
  unfold Scoring.equal_attributes.
  rewrite elem_of_filter, elem_of_intersection, !elem_of_dom.
  split.
  - intros (Heq & [v Hv] & _). exists v. split; congruence.
  - intros (v & Hs & Hf). rewrite Hs, Hf. eauto.
Qed.

Lemma name_matches_spec (stale_node fresh_node : EnhancedDOMTreeNode) :
  Scoring.name_matches stale_node fresh_node = true
  <-> node_name stale_node <> EmptyString /\ node_name fresh_node <> EmptyString
      /\ PyStr.lower (node_name stale_node) = PyStr.lower (node_name fresh_node).
Proof.
  unfold Scoring.name_matches, PyStr.eqb.
  rewrite !andb_true_iff, bool_decide_eq_true.
  assert (Ht : forall s, PyStr.truthy s = true <-> s <> EmptyString).
  { intros [|c s]; simpl; split; congruence. }
  rewrite !Ht. tauto.
Qed.

Lemma position_matches_spec (stale_node fresh_node : EnhancedDOMTreeNode) :
  Scoring.position_matches stale_node fresh_node = true
  <-> exists p q, absolute_position stale_node = Some p
                  /\ absolute_position fresh_node = Some q
                  /\ (Qabs (Float64.sub (x p) (x q)) < 50)%Q
                  /\ (Qabs (Float64.sub (y p) (y q)) < 50)%Q.
Proof.
  unfold Scoring.position_matches.
  destruct (absolute_position stale_node) as [p|], (absolute_position fresh_node) as [q|].
  - rewrite andb_true_iff, !Qltb_lt. split.
    + intros [Hx Hy]. exists p, q. auto.
    + intros (p' & q' & [= <-] & [= <-] & Hx & Hy). auto.
  - split; [discriminate | intros (? & ? & _ & [=] & _)].
  - split; [discriminate | intros (? & ? & [=] & _)].
  - split; [discriminate | intros (? & ? & [=] & _)].
Qed.

Lemma score_formula (stale_node fresh_node : EnhancedDOMTreeNode) :
  Scoring.score stale_node fresh_node
  = (if Scoring.name_matches stale_node fresh_node then 10 else 0)
    + 2 * Z.of_nat (size (Scoring.equal_attributes stale_node fresh_node))
    + (if Scoring.position_matches stale_node fresh_node then 5 else 0).
Proof.
  unfold Scoring.score. rewrite add_attribute_points_spec.
  destruct (Scoring.name_matches _ _), (Scoring.position_matches _ _); lia.
Qed.

Lemma best_loop_invariant (stale_node : EnhancedDOMTreeNode) (nodes : list EnhancedDOMTreeNode) :
  best_so_far stale_node nodes (Scoring.best_loop stale_node (None, 0) nodes).
Proof.
  induction nodes as [|c nodes IH] using rev_ind.
  - split; [reflexivity|]. intros c Hc. inversion Hc.
  - unfold Scoring.best_loop in *. rewrite fold_left_app. simpl.
    destruct (fold_left _ nodes _) as [bm bs].
    unfold best_so_far in *; simpl in *. unfold Scoring.best_step.
    set (sc := Scoring.score stale_node c).
    destruct bm as [best|]; simpl in *.
    + destruct IH as (Hbs & H15 & i & Hi & Hmax & Hfirst).
      destruct ((bs <? sc) && (15 <=? sc)) eqn:Hup; simpl.
      * apply andb_true_iff in Hup as [Hlt _]. apply Z.ltb_lt in Hlt.
        split; [reflexivity|]. split; [lia|].
        exists (length nodes). split; [by rewrite list_lookup_middle|]. split.
        -- intros j d Hj. apply lookup_app_Some in Hj as [Hj|[_ Hj]].
           ++ specialize (Hmax j d Hj). lia.
           ++ apply list_lookup_singleton_Some in Hj as [_ <-]. fold sc. lia.
        -- intros j d Hlen Hj. rewrite lookup_app_l in Hj by done.
           specialize (Hmax j d Hj). lia.
      * split; [done|]. split; [done|].
        exists i. split; [by apply lookup_app_l_Some|]. split.
        -- intros j d Hj. apply lookup_app_Some in Hj as [Hj|[_ Hj]]; [eauto|].
           apply list_lookup_singleton_Some in Hj as [_ <-]. fold sc.
           apply andb_false_iff in Hup as [Hup|Hup];
             [apply Z.ltb_ge in Hup | apply Z.leb_gt in Hup]; lia.
        -- intros j d Hji Hj. apply (Hfirst j d Hji).
           apply lookup_lt_Some in Hi.
           by rewrite lookup_app_l in Hj by lia.
    + destruct IH as (-> & Hlow).
      destruct ((0 <? sc) && (15 <=? sc)) eqn:Hup; simpl.
      * apply andb_true_iff in Hup as [_ H15]. apply Z.leb_le in H15.
        split; [reflexivity|]. split; [done|].
        exists (length nodes). split; [by rewrite list_lookup_middle|]. split.
        -- intros j d Hj. apply lookup_app_Some in Hj as [Hj|[_ Hj]].
           ++ assert (d ∈ nodes) as Hd by (eapply list_elem_of_lookup_2; eauto).
              specialize (Hlow d Hd). lia.
           ++ apply list_lookup_singleton_Some in Hj as [_ <-]. fold sc. lia.
        -- intros j d Hlen Hj. rewrite lookup_app_l in Hj by done.
           assert (d ∈ nodes) as Hd by (eapply list_elem_of_lookup_2; eauto).
           specialize (Hlow d Hd). lia.
      * split; [reflexivity|]. intros d Hd.
        apply elem_of_app in Hd as [Hd|Hd]; [eauto|].
        apply list_elem_of_singleton in Hd as ->. fold sc.
        apply andb_false_iff in Hup as [Hup|Hup];
          [apply Z.ltb_ge in Hup | apply Z.leb_gt in Hup]; lia.
Qed.

Example score_tag_only :
  Scoring.score ScoringSamples.stale_button ScoringSamples.tag_only = 10.
Proof. vm_compute. reflexivity. Qed.

Example score_full_match :
  Scoring.score ScoringSamples.stale_button ScoringSamples.full_match = 17.
Proof. vm_compute. reflexivity. Qed.

Example score_at_tolerance :
  Scoring.score ScoringSamples.stale_button ScoringSamples.at_tolerance = 12.
Proof. vm_compute. reflexivity. Qed.

Example find_prefers_first_of_equal_scores :
  element_index <$> Scoring._find_by_element_characteristics
                      ScoringSamples.stale_button ScoringSamples.fresh_index
  = Some 9.
Proof. vm_compute. reflexivity. Qed.

Example find_rejects_tag_only :
  element_index <$> Scoring._find_by_element_characteristics
                      ScoringSamples.stale_button [(3, ScoringSamples.tag_only)]
  = None.
Proof. vm_compute. reflexivity. Qed.

Lemma selector_values_lookup (m : SelectorMap) (i : nat) :
  selector_values m !! i = snd <$> (m !! i).
Proof.
  unfold selector_values. revert i.
  induction m as [|e m IH]; intros [|i]; simpl; auto.
Qed.

Lemma selector_values_entry (m : SelectorMap) (i : nat) (c : EnhancedDOMTreeNode) :
  selector_values m !! i = Some c <-> exists index, m !! i = Some (index, c).
Proof.
  rewrite selector_values_lookup. destruct (m !! i) as [[k d]|]; simpl; split.
  - intros [= <-]. by exists k.
  - by intros (index & [= _ <-]).
  - discriminate.
  - by intros (index & [=]).
Qed.

Lemma position_within_tolerance (a b : Q) :
  (Qabs (Float64.sub a b) < 50)%Q <-> (Qabs (a - b) < 50 - (1 # 2 ^ 48))%Q.
Proof. unfold Float64.sub. apply round_under_50. Qed.

Example computed_difference_at_the_edge :
  (Float64.sub 50 (1 # 2 ^ 70) == 50)%Q.
Proof. vm_compute. reflexivity. Qed.

Example score_near_origin :
  Scoring.score RoundingSamples.stale_button RoundingSamples.near_origin = 12
  /\ documented_score RoundingSamples.stale_button RoundingSamples.near_origin = 17.
Proof. split; vm_compute; reflexivity. Qed.

(** C1, as documented, fails at the edge of the tolerance. The documented
    rule adds 5 when the two positions differ by less than 50px on each
    axis. For a reference at x = 50 and a candidate at x = 2^-70, of the
    same tag, id and height, they do, and the documented score is 17; the
    code subtracts the two doubles, gets 50.0, scores the candidate 12 and
    returns nothing. *)
Lemma C1_exact_difference_refuted :
  ~ (forall stale_node fresh_node : EnhancedDOMTreeNode,
        Scoring.score stale_node fresh_node = documented_score stale_node fresh_node)
  /\ ~ (forall (stale_node fresh_node : EnhancedDOMTreeNode) (index : Z),
        15 <= documented_score stale_node fresh_node ->
        Scoring._find_by_element_characteristics stale_node [(index, fresh_node)]
        = Some fresh_node).
Proof.
  split.
  - intros H.
    specialize (H RoundingSamples.stale_button RoundingSamples.near_origin).
    vm_compute in H. discriminate H.
  - intros H.
    specialize (H RoundingSamples.stale_button RoundingSamples.near_origin 5).
    assert (15 <= documented_score RoundingSamples.stale_button
                    RoundingSamples.near_origin) as H15
      by (vm_compute; discriminate).
    specialize (H H15). vm_compute in H. discriminate H.
Qed.

(** C1. Each candidate's score is 10 for a case-insensitive tag-name match
    (of two recorded names), plus 2 for every attribute key present on both
    nodes with equal values, plus 5 when both nodes have a position and, on
    each axis, the difference of the two coordinates as the subtraction of
    doubles computes it is under 50px in absolute value; that is the case
    exactly when the two coordinates differ by less than 50 - 2^-48. The
    search returns the node of an entry of the selector map of maximal
    score, the first one in iteration order among those of that score, and
    only when that score is at least 15; otherwise it returns nothing. A
    returned candidate never has the tag-only score of 10. *)
Theorem C1_best_match_scoring
    (stale_node : EnhancedDOMTreeNode) (fresh_selector_map : SelectorMap) :
  let points (b : bool) (n : Z) := if b then n else 0 in
  (forall fresh_node,
      Scoring.score stale_node fresh_node
      = points (Scoring.name_matches stale_node fresh_node) 10
        + 2 * Z.of_nat (size (Scoring.equal_attributes stale_node fresh_node))
        + points (Scoring.position_matches stale_node fresh_node) 5)
  /\ (forall fresh_node,
      Scoring.name_matches stale_node fresh_node = true
      <-> node_name stale_node <> EmptyString /\ node_name fresh_node <> EmptyString
          /\ PyStr.lower (node_name stale_node) = PyStr.lower (node_name fresh_node))
  /\ (forall fresh_node attr,
      attr ∈ Scoring.equal_attributes stale_node fresh_node
      <-> exists v, attributes stale_node !! attr = Some v
                    /\ attributes fresh_node !! attr = Some v)
  /\ (forall fresh_node,
      Scoring.position_matches stale_node fresh_node = true
      <-> exists p q, absolute_position stale_node = Some p
                      /\ absolute_position fresh_node = Some q
                      /\ (Qabs (Float64.sub (x p) (x q)) < 50)%Q
                      /\ (Qabs (Float64.sub (y p) (y q)) < 50)%Q)
  /\ (forall a b : Q,
      (Qabs (Float64.sub a b) < 50)%Q <-> (Qabs (a - b) < 50 - (1 # 2 ^ 48))%Q)
  /\ match Scoring._find_by_element_characteristics stale_node fresh_selector_map with
     | Some best =>
         15 <= Scoring.score stale_node best
         /\ Scoring.score stale_node best <> 10
         /\ exists (i : nat) (index : Z),
              fresh_selector_map !! i = Some (index, best)
              /\ (forall j index' c,
                     fresh_selector_map !! j = Some (index', c)
                     -> Scoring.score stale_node c <= Scoring.score stale_node best)
              /\ (forall j index' c,
                     (j < i)%nat -> fresh_selector_map !! j = Some (index', c)
                     -> Scoring.score stale_node c < Scoring.score stale_node best)
     | None =>
         forall index c, (index, c) ∈ fresh_selector_map
                         -> Scoring.score stale_node c < 15
     end.
Proof.
  intros points.
  split; [intros; apply score_formula|].
  split; [intros; apply name_matches_spec|].
  split; [intros; apply elem_of_equal_attributes|].
  split; [intros; apply position_matches_spec|].
  split; [apply position_within_tolerance|].
  unfold Scoring._find_by_element_characteristics.
  pose proof (best_loop_invariant stale_node (selector_values fresh_selector_map))
    as Hinv.
  unfold best_so_far in Hinv.
  destruct (fst (Scoring.best_loop stale_node (None, 0)
                   (selector_values fresh_selector_map))) as [best|].
  - destruct Hinv as (Hbs & H15 & i & Hi & Hmax & Hfirst).
    rewrite <- Hbs. split; [done|]. split; [lia|].
    apply selector_values_entry in Hi as [index Hi].
    exists i, index. split; [done|]. split.
    + intros j index' c Hj. apply (Hmax j).
      apply selector_values_entry. by exists index'.
    + intros j index' c Hji Hj. apply (Hfirst j); [done|].
      apply selector_values_entry. by exists index'.
  - intros index c Hc. apply Hinv.
    apply list_elem_of_lookup_1 in Hc as [i Hi].
    apply (list_elem_of_lookup_2 _ i), selector_values_entry. by exists index.
Qed.

(** ** Staleness check *)

Lemma any_in_spec (keywords : list string) (s : string) :
  PyStr.any_in keywords s = true
  <-> exists k, In k keywords /\ PyStr.contains k s = true.
Proof. unfold PyStr.any_in. apply existsb_exists. Qed.

Lemma truthy_spec (s : string) : PyStr.truthy s = true <-> s <> EmptyString.
Proof. destruct s; simpl; split; congruence. Qed.

Lemma lower_empty (s : string) : PyStr.lower s = EmptyString <-> s = EmptyString.
Proof. destruct s; unfold PyStr.lower; split; congruence. Qed.

(** Without a target id no query is made and the element counts as fresh. *)
Lemma check_without_target (env : Staleness.Env) (node : EnhancedDOMTreeNode)
    (w : Staleness.World) :
  target_id node = EmptyString ->
  Staleness._check_element_staleness env node w = (Returns false, w).
Proof. intros Ht. unfold Staleness._check_element_staleness. rewrite Ht. reflexivity. Qed.

(** A failure to obtain the session counts as fresh. *)
Lemma check_session_failure (env : Staleness.Env) (node : EnhancedDOMTreeNode)
    (w : Staleness.World) (e : string) :
  Staleness.get_or_create_cdp_session env = Exc e ->
  fst (Staleness._check_element_staleness env node w) = Returns false.
Proof.
  intros Hs. unfold Staleness._check_element_staleness, try_except.
  destruct (PyStr.truthy (target_id node)); simpl; [|reflexivity].
  unfold mbind, M_bind, external. rewrite Hs. reflexivity.
Qed.

Example check_node_not_found :
  fst (Staleness._check_element_staleness
         (StalenessSamples.failing_env "Node not found for given backend id")
         StalenessSamples.button StalenessSamples.world) = Returns true.
Proof. vm_compute. reflexivity. Qed.

Example check_websocket_closed :
  fst (Staleness._check_element_staleness
         (StalenessSamples.failing_env "WebSocket connection closed")
         StalenessSamples.button StalenessSamples.world) = Returns false.
Proof. vm_compute. reflexivity. Qed.

Example check_renamed_node :
  fst (Staleness._check_element_staleness
         (StalenessSamples.describing_env "DIV")
         StalenessSamples.button StalenessSamples.world) = Returns true.
Proof. vm_compute. reflexivity. Qed.

Example check_same_node :
  fst (Staleness._check_element_staleness
         (StalenessSamples.describing_env "button")
         StalenessSamples.button StalenessSamples.world) = Returns false.
Proof. vm_compute. reflexivity. Qed.

(** C2, as stated, fails: a query failure whose message is none of the five
    documented indicators is classified as stale all the same, because the
    code's list has a sixth indicator, "could not find node". *)
Lemma C2_documented_indicators_refuted :
  ~ (forall (env : Staleness.Env) (node : EnhancedDOMTreeNode) (w : Staleness.World)
            (message : string),
        target_id node <> EmptyString ->
        Staleness.get_or_create_cdp_session env = Ok tt ->
        Staleness.describeNode env = Exc message ->
        (fst (Staleness._check_element_staleness env node w) = Returns true
         <-> PyStr.any_in Staleness.documented_stale_indicators (PyStr.lower message) = true)).
Proof.
  intros H.
  destruct (H (StalenessSamples.failing_env "Could not find node with given id")
              StalenessSamples.button StalenessSamples.world
              "Could not find node with given id") as [Hstale _].
  - discriminate.
  - reflexivity.
  - reflexivity.
  - assert (Hdoc : PyStr.any_in Staleness.documented_stale_indicators
                     (PyStr.lower "Could not find node with given id") = false)
      by (vm_compute; reflexivity).
    rewrite Hstale in Hdoc; [discriminate|].
    vm_compute. reflexivity.
Qed.

(** C2, amended. With a target id and a session: a failed node-description
    query is classified as stale exactly when its lower-cased message contains
    one of the six indicators "node not found", "could not find node",
    "invalid node id", "node is not attached", "disconnected frame",
    "execution context destroyed", and as not stale otherwise; a successful
    query is stale exactly when the recorded tag name and the returned node
    name are both non-empty and differ case-insensitively. *)
Theorem C2_staleness_check
    (env : Staleness.Env) (node : EnhancedDOMTreeNode) (w : Staleness.World) :
  target_id node <> EmptyString ->
  Staleness.get_or_create_cdp_session env = Ok tt ->
  exists is_stale : bool,
    fst (Staleness._check_element_staleness env node w) = Returns is_stale
    /\ match Staleness.describeNode env with
       | Exc message =>
           is_stale = true
           <-> exists indicator,
                 In indicator [ "node not found"; "could not find node"; "invalid node id";
                                "node is not attached"; "disconnected frame";
                                "execution context destroyed" ]
                 /\ PyStr.contains indicator (PyStr.lower message) = true
       | Ok reply =>
           let current_name := default EmptyString (Staleness.reply_node_name reply) in
           is_stale = true
           <-> node_name node <> EmptyString /\ current_name <> EmptyString
               /\ PyStr.lower (node_name node) <> PyStr.lower current_name
       end.
Proof.
  intros Ht Hs.
  apply truthy_spec in Ht.
  unfold Staleness._check_element_staleness, try_except, Staleness.call.
  rewrite Ht. simpl. unfold mbind, M_bind, external, modify. rewrite Hs. simpl.
  destruct (Staleness.describeNode env) as [reply|message]; simpl.
  - set (current := default EmptyString (Staleness.reply_node_name reply)).
    destruct (PyStr.truthy (node_name node)
              && PyStr.truthy (PyStr.lower current)
              && negb (PyStr.eqb (PyStr.lower (node_name node)) (PyStr.lower current)))
      eqn:Hc; simpl.
    + exists true. split; [reflexivity|]. split; [intros _|reflexivity].
      apply andb_true_iff in Hc as [Hc Hne]. apply andb_true_iff in Hc as [Ho Hcur].
      apply truthy_spec in Ho, Hcur. rewrite lower_empty in Hcur.
      apply negb_true_iff, bool_decide_eq_false in Hne. auto.
    + exists false. split; [reflexivity|]. split; [discriminate|].
      intros (Ho & Hcur & Hne). exfalso.
      apply truthy_spec in Ho. rewrite <- lower_empty in Hcur. apply truthy_spec in Hcur.
      rewrite Ho, Hcur in Hc. simpl in Hc.
      apply negb_false_iff, bool_decide_eq_true in Hc. contradiction.
  - destruct (PyStr.any_in Staleness.stale_indicators (PyStr.lower message)) eqn:Hany; simpl.
    + exists true. split; [reflexivity|]. split; [intros _|reflexivity].
      apply any_in_spec in Hany. exact Hany.
    + exists false. split; [reflexivity|]. split; [discriminate|].
      intros Hex.
      assert (PyStr.any_in Staleness.stale_indicators (PyStr.lower message) = true)
        by (apply any_in_spec; exact Hex).
      congruence.
Qed.

Lemma C2_staleness_check_witness :
  exists is_stale : bool,
    fst (Staleness._check_element_staleness
           (StalenessSamples.failing_env "Could not find node with given id")
           StalenessSamples.button StalenessSamples.world) = Returns is_stale
    /\ (is_stale = true
        <-> exists indicator,
              In indicator [ "node not found"; "could not find node"; "invalid node id";
                             "node is not attached"; "disconnected frame";
                             "execution context destroyed" ]
              /\ PyStr.contains indicator
                   (PyStr.lower "Could not find node with given id") = true).
Proof.
  apply (C2_staleness_check
           (StalenessSamples.failing_env "Could not find node with given id")
           StalenessSamples.button StalenessSamples.world).
  - discriminate.
  - reflexivity.
Defined.

(** ** Stale-element retry bookkeeping *)

Ltac run_monad :=
  unfold Staleness.call, try_except, modify, external, get_world,
    mbind, M_bind, mret, M_ret in *; simpl in *.

Ltac errors_frame :=
  unfold Staleness.errors_emitted; simpl;
  rewrite ?List.filter_app, ?length_app; simpl; lia.

Lemma force_dom_rebuild_frame (env : Staleness.Env) (w : Staleness.World) :
  exists w', Staleness._force_dom_rebuild env w = (Returns tt, w')
    /\ Staleness._retry_counts w' = Staleness._retry_counts w
    /\ Staleness.event w' = Staleness.event w
    /\ Staleness.errors_emitted w' = Staleness.errors_emitted w.
Proof.
  unfold Staleness._force_dom_rebuild, Staleness._get_dom_watchdog. run_monad.
  destruct (Qltb _ _); [eauto 6|].
  destruct (Staleness._dom_watchdog env) as [d|]; simpl.
  - destruct (Staleness.clear_cache d); simpl;
      [destruct (Staleness.state_request env); simpl|];
      (eexists; split; [reflexivity|]; repeat split; errors_frame).
  - destruct (Staleness.state_request env); simpl;
      (eexists; split; [reflexivity|]; repeat split; errors_frame).
Qed.

Lemma find_fresh_frame (env : Staleness.Env) (stale_node : EnhancedDOMTreeNode)
    (w : Staleness.World) :
  exists r w', Staleness._find_fresh_element_equivalent env stale_node w = (Returns r, w')
    /\ Staleness._retry_counts w' = Staleness._retry_counts w
    /\ Staleness.event w' = Staleness.event w
    /\ Staleness.errors_emitted w' = Staleness.errors_emitted w
    /\ forall w2, fst (Staleness._find_fresh_element_equivalent env stale_node w2) = Returns r.
Proof.
  unfold Staleness._find_fresh_element_equivalent, Staleness._get_dom_watchdog. run_monad.
  assert (Hdone : forall (r : option EnhancedDOMTreeNode) (k : Staleness.World -> Staleness.World),
             (forall v, Staleness._retry_counts (k v) = Staleness._retry_counts v) ->
             (forall v, Staleness.event (k v) = Staleness.event v) ->
             (forall v, Staleness.errors_emitted (k v) = Staleness.errors_emitted v) ->
             exists r0 w', (Returns r, k w) = (Returns r0, w')
               /\ Staleness._retry_counts w' = Staleness._retry_counts w
               /\ Staleness.event w' = Staleness.event w
               /\ Staleness.errors_emitted w' = Staleness.errors_emitted w
               /\ forall w2, fst (Returns r, k w2) = Returns r0).
  { intros r k Hk1 Hk2 Hk3. exists r, (k w). auto 6. }
  destruct (Staleness._dom_watchdog env) as [d|]; simpl;
    [|apply (Hdone None (fun v => v)); reflexivity].
  destruct (Staleness.selector_map d) as [[|entry m]|]; simpl;
    [apply (Hdone None (fun v => v)); reflexivity| |apply (Hdone None (fun v => v)); reflexivity].
  destruct (selector_get (entry :: m) (element_index stale_node)); simpl;
    (apply (Hdone _ (Staleness.record _)); intros; [reflexivity|reflexivity|errors_frame]).
Qed.

Lemma set_event_node_spec (e : Staleness.Event) (fresh_element : EnhancedDOMTreeNode) :
  Staleness.event_node (Staleness.set_event_node e fresh_element) = Some fresh_element
  /\ Staleness.event_fields (Staleness.set_event_node e fresh_element)
     = Staleness.event_fields e.
Proof. destruct e; simpl; auto. Qed.

(** At the limit: one error event, nothing else. *)
Lemma handle_stale_at_limit (env : Staleness.Env) (action_type : string)
    (stale_node : EnhancedDOMTreeNode) (retry_key : string) (w : Staleness.World) :
  2 <= Staleness.retry_count_of w retry_key ->
  Staleness._handle_stale_element env action_type stale_node retry_key w
  = (outcome (Staleness.dispatch_error env),
     Staleness.record
       (Staleness.DispatchBrowserError "ElementStalenessRetryExceeded"
          ("Element staleness retry limit exceeded for " +:+ action_type
           +:+ " on element " +:+ pretty (element_index stale_node))
          {| Staleness.details_action_type := action_type;
             Staleness.details_element_index := element_index stale_node;
             Staleness.details_retry_count := Staleness.retry_count_of w retry_key |}) w).
Proof.
  intros Hc. unfold Staleness._handle_stale_element, Staleness._get_retry_count.
  run_monad. fold (Staleness.retry_count_of w retry_key).
  destruct (2 <=? Staleness.retry_count_of w retry_key) eqn:Hle; [|apply Z.leb_gt in Hle; lia].
  destruct (Staleness.dispatch_error env); reflexivity.
Qed.

(** Below the limit: one attempt, which either resolves the element, replaces
    the event's node and drops the counter, or leaves the counter incremented. *)
Lemma handle_stale_below_limit (env : Staleness.Env) (action_type : string)
    (stale_node : EnhancedDOMTreeNode) (retry_key : string) (w : Staleness.World) :
  Staleness.retry_count_of w retry_key < 2 ->
  exists w',
    Staleness._handle_stale_element env action_type stale_node retry_key w = (Returns tt, w')
    /\ Staleness.errors_emitted w' = Staleness.errors_emitted w
    /\ match fst (Staleness._find_fresh_element_equivalent env stale_node w) with
       | Returns (Some fresh_element) =>
           Staleness.event w' = Staleness.set_event_node (Staleness.event w) fresh_element
           /\ Staleness._retry_counts w' = delete retry_key (Staleness._retry_counts w)
       | _ =>
           Staleness.event w' = Staleness.event w
           /\ Staleness._retry_counts w'
              = <[retry_key := Staleness.retry_count_of w retry_key + 1]> (Staleness._retry_counts w)
       end.
Proof.
  intros Hc. unfold Staleness._handle_stale_element, Staleness._get_retry_count,
    Staleness._increment_retry_count, Staleness._get_retry_count,
    Staleness._update_event_with_fresh_element, Staleness._reset_retry_count.
  run_monad. fold (Staleness.retry_count_of w retry_key).
  destruct (2 <=? Staleness.retry_count_of w retry_key) eqn:Hle; [apply Z.leb_le in Hle; lia|].
  set (w1 := Staleness.set_retry_counts _ w).
  destruct (force_dom_rebuild_frame env w1) as (w2 & -> & Hc2 & He2 & Hn2).
  destruct (find_fresh_frame env stale_node w2) as (r & w3 & -> & Hc3 & He3 & Hn3 & Hr).
  rewrite (Hr w).
  assert (Hn : Staleness.errors_emitted w3 = Staleness.errors_emitted w)
    by (rewrite Hn3, Hn2; reflexivity).
  destruct r as [fresh_element|]; simpl.
  - eexists. split; [reflexivity|]. split; [exact Hn|].
    simpl. rewrite He3, He2, Hc3, Hc2. simpl.
    split; [reflexivity|]. apply delete_insert_eq.
  - eexists. split; [reflexivity|]. split; [exact Hn|].
    rewrite He3, He2, Hc3, Hc2. simpl. auto.
Qed.

Lemma handle_stale_repeatedly_spec (envs : list Staleness.Env) (action_type : string)
    (stale_node : EnhancedDOMTreeNode) (retry_key : string) (w : Staleness.World) :
  Forall (Staleness.unresolved stale_node) envs ->
  0 <= Staleness.retry_count_of w retry_key <= 2 ->
  let w' := Staleness.handle_stale_repeatedly envs action_type stale_node retry_key w in
  Staleness.retry_count_of w' retry_key
  = Z.min 2 (Staleness.retry_count_of w retry_key + Z.of_nat (length envs))
  /\ Staleness.errors_emitted w'
     = (Staleness.errors_emitted w
        + (length envs - Z.to_nat (2 - Staleness.retry_count_of w retry_key)))%nat
  /\ Staleness.event w' = Staleness.event w.
Proof.
  intros Hun. revert w.
  induction Hun as [|env envs Henv Hun IH]; intros w Hc; simpl.
  - split; [lia|]. split; [lia|reflexivity].
  - destruct (Z.eq_dec (Staleness.retry_count_of w retry_key) 2) as [Hlim|Hlow].
    + rewrite handle_stale_at_limit by lia. simpl.
      set (w1 := Staleness.record _ w).
      assert (Hc1 : Staleness.retry_count_of w1 retry_key = Staleness.retry_count_of w retry_key)
        by reflexivity.
      assert (Hn1 : Staleness.errors_emitted w1 = S (Staleness.errors_emitted w))
        by (subst w1; errors_frame).
      destruct (IH w1) as (IHc & IHn & IHe); [lia|].
      rewrite IHc, IHn, IHe, Hc1, Hn1. split; [lia|]. split; [lia|reflexivity].
    + destruct (handle_stale_below_limit env action_type stale_node retry_key w)
        as (w1 & Hrun & Hn1 & Hres); [lia|].
      rewrite Hrun. simpl. rewrite (Henv w) in Hres. destruct Hres as [He1 Hc1].
      assert (Hk : Staleness.retry_count_of w1 retry_key
                   = Staleness.retry_count_of w retry_key + 1).
      { unfold Staleness.retry_count_of at 1. rewrite Hc1, lookup_insert_eq. reflexivity. }
      destruct (IH w1) as (IHc & IHn & IHe); [lia|].
      rewrite IHc, IHn, IHe, Hk, Hn1, He1. split; [lia|]. split; [lia|reflexivity].
Qed.

Example recovery_by_index :
  let w' := snd (Staleness.on_event
                   (RecoverySamples.stale_env [(2, RecoverySamples.other);
                                               (7, RecoverySamples.fresh_button)])
                   RecoverySamples.click_world) in
  Staleness.event w'
  = Staleness.ClickElementEvent RecoverySamples.fresh_button {[ "button" := "left" ]}
  /\ Staleness._retry_counts w' = ∅
  /\ Staleness.effects w'
     = [ Staleness.CdpDescribeNode 47; Staleness.DomClearCache;
         Staleness.DispatchBrowserStateRequest; Staleness.SelectorMapLookup 7 ].
Proof. vm_compute. auto. Qed.

Example third_stale_handling_reports :
  let env := RecoverySamples.stale_env [(2, RecoverySamples.other)] in
  let w' := Staleness.handle_stale_repeatedly [env; env; env] "click"
              StalenessSamples.button "click_T1_7_47" RecoverySamples.click_world in
  Staleness._retry_counts w' !! "click_T1_7_47" = Some 2
  /\ last (Staleness.effects w')
     = Some (Staleness.DispatchBrowserError "ElementStalenessRetryExceeded"
               "Element staleness retry limit exceeded for click on element 7"
               {| Staleness.details_action_type := "click";
                  Staleness.details_element_index := 7;
                  Staleness.details_retry_count := 2 |})
  /\ Staleness.errors_emitted w' = 1%nat.
Proof. vm_compute. auto. Qed.

Example element_key_format :
  Staleness._get_element_key StalenessSamples.button = "T1_7_47".
Proof. vm_compute. reflexivity. Qed.

(** C9. Under a key [(action kind, element identity)]:
    - once the retry count has reached the limit of 2, handling a stale
      element dispatches one error event, whose details carry the action
      kind, the element index and the attempt count, and does nothing else
      (no rebuild, no lookup; counters and event untouched);
    - below the limit one recovery is attempted; when the element is found
      again the event's node, and only it, is replaced and the key's counter
      is removed; when it is not, the counter is incremented;
    - over any number of successive unresolved handlings the counter stops
      at 2, so that at most 2 of them attempt a recovery and every other one
      only reports the error. *)
Theorem C9_stale_retry_bookkeeping
    (env : Staleness.Env) (action_type : string) (stale_node : EnhancedDOMTreeNode)
    (retry_key : string) (w : Staleness.World) :
  let attempts := Staleness.retry_count_of w retry_key in
  let after := Staleness._handle_stale_element env action_type stale_node retry_key w in
  (2 <= attempts ->
     exists message,
       snd after
       = Staleness.record
           (Staleness.DispatchBrowserError "ElementStalenessRetryExceeded" message
              {| Staleness.details_action_type := action_type;
                 Staleness.details_element_index := element_index stale_node;
                 Staleness.details_retry_count := attempts |}) w)
  /\ (attempts < 2 ->
      fst after = Returns tt
      /\ Staleness.errors_emitted (snd after) = Staleness.errors_emitted w
      /\ match fst (Staleness._find_fresh_element_equivalent env stale_node w) with
         | Returns (Some fresh_element) =>
             Staleness.event_node (Staleness.event (snd after)) = Some fresh_element
             /\ Staleness.event_fields (Staleness.event (snd after))
                = Staleness.event_fields (Staleness.event w)
             /\ Staleness.event (snd after)
                = Staleness.set_event_node (Staleness.event w) fresh_element
             /\ Staleness._retry_counts (snd after) !! retry_key = None
         | _ =>
             Staleness.event (snd after) = Staleness.event w
             /\ Staleness._retry_counts (snd after) !! retry_key = Some (attempts + 1)
         end)
  /\ (forall envs : list Staleness.Env,
        Forall (Staleness.unresolved stale_node) envs ->
        0 <= attempts <= 2 ->
        let w' := Staleness.handle_stale_repeatedly envs action_type stale_node retry_key w in
        Staleness.retry_count_of w' retry_key = Z.min 2 (attempts + Z.of_nat (length envs))
        /\ Staleness.errors_emitted w'
           = (Staleness.errors_emitted w + (length envs - Z.to_nat (2 - attempts)))%nat).
Proof.
  intros attempts after. subst after. split; [|split].
  - intros Hlim. rewrite handle_stale_at_limit by done. simpl. eauto.
  - intros Hlow.
    destruct (handle_stale_below_limit env action_type stale_node retry_key w Hlow)
      as (w1 & -> & Hn1 & Hres).
    simpl. split; [reflexivity|]. split; [exact Hn1|].
    destruct (fst (Staleness._find_fresh_element_equivalent env stale_node w))
      as [[fresh_element|]|e|].
    + destruct Hres as [-> ->].
      destruct (set_event_node_spec (Staleness.event w) fresh_element) as [Hnode Hfields].
      rewrite lookup_delete_eq. auto.
    + destruct Hres as [-> ->]. rewrite lookup_insert_eq. auto.
    + destruct Hres as [-> ->]. rewrite lookup_insert_eq. auto.
    + destruct Hres as [-> ->]. rewrite lookup_insert_eq. auto.
  - intros envs Hun Hc.
    destruct (handle_stale_repeatedly_spec envs action_type stale_node retry_key w Hun Hc)
      as (H1 & H2 & _).
    auto.
Qed.

(** ** Error classification *)

Example classify_connection_reset :
  let r := ErrorClassifier.classify_error ErrorSamples.connection_reset "navigate" None in
  ErrorClassifier.category r = ErrorClassifier.RETRYABLE_NETWORK
  /\ ErrorClassifier.max_retries r = 3
  /\ ErrorClassifier.retry_delay r = 2%Q
  /\ ErrorClassifier.user_message r = "Network issue: Network error. Retrying...".
Proof. vm_compute. auto. Qed.

Example classify_bare_timeout :
  ErrorClassifier.category
    (ErrorClassifier.classify_error ErrorSamples.bare_timeout "click" None)
  = ErrorClassifier.RETRYABLE_TIMING.
Proof. vm_compute. reflexivity. Qed.

Example classify_unknown :
  let r := ErrorClassifier.classify_error ErrorSamples.division "" None in
  ErrorClassifier.category r = ErrorClassifier.UNKNOWN
  /\ ErrorClassifier.technical_details r = "ZeroDivisionError: division by zero".
Proof. vm_compute. auto. Qed.

Example search_respects_order :
  Regex.search ["connection"; "refuse"] "refused connection" = false
  /\ Regex.search ["connection"; "refuse"] "the connection was refused" = true.
Proof. vm_compute. auto. Qed.

(** C10. [classify_error] returns the same classification whatever the
    [action_name] and [context] arguments are; in particular the six fields
    of the two results agree. The result is determined by the lower-cased
    text of the error, the name of its type and whether it is a
    [TimeoutError]. *)
Theorem C10_classification_ignores_action_and_context
    (error : ErrorClassifier.PyError)
    (action_name1 action_name2 : string)
    (context1 context2 : option (gmap string string)) :
  let r1 := ErrorClassifier.classify_error error action_name1 context1 in
  let r2 := ErrorClassifier.classify_error error action_name2 context2 in
  r1 = r2
  /\ ErrorClassifier.category r1 = ErrorClassifier.category r2
  /\ ErrorClassifier.should_retry r1 = ErrorClassifier.should_retry r2
  /\ ErrorClassifier.retry_delay r1 = ErrorClassifier.retry_delay r2
  /\ ErrorClassifier.max_retries r1 = ErrorClassifier.max_retries r2
  /\ ErrorClassifier.user_message r1 = ErrorClassifier.user_message r2
  /\ ErrorClassifier.technical_details r1 = ErrorClassifier.technical_details r2
  /\ (forall error' : ErrorClassifier.PyError,
        PyStr.lower (ErrorClassifier.error_text error')
        = PyStr.lower (ErrorClassifier.error_text error) ->
        ErrorClassifier.error_type_name error' = ErrorClassifier.error_type_name error ->
        ErrorClassifier.is_TimeoutError error' = ErrorClassifier.is_TimeoutError error ->
        ErrorClassifier.classify_error error' action_name2 context2 = r1).
Proof.
  intros r1 r2.
  assert (Heq : r1 = r2) by reflexivity.
  rewrite Heq. repeat split.
  intros error' Htext Htype Htimeout. subst r2.
  unfold ErrorClassifier.classify_error. rewrite Htext, Htype, Htimeout. reflexivity.
Qed.

(** ** Network failure ledger *)

Example two_failures_recorded :
  NetworkReliability.failures NetworkSamples.after_two_failures NetworkSamples.url = Some 2
  /\ NetworkReliability._last_network_failure NetworkSamples.after_two_failures
       !! NetworkSamples.url = Some 10%Q.
Proof. vm_compute. auto. Qed.

Lemma expire_sweep_lookup (current_time : Q) (urls : list string)
    (w : NetworkReliability.World) (url : string) :
  let expired :=
    match NetworkReliability._last_network_failure w !! url with
    | Some last_failure => Qgtb (current_time - last_failure) 300
    | None => false
    end in
  let w' := fold_left (NetworkReliability.expire current_time) urls w in
  (NetworkReliability._network_failure_count w' !! url
   = if bool_decide (url ∈ urls) && expired then None
     else NetworkReliability._network_failure_count w !! url)
  /\ (NetworkReliability._last_network_failure w' !! url
      = if bool_decide (url ∈ urls) && expired then None
        else NetworkReliability._last_network_failure w !! url)
  /\ NetworkReliability.effects w' = NetworkReliability.effects w.
Proof.
  revert w. induction urls as [|u urls IH]; intros w; simpl.
  - auto.
  - destruct (IH (NetworkReliability.expire current_time w u)) as (IHc & IHl & IHe).
    rewrite IHc, IHl, IHe. clear IHc IHl IHe IH.
    unfold NetworkReliability.expire.
    destruct (decide (u = url)) as [->|Hne].
    + rewrite (bool_decide_eq_true_2 (url ∈ url :: urls)) by left. simpl.
      destruct (NetworkReliability._last_network_failure w !! url) as [t0|] eqn:Hl.
      * destruct (Qgtb (current_time - t0) 300) eqn:Hexp; simpl.
        -- rewrite !lookup_delete_eq. rewrite andb_false_r. auto.
        -- rewrite Hl, Hexp, andb_false_r. auto.
      * rewrite Hl, andb_false_r. auto.
    + assert (Hin : bool_decide (url ∈ u :: urls) = bool_decide (url ∈ urls)).
      { apply bool_decide_ext. rewrite elem_of_cons.
        split; [intros [Heq|Hin]; [congruence|exact Hin] | auto]. }
      rewrite Hin.
      destruct (NetworkReliability._last_network_failure w !! u) as [t0|]; [|auto].
      destruct (Qgtb (current_time - t0) 300); [|auto].
      simpl. rewrite !lookup_delete_ne by done. auto.
Qed.

(** The sweep at a navigation start: entries older than 300 seconds go,
    count and timestamp together; all others stay. *)
Lemma navigation_started_sweep (env : NetworkReliability.Env)
    (event : NetworkReliability.NavigationStartedEvent)
    (w : NetworkReliability.World) (url : string) :
  let expired :=
    match NetworkReliability._last_network_failure w !! url with
    | Some last_failure => Qgtb (NetworkReliability.time env - last_failure) 300
    | None => false
    end in
  exists w',
    NetworkReliability.on_NavigationStartedEvent env event w = (Returns tt, w')
    /\ NetworkReliability._network_failure_count w' !! url
       = (if expired then None else NetworkReliability._network_failure_count w !! url)
    /\ NetworkReliability._last_network_failure w' !! url
       = (if expired then None else NetworkReliability._last_network_failure w !! url)
    /\ NetworkReliability.effects w' = NetworkReliability.effects w.
Proof.
  intros expired. unfold NetworkReliability.on_NavigationStartedEvent, modify.
  eexists. split; [reflexivity|].
  destruct (expire_sweep_lookup (NetworkReliability.time env)
              (map fst (map_to_list (NetworkReliability._last_network_failure w))) w url)
    as (Hc & Hl & He).
  fold expired in Hc, Hl.
  rewrite Hc, Hl, He. clear Hc Hl He.
  destruct (NetworkReliability._last_network_failure w !! url) as [t0|] eqn:Hlast.
  - rewrite bool_decide_eq_true_2; [auto|].
    apply list_elem_of_fmap. exists (url, t0). split; [reflexivity|].
    by apply elem_of_map_to_list.
  - subst expired. simpl. rewrite andb_false_r. auto.
Qed.

(** Recording a failure increments the counter, whatever time has passed. *)
Lemma handle_network_error_counts (env : NetworkReliability.Env)
    (url error_message target_id : string) (w : NetworkReliability.World) :
  exists w',
    NetworkReliability._handle_network_error env url error_message target_id w = (Returns tt, w')
    /\ NetworkReliability._network_failure_count w' !! url
       = Some (default 0 (NetworkReliability._network_failure_count w !! url) + 1)
    /\ NetworkReliability._last_network_failure w' !! url = Some (NetworkReliability.time env).
Proof.
  unfold NetworkReliability._handle_network_error, NetworkReliability.call.
  unfold try_except, modify, external, get_world, mbind, M_bind, mret, M_ret.
  destruct (NetworkReliability._calculate_retry_strategy _ _ _ _) as [[|] retry_delay].
  - destruct (NetworkReliability.get_or_create_cdp_session env); simpl;
      [|eexists; split; [reflexivity|]; simpl; rewrite !lookup_insert_eq; auto].
    destruct (NetworkReliability.location_href env) as [href|]; simpl;
      [|eexists; split; [reflexivity|]; simpl; rewrite !lookup_insert_eq; auto].
    destruct (PyStr.eqb (default "" href) url || PyStr.eqb (default "" href) "about:blank");
      simpl.
    + destruct (NetworkReliability.reload env) as [[]|]; simpl;
        (eexists; split; [reflexivity|]; simpl; rewrite !lookup_insert_eq; auto).
    + destruct (NetworkReliability.dispatch_navigate env) as [[]|]; simpl;
        (eexists; split; [reflexivity|]; simpl; rewrite !lookup_insert_eq; auto).
  - eexists; split; [reflexivity|]; simpl; rewrite !lookup_insert_eq; auto.
Qed.

Example third_failure_after_sweep :
  NetworkReliability.failures
    (snd (NetworkReliability.on_NavigationCompleteEvent
            (NetworkSamples.env_at 311) NetworkSamples.failed
            (snd (NetworkReliability.on_NavigationStartedEvent
                    (NetworkSamples.env_at 311) NetworkSamples.started
                    NetworkSamples.after_two_failures))))
    NetworkSamples.url
  = Some 1.
Proof. vm_compute. reflexivity. Qed.

(** A navigation started 290 seconds after the last failure and failing 21
    seconds later: the sweep came too early. *)
Example third_failure_after_early_sweep :
  NetworkReliability.failures
    (snd (NetworkReliability.on_NavigationCompleteEvent
            (NetworkSamples.env_at 311) NetworkSamples.failed
            (snd (NetworkReliability.on_NavigationStartedEvent
                    (NetworkSamples.env_at 300) NetworkSamples.started
                    NetworkSamples.after_two_failures))))
    NetworkSamples.url
  = Some 3.
Proof. vm_compute. reflexivity. Qed.

(** C4, as stated, fails: after two recorded failures, a failure recorded
    301 seconds after the last one brings the count to 3. Recording a
    failure never expires anything. *)
Lemma C4_failure_alone_does_not_expire :
  ~ (forall (w : NetworkReliability.World) (env : NetworkReliability.Env)
            (url error_message target_id : string) (last_failure : Q),
        NetworkReliability.failures w url = Some 2 ->
        NetworkReliability._last_network_failure w !! url = Some last_failure ->
        (NetworkReliability.time env == last_failure + 301)%Q ->
        NetworkReliability.failures
          (snd (NetworkReliability._handle_network_error env url error_message target_id w))
          url
        = Some 1).
Proof.
  intros H.
  specialize (H NetworkSamples.after_two_failures (NetworkSamples.env_at 311)
                NetworkSamples.url "net::ERR_CONNECTION_RESET" "T1" 10%Q).
  assert (Hthree :
    NetworkReliability.failures
      (snd (NetworkReliability._handle_network_error (NetworkSamples.env_at 311)
              NetworkSamples.url "net::ERR_CONNECTION_RESET" "T1"
              NetworkSamples.after_two_failures))
      NetworkSamples.url = Some 3) by (vm_compute; reflexivity).
  rewrite H in Hthree; [discriminate| | |].
  - vm_compute. reflexivity.
  - vm_compute. reflexivity.
  - reflexivity.
Qed.

(** C4, amended. Expiry is the work of the navigation-start handler: when a
    navigation start is handled more than 300 seconds after the last
    recorded failure of a URL, the URL's count and timestamp are removed, so
    that the next failure of that URL counts as 1; a navigation start
    handled at most 300 seconds after it keeps them, and the next failure
    continues the count. *)
Theorem C4_retry_ledger_expiry
    (w : NetworkReliability.World)
    (start_env fail_env : NetworkReliability.Env)
    (event : NetworkReliability.NavigationStartedEvent)
    (url error_message target_id : string) (count : Z) (last_failure : Q) :
  NetworkReliability.failures w url = Some count ->
  NetworkReliability._last_network_failure w !! url = Some last_failure ->
  let swept := snd (NetworkReliability.on_NavigationStartedEvent start_env event w) in
  let after :=
    snd (NetworkReliability._handle_network_error fail_env url error_message target_id swept) in
  ((300 < NetworkReliability.time start_env - last_failure)%Q ->
     NetworkReliability.failures swept url = None
     /\ NetworkReliability._last_network_failure swept !! url = None
     /\ NetworkReliability.failures after url = Some 1)
  /\ ((NetworkReliability.time start_env - last_failure <= 300)%Q ->
      NetworkReliability.failures swept url = Some count
      /\ NetworkReliability.failures after url = Some (count + 1))
  /\ NetworkReliability._last_network_failure after !! url
     = Some (NetworkReliability.time fail_env).
Proof.
  intros Hcount Hlast swept after.
  destruct (navigation_started_sweep start_env event w url) as (w1 & Hrun & Hc1 & Hl1 & _).
  rewrite Hlast in Hc1, Hl1.
  assert (Hswept : swept = w1) by (subst swept; rewrite Hrun; reflexivity).
  destruct (handle_network_error_counts fail_env url error_message target_id swept)
    as (w2 & Hrun2 & Hc2 & Hl2).
  assert (Hafter : after = w2) by (subst after; rewrite Hrun2; reflexivity).
  unfold NetworkReliability.failures in *.
  rewrite Hafter, Hc2, Hl2, Hswept, Hc1, Hl1.
  split; [|split; [|reflexivity]].
  - intros Hold. apply Qgtb_gt in Hold. rewrite Hold. auto.
  - intros Hrecent. apply Qgtb_le in Hrecent. rewrite Hrecent, Hcount. auto.
Qed.

Lemma C4_retry_ledger_expiry_witness :
  let swept := snd (NetworkReliability.on_NavigationStartedEvent
                      (NetworkSamples.env_at 311) NetworkSamples.started
                      NetworkSamples.after_two_failures) in
  let after :=
    snd (NetworkReliability._handle_network_error (NetworkSamples.env_at 311)
           NetworkSamples.url "net::ERR_CONNECTION_RESET" "T1" swept) in
  ((300 < NetworkReliability.time (NetworkSamples.env_at 311) - 10)%Q ->
     NetworkReliability.failures swept NetworkSamples.url = None
     /\ NetworkReliability._last_network_failure swept !! NetworkSamples.url = None
     /\ NetworkReliability.failures after NetworkSamples.url = Some 1)
  /\ ((NetworkReliability.time (NetworkSamples.env_at 311) - 10 <= 300)%Q ->
      NetworkReliability.failures swept NetworkSamples.url = Some 2
      /\ NetworkReliability.failures after NetworkSamples.url = Some (2 + 1))
  /\ NetworkReliability._last_network_failure after !! NetworkSamples.url
     = Some (NetworkReliability.time (NetworkSamples.env_at 311)).
Proof.
  apply (C4_retry_ledger_expiry NetworkSamples.after_two_failures
           (NetworkSamples.env_at 311) (NetworkSamples.env_at 311)
           NetworkSamples.started NetworkSamples.url
           "net::ERR_CONNECTION_RESET" "T1" 2 10%Q).
  - vm_compute. reflexivity.
  - vm_compute. reflexivity.
Defined.

(** ** Retry policies *)



Lemma retry_strategy_decision (c : ErrorClassifier.ErrorClassificationResult)
    (attempt_number : Z) (jitter : Q) :
  fst (ErrorClassifier.get_retry_strategy c attempt_number jitter) = true
  <-> ErrorClassifier.should_retry c = true
      /\ attempt_number < ErrorClassifier.max_retries c.
Proof.
  unfold ErrorClassifier.get_retry_strategy.
  destruct (ErrorClassifier.should_retry c); simpl; [|split; [discriminate|intros [? _]; discriminate]].
  destruct (ErrorClassifier.max_retries c <=? attempt_number) eqn:Hle; simpl.
  - apply Z.leb_le in Hle. split; [discriminate|intros [_ ?]; lia].
  - apply Z.leb_gt in Hle. split; auto.
Qed.

Example classifier_network_delays :
  let c := ErrorClassifier.classify_error ErrorSamples.connection_reset "" None in
  ErrorClassifier.get_retry_strategy c 0 0 = (true, 2%Q)
  /\ Qred (snd (ErrorClassifier.get_retry_strategy c 1 0)) = 4%Q
  /\ Qred (snd (ErrorClassifier.get_retry_strategy c 2 0)) = 8%Q
  /\ fst (ErrorClassifier.get_retry_strategy c 3 0) = false.
Proof. vm_compute. auto. Qed.

Example watchdog_network_delays :
  let message := ErrorClassifier.error_text ErrorSamples.connection_reset in
  Qred (snd (NetworkReliability._calculate_retry_strategy NetworkSamples.url message 1 (1 # 4)))
  = (9 # 4)%Q
  /\ Qred (snd (NetworkReliability._calculate_retry_strategy NetworkSamples.url message 2 (1 # 4)))
     = (17 # 4)%Q
  /\ NetworkReliability._calculate_retry_strategy NetworkSamples.url message 3 (1 # 4)
     = (false, 0%Q)
  /\ NetworkReliability._calculate_retry_strategy NetworkSamples.url
       "net::ERR_NAME_NOT_RESOLVED" 1 (1 # 4)
     = (false, 0%Q).
Proof. vm_compute. auto. Qed.




(** ** Form-submission outcome *)

Ltac run_form :=
  unfold FormReliability.log, FormReliability.sleep, FormReliability.call,
    try_except, modify, external, get_world, mbind, M_bind, mret, M_ret in *.

Lemma capture_page_state_spec (env : FormReliability.Env) (w : FormReliability.World) :
  FormReliability._capture_page_state env w
  = (Returns (FormReliability.state_at env (FormReliability.captures w)),
     FormReliability.record FormReliability.CapturePageState
       (FormReliability.count_capture w)).
Proof.
  unfold FormReliability._capture_page_state, FormReliability.state_at. run_form.
  destruct (FormReliability.page_state env (FormReliability.captures w)); reflexivity.
Qed.

Lemma handle_form_error_spec (env : FormReliability.Env)
    (info : FormReliability.ElementInfo) (w : FormReliability.World) :
  FormReliability._handle_form_submission_error env info w
  = (Returns tt,
     FormReliability.record
       (FormReliability.Log
          match FormReliability.error_elements env with
          | Ok elements =>
              match FormReliability.errorMessages (FormReliability.error_script elements) with
              | [] => FormReliability.WarningSubmissionFailed info "Unknown error"
              | messages =>
                  FormReliability.WarningSubmissionFailed info (FormReliability.join messages)
              end
          | Exc e => FormReliability.DebugFailed "Error message extraction failed" e
          end)
       (FormReliability.record FormReliability.QueryErrorMessages w)).
Proof.
  unfold FormReliability._handle_form_submission_error. run_form.
  destruct (FormReliability.error_elements env) as [elements|e]; [|reflexivity].
  cbn -[FormReliability.error_script FormReliability.errorMessages].
  destruct (FormReliability.errorMessages (FormReliability.error_script elements));
    reflexivity.
Qed.

(** At most three messages are extracted, the first three visible non-empty ones. *)
Lemma error_script_spec (elements : list FormReliability.ErrorElement) :
  let messages := FormReliability.errorMessages (FormReliability.error_script elements) in
  (length messages <= 3)%nat
  /\ messages
     = firstn 3 (map FormReliability.text
                   (List.filter (fun err => FormReliability.visible err
                                            && PyStr.truthy (FormReliability.text err))
                                elements))
  /\ forall m, In m messages ->
       m <> EmptyString
       /\ exists err, In err elements /\ FormReliability.visible err = true
                      /\ FormReliability.text err = m.
Proof.
  unfold FormReliability.error_script. simpl.
  split; [rewrite length_map; apply firstn_le_length|].
  split; [symmetry; apply firstn_map|].
  intros m Hm. apply in_map_iff in Hm as (err & <- & Herr).
  apply list_elem_of_In, (subseteq_take 3), list_elem_of_In in Herr.
  apply filter_In in Herr as [Hin Hok].
  apply andb_true_iff in Hok as [Hvis Htext]. apply truthy_spec in Htext. eauto.
Qed.

Lemma world_after_captures (env : FormReliability.Env) (k : nat) (w : FormReliability.World) :
  FormReliability.captures (FormReliability.world_after env w k)
  = (FormReliability.captures w + k)%nat.
Proof.
  revert w. induction k as [|k IH]; intros w; simpl; [lia|].
  rewrite IH. destruct (FormReliability.hasLoadingIndicators _); simpl; lia.
Qed.

Lemma reported_app (es1 es2 : list FormReliability.Effect) :
  FormReliability.reported (es1 ++ es2)
  = FormReliability.reported es1 ++ FormReliability.reported es2.
Proof. unfold FormReliability.reported. apply omap_app. Qed.

Lemma world_after_reported (env : FormReliability.Env) (k : nat) (w : FormReliability.World) :
  FormReliability.reported (FormReliability.effects (FormReliability.world_after env w k))
  = FormReliability.reported (FormReliability.effects w).
Proof.
  revert w. induction k as [|k IH]; intros w; simpl; [reflexivity|].
  rewrite IH. destruct (FormReliability.hasLoadingIndicators _); simpl;
    rewrite !reported_app; simpl; rewrite ?app_nil_r; reflexivity.
Qed.

Lemma verify_poll_quiet (env : FormReliability.Env) (pre : FormReliability.PageState)
    (info : FormReliability.ElementInfo) (elapsed : Q) (w : FormReliability.World) :
  FormReliability.quiet pre (FormReliability.state_at env (FormReliability.captures w)) = true ->
  FormReliability.verify_poll env pre info elapsed w
  = (Returns (Next (FormReliability.elapsed_after env (FormReliability.captures w) elapsed 1)),
     FormReliability.world_after env w 1).
Proof.
  unfold FormReliability.quiet. rewrite !andb_true_iff, !negb_true_iff.
  intros [[Hurl Hsucc] Herr].
  unfold FormReliability.verify_poll.
  unfold mbind at 1, M_bind at 1. rewrite capture_page_state_spec.
  rewrite Hurl, Hsucc, Herr. simpl.
  unfold FormReliability.poll_wait.
  destruct (FormReliability.hasLoadingIndicators _); reflexivity.
Qed.

(** The loop skips over a prefix of quiet polls that fall within the wait. *)
Lemma verify_loop_quiet_prefix (env : FormReliability.Env) (pre : FormReliability.PageState)
    (info : FormReliability.ElementInfo) (k fuel : nat) (elapsed : Q)
    (w : FormReliability.World) :
  (forall i, (i < k)%nat ->
     FormReliability.quiet pre
       (FormReliability.state_at env (FormReliability.captures w + i)) = true
     /\ (FormReliability.elapsed_after env (FormReliability.captures w) elapsed i
         < FormReliability.max_wait_time)%Q) ->
  while (k + fuel) (fun elapsed _ => Qltb elapsed FormReliability.max_wait_time)
    (FormReliability.verify_poll env pre info) elapsed w
  = while fuel (fun elapsed _ => Qltb elapsed FormReliability.max_wait_time)
      (FormReliability.verify_poll env pre info)
      (FormReliability.elapsed_after env (FormReliability.captures w) elapsed k)
      (FormReliability.world_after env w k).
Proof.
  revert elapsed w. induction k as [|k IH]; intros elapsed w Hquiet; [reflexivity|].
  destruct (Hquiet 0%nat) as [Hq Ht]; [lia|].
  rewrite Nat.add_0_r in Hq. simpl in Ht. apply Qltb_lt in Ht.
  change (S k + fuel)%nat with (S (k + fuel)).
  cbn [while]. rewrite Ht.
  unfold mbind at 1, M_bind at 1. rewrite (verify_poll_quiet env pre info elapsed w Hq).
  set (w1 := FormReliability.world_after env w 1).
  assert (Hc1 : FormReliability.captures w1 = S (FormReliability.captures w)).
  { subst w1. rewrite world_after_captures. lia. }
  rewrite IH.
  - rewrite Hc1. reflexivity.
  - intros i Hi. rewrite Hc1. destruct (Hquiet (S i)) as [Hq' Ht']; [lia|].
    rewrite Nat.add_succ_r in Hq'. split; [exact Hq'|exact Ht'].
Qed.

(** One poll, written out. *)
Lemma verify_poll_spec (env : FormReliability.Env) (pre : FormReliability.PageState)
    (info : FormReliability.ElementInfo) (elapsed : Q) (w : FormReliability.World) :
  FormReliability.verify_poll env pre info elapsed w
  = let current := FormReliability.state_at env (FormReliability.captures w) in
    let w1 := FormReliability.record FormReliability.CapturePageState
                (FormReliability.count_capture w) in
    if FormReliability.url_differs (FormReliability.url current) (FormReliability.url pre)
    then (Returns (Return tt),
          FormReliability.record
            (FormReliability.Log (FormReliability.InfoUrlChanged (FormReliability.url current)))
            w1)
    else if FormReliability.hasSuccessMessages current
    then (Returns (Return tt),
          FormReliability.record (FormReliability.Log FormReliability.InfoSuccessMessage) w1)
    else if FormReliability.hasErrorMessages current
    then (Returns (Return tt),
          snd (FormReliability._handle_form_submission_error env info w1))
    else if FormReliability.hasLoadingIndicators current
    then (Returns (Next (elapsed + FormReliability.check_interval * 2)%Q),
          FormReliability.record (FormReliability.Sleep (FormReliability.check_interval * 2))
            (FormReliability.record (FormReliability.Log FormReliability.DebugStillProcessing)
               w1))
    else (Returns (Next (elapsed + FormReliability.check_interval)%Q),
          FormReliability.record (FormReliability.Sleep FormReliability.check_interval) w1).
Proof.
  unfold FormReliability.verify_poll.
  unfold mbind at 1, M_bind at 1. rewrite capture_page_state_spec. cbv zeta.
  destruct (FormReliability.url_differs _ _); [reflexivity|].
  destruct (FormReliability.hasSuccessMessages _); [reflexivity|].
  destruct (FormReliability.hasErrorMessages _).
  { unfold mbind at 1, M_bind at 1. rewrite handle_form_error_spec. reflexivity. }
  destruct (FormReliability.hasLoadingIndicators _); reflexivity.
Qed.

Lemma verify_poll_cases (env : FormReliability.Env) (pre : FormReliability.PageState)
    (info : FormReliability.ElementInfo) (elapsed : Q) (w : FormReliability.World) :
  exists w',
    FormReliability.verify_poll env pre info elapsed w = (Returns (Return tt), w')
    \/ exists wait, (1 # 2 <= wait)%Q
         /\ FormReliability.verify_poll env pre info elapsed w
            = (Returns (Next (elapsed + wait)%Q), w').
Proof.
  rewrite verify_poll_spec. cbv zeta.
  destruct (FormReliability.url_differs _ _); [eexists; left; reflexivity|].
  destruct (FormReliability.hasSuccessMessages _); [eexists; left; reflexivity|].
  destruct (FormReliability.hasErrorMessages _); [eexists; left; reflexivity|].
  destruct (FormReliability.hasLoadingIndicators _).
  - eexists; right. exists (FormReliability.check_interval * 2)%Q.
    split; [vm_compute; discriminate | reflexivity].
  - eexists; right. exists FormReliability.check_interval.
    split; [vm_compute; discriminate | reflexivity].
Qed.

(** With enough iterations for the time left, the loop comes to an end. *)
Lemma verify_loop_returns (env : FormReliability.Env) (pre : FormReliability.PageState)
    (info : FormReliability.ElementInfo) (fuel : nat) (elapsed : Q)
    (w : FormReliability.World) :
  (1 <= fuel)%nat ->
  ((FormReliability.max_wait_time - elapsed) * 2 + 1 <= inject_Z (Z.of_nat fuel))%Q ->
  exists exit w',
    while fuel (fun elapsed _ => Qltb elapsed FormReliability.max_wait_time)
      (FormReliability.verify_poll env pre info) elapsed w
    = (Returns exit, w').
Proof.
  revert elapsed w. induction fuel as [|fuel IH]; intros elapsed w Hpos Hfuel; [lia|].
  cbn [while].
  destruct (Qltb elapsed FormReliability.max_wait_time) eqn:Ht; [|eauto].
  apply Qltb_lt in Ht.
  rewrite Nat2Z.inj_succ, <- Z.add_1_r, inject_Z_plus in Hfuel.
  change (inject_Z 1) with 1%Q in Hfuel.
  unfold FormReliability.max_wait_time in *.
  unfold mbind, M_bind.
  destruct (verify_poll_cases env pre info elapsed w) as (w1 & [->|(wait & Hwait & ->)]);
    [eauto|].
  apply IH.
  - destruct fuel; [|lia]. exfalso. change (inject_Z (Z.of_nat 0)) with 0%Q in Hfuel. lra.
  - lra.
Qed.

Lemma verify_returns (env : FormReliability.Env) (pre : FormReliability.PageState)
    (info : FormReliability.ElementInfo) (w : FormReliability.World) :
  fst (FormReliability._verify_form_submission_success env pre info w) = Returns tt.
Proof.
  unfold FormReliability._verify_form_submission_success, try_except.
  unfold mbind at 1, M_bind at 1.
  destruct (verify_loop_returns env pre info FormReliability.verify_fuel 0 w)
    as (exit & w1 & ->).
  - unfold FormReliability.verify_fuel. lia.
  - vm_compute. discriminate.
  - destruct exit as [elapsed|[]]; [|reflexivity].
    unfold mbind, M_bind. rewrite capture_page_state_spec.
    destruct (_ && _); reflexivity.
Qed.

Lemma elapsed_after_lower_bound (env : FormReliability.Env) (k first : nat) (elapsed : Q) :
  (elapsed + inject_Z (Z.of_nat k) * (1 # 2)
   <= FormReliability.elapsed_after env first elapsed k)%Q.
Proof.
  revert first elapsed. induction k as [|k IH]; intros first elapsed.
  - cbn [FormReliability.elapsed_after]. change (inject_Z (Z.of_nat 0)) with 0%Q. lra.
  - cbn [FormReliability.elapsed_after].
    specialize (IH (S first)
                  (elapsed + FormReliability.poll_wait (FormReliability.state_at env first))%Q).
    rewrite Nat2Z.inj_succ, <- Z.add_1_r, inject_Z_plus.
    change (inject_Z 1) with 1%Q.
    assert (Hw : (1 # 2 <= FormReliability.poll_wait (FormReliability.state_at env first))%Q).
    { unfold FormReliability.poll_wait. destruct (FormReliability.hasLoadingIndicators _);
        vm_compute; discriminate. }
    lra.
Qed.

Lemma elapsed_after_step (env : FormReliability.Env) (k first : nat) (elapsed : Q) :
  FormReliability.elapsed_after env first elapsed (S k)
  = (FormReliability.elapsed_after env first elapsed k
     + FormReliability.poll_wait (FormReliability.state_at env (first + k)))%Q.
Proof.
  revert first elapsed. induction k as [|k IH]; intros first elapsed.
  - simpl. rewrite Nat.add_0_r. reflexivity.
  - cbn [FormReliability.elapsed_after] in *. rewrite IH.
    rewrite Nat.add_succ_r. reflexivity.
Qed.

(** The run of the verification up to the poll that follows [k] quiet ones. *)
Lemma verify_after_quiet_prefix (env : FormReliability.Env) (pre : FormReliability.PageState)
    (info : FormReliability.ElementInfo) (w : FormReliability.World) (k : nat) :
  (forall i, (i < k)%nat ->
     FormReliability.quiet pre
       (FormReliability.state_at env (FormReliability.captures w + i)) = true
     /\ (FormReliability.elapsed_after env (FormReliability.captures w) 0 i
         < FormReliability.max_wait_time)%Q) ->
  exists fuel,
    (k + S fuel = FormReliability.verify_fuel)%nat
    /\ while FormReliability.verify_fuel
         (fun elapsed _ => Qltb elapsed FormReliability.max_wait_time)
         (FormReliability.verify_poll env pre info) 0%Q w
       = while (S fuel) (fun elapsed _ => Qltb elapsed FormReliability.max_wait_time)
           (FormReliability.verify_poll env pre info)
           (FormReliability.elapsed_after env (FormReliability.captures w) 0 k)
           (FormReliability.world_after env w k).
Proof.
  intros Hquiet.
  assert (Hk : (k <= 20)%nat).
  { destruct k as [|k]; [lia|]. destruct (Hquiet k) as [_ Ht]; [lia|].
    pose proof (elapsed_after_lower_bound env k (FormReliability.captures w) 0) as Hlow.
    assert (Hq : (inject_Z (Z.of_nat k) < 20)%Q).
    { unfold FormReliability.max_wait_time in Ht. lra. }
    change 20%Q with (inject_Z 20) in Hq. rewrite <- Zlt_Qlt in Hq. lia. }
  exists (20 - k)%nat. split; [unfold FormReliability.verify_fuel; lia|].
  replace FormReliability.verify_fuel with (k + S (20 - k))%nat
    by (unfold FormReliability.verify_fuel; lia).
  apply verify_loop_quiet_prefix. exact Hquiet.
Qed.

Example url_change_wins_over_flags :
  FormReliability.reported
    (FormReliability.effects
       (snd (FormReliability._verify_form_submission_success
               (FormSamples.changing_env 3 (FormSamples.state "/form" false false true)
                  (FormSamples.state "/thanks" true false false) FormSamples.four_errors)
               (FormSamples.state "/form" false false false)
               FormSamples.submit_info FormSamples.initial)))
  = [FormReliability.InfoUrlChanged (Some "/thanks")].
Proof. vm_compute. reflexivity. Qed.

Example failure_reports_three_messages :
  FormReliability.reported
    (FormReliability.effects
       (snd (FormReliability._verify_form_submission_success
               (FormSamples.constant_env (FormSamples.state "/form" true false false)
                  FormSamples.four_errors)
               (FormSamples.state "/form" false false false)
               FormSamples.submit_info FormSamples.initial)))
  = [FormReliability.WarningSubmissionFailed FormSamples.submit_info
       "Email is required; Password too short; Accept the terms"].
Proof. vm_compute. reflexivity. Qed.

Example nothing_happens_is_unclear :
  let w' := snd (FormReliability._verify_form_submission_success
                   (FormSamples.constant_env (FormSamples.state "/form" false false false) [])
                   (FormSamples.state "/form" false false false)
                   FormSamples.submit_info FormSamples.initial) in
  FormReliability.reported (FormReliability.effects w')
  = [FormReliability.WarningSubmissionUnclear FormSamples.submit_info]
  /\ FormReliability.captures w' = 21%nat.
Proof. vm_compute. auto. Qed.

Example loading_doubles_the_interval :
  FormReliability.captures
    (snd (FormReliability._verify_form_submission_success
            (FormSamples.constant_env (FormSamples.state "/form" false false true) [])
            (FormSamples.state "/form" false false false)
            FormSamples.submit_info FormSamples.initial))
  = 11%nat.
Proof. vm_compute. reflexivity. Qed.

(** C3, as stated, fails on the success flag: the code takes a success flag
    that is true, whether or not it already was before the submission. With
    the flag set before and after and the error flag set after, the rule as
    documented gives failure, the code reports success. *)
Lemma C3_success_flag_need_not_be_new :
  ~ (forall (env : FormReliability.Env) (pre : FormReliability.PageState)
            (info : FormReliability.ElementInfo),
        let first_poll := FormReliability.state_at env 0 in
        FormReliability.documented_tick pre first_poll <> FormReliability.Undecided ->
        FormReliability.reported_verdict
          (FormReliability.reported
             (FormReliability.effects
                (snd (FormReliability._verify_form_submission_success
                        env pre info FormSamples.initial))))
        = FormReliability.documented_tick pre first_poll).
Proof.
  intros H.
  specialize (H (FormSamples.constant_env (FormSamples.state "/form" true true false)
                   FormSamples.four_errors)
                (FormSamples.state "/form" false true false)
                FormSamples.submit_info).
  vm_compute in H.
  assert (Hne : FormReliability.Failure <> FormReliability.Undecided) by discriminate.
  specialize (H Hne). discriminate.
Qed.

(** C3, amended. After [k] polls that decided nothing (URL as before the
    submission, no success flag, no error flag), each followed by a wait of
    0.5s, doubled when the poll saw a loading indicator, and as long as less
    than 10s have been waited: a changed URL is reported as success; else a
    success flag that is true (new or not) is reported as success; else an
    error flag is reported as failure, with the first three visible,
    non-empty error texts; once 10s have been waited, a last snapshot is
    taken and the outcome is logged as unclear when its URL is unchanged and
    its success flag is not set, and nothing is logged otherwise. The
    verification always returns. *)
Theorem C3_form_outcome
    (env : FormReliability.Env) (pre : FormReliability.PageState)
    (info : FormReliability.ElementInfo) (w : FormReliability.World) (k : nat) :
  let first := FormReliability.captures w in
  let waited i := FormReliability.elapsed_after env first 0 i in
  let current := FormReliability.state_at env (first + k) in
  let polled :=
    FormReliability.record FormReliability.CapturePageState
      (FormReliability.count_capture (FormReliability.world_after env w k)) in
  let result := FormReliability._verify_form_submission_success env pre info w in
  (forall i, (i < k)%nat ->
     FormReliability.quiet pre (FormReliability.state_at env (first + i)) = true
     /\ (waited i < 10)%Q) ->
  fst result = Returns tt
  /\ ((waited k < 10)%Q ->
      (FormReliability.url current <> FormReliability.url pre ->
         snd result
         = FormReliability.record
             (FormReliability.Log
                (FormReliability.InfoUrlChanged (FormReliability.url current))) polled)
      /\ (FormReliability.url current = FormReliability.url pre ->
          FormReliability.hasSuccessMessages current = true ->
          snd result
          = FormReliability.record
              (FormReliability.Log FormReliability.InfoSuccessMessage) polled)
      /\ (FormReliability.url current = FormReliability.url pre ->
          FormReliability.hasSuccessMessages current = false ->
          FormReliability.hasErrorMessages current = true ->
          snd result
          = FormReliability.record
              (FormReliability.Log
                 match FormReliability.error_elements env with
                 | Ok elements =>
                     match FormReliability.errorMessages
                             (FormReliability.error_script elements) with
                     | [] => FormReliability.WarningSubmissionFailed info "Unknown error"
                     | messages =>
                         FormReliability.WarningSubmissionFailed info
                           (FormReliability.join messages)
                     end
                 | Exc e => FormReliability.DebugFailed "Error message extraction failed" e
                 end)
              (FormReliability.record FormReliability.QueryErrorMessages polled)))
  /\ ((10 <= waited k)%Q ->
      snd result
      = if bool_decide (FormReliability.url current = FormReliability.url pre)
           && negb (FormReliability.hasSuccessMessages current)
        then FormReliability.record
               (FormReliability.Log (FormReliability.WarningSubmissionUnclear info)) polled
        else polled)
  /\ (forall i,
        waited (S i)
        = (waited i
           + (if FormReliability.hasLoadingIndicators
                   (FormReliability.state_at env (first + i))
              then (1 # 2) * 2 else 1 # 2))%Q)
  /\ FormReliability.reported (FormReliability.effects polled)
     = FormReliability.reported (FormReliability.effects w)
  /\ (forall elements,
        (length (FormReliability.errorMessages (FormReliability.error_script elements))
         <= 3)%nat).
Proof.
  intros first waited current polled result Hquiet.
  assert (Hcur : FormReliability.state_at env
                   (FormReliability.captures (FormReliability.world_after env w k))
                 = current).
  { rewrite world_after_captures. reflexivity. }
  destruct (verify_after_quiet_prefix env pre info w k Hquiet) as (fuel & _ & Hloop).
  split; [apply verify_returns|].
  split; [|split; [|split; [|split]]].
  - intros Ht. apply Qltb_lt in Ht.
    subst result. unfold FormReliability._verify_form_submission_success, try_except.
    unfold mbind at 1 3 5, M_bind at 1 3 5. rewrite Hloop. cbn [while].
    fold first. fold (waited k). unfold FormReliability.max_wait_time. rewrite Ht.
    unfold mbind at 1 3 5, M_bind at 1 3 5. rewrite verify_poll_spec. cbv zeta.
    rewrite Hcur. fold polled. unfold FormReliability.url_differs.
    split; [|split].
    + intros Hurl. rewrite bool_decide_eq_false_2 by done. reflexivity.
    + intros Hurl Hsucc. rewrite bool_decide_eq_true_2 by done. simpl.
      rewrite Hsucc. reflexivity.
    + intros Hurl Hsucc Herr. rewrite bool_decide_eq_true_2 by done. simpl.
      rewrite Hsucc, Herr, handle_form_error_spec. reflexivity.
  - intros Ht. apply Qltb_ge in Ht.
    subst result. unfold FormReliability._verify_form_submission_success, try_except.
    unfold mbind at 1, M_bind at 1. rewrite Hloop. cbn [while].
    fold first. fold (waited k). unfold FormReliability.max_wait_time. rewrite Ht.
    unfold mbind, M_bind. rewrite capture_page_state_spec, Hcur. fold polled.
    unfold FormReliability.url_differs. rewrite negb_involutive.
    destruct (_ && _); reflexivity.
  - intros i. subst waited. cbv beta. rewrite elapsed_after_step.
    unfold FormReliability.poll_wait, FormReliability.check_interval. reflexivity.
  - subst polled. simpl. rewrite reported_app, world_after_reported. simpl.
    apply app_nil_r.
  - intros elements. apply (error_script_spec elements).
Qed.

Lemma C3_form_outcome_witness :
  fst (FormReliability._verify_form_submission_success
         (FormSamples.changing_env 2 (FormSamples.state "/form" false false true)
            (FormSamples.state "/thanks" true false false) FormSamples.four_errors)
         (FormSamples.state "/form" false false false)
         FormSamples.submit_info FormSamples.initial)
  = Returns tt.
Proof.
  refine (proj1 (C3_form_outcome
                   (FormSamples.changing_env 2 (FormSamples.state "/form" false false true)
                      (FormSamples.state "/thanks" true false false) FormSamples.four_errors)
                   (FormSamples.state "/form" false false false)
                   FormSamples.submit_info FormSamples.initial 2 _)).
  intros i Hi. destruct i as [|[|i]]; [split; vm_compute; reflexivity.. | lia].
Defined.

(** ** Returning normally: the combinators *)

Lemma returns_finishes {W A} (c : M W A) : returns c -> finishes c.
Proof. intros Hc w. destruct (Hc w) as [a ->]. discriminate. Qed.

Lemma returns_unit {W} (c : M W unit) : returns c <-> forall w, fst (c w) = Returns tt.
Proof.
  split.
  - intros Hc w. destruct (Hc w) as [[] ->]. reflexivity.
  - intros Hc w. exists tt. apply Hc.
Qed.

Lemma returns_ret {W A} (a : A) : returns (mret a : M W A).
Proof. intros w. exists a. reflexivity. Qed.

Lemma returns_modify {W} (f : W -> W) : returns (modify f).
Proof. intros w. exists tt. reflexivity. Qed.

Lemma returns_get_world {W} : returns (get_world : M W W).
Proof. intros w. exists w. reflexivity. Qed.

Lemma finishes_external {W A} (r : Res A) : finishes (external r : M W A).
Proof. intros w. destruct r; discriminate. Qed.

Lemma finishes_raise {W A} (e : string) : finishes ((fun w => (Raises e, w)) : M W A).
Proof. intros w. discriminate. Qed.

Lemma finishes_bind {W A B} (c : M W A) (f : A -> M W B) :
  finishes c -> (forall a, finishes (f a)) -> finishes (c ≫= f).
Proof.
  intros Hc Hf w. unfold mbind, M_bind. specialize (Hc w).
  destruct (c w) as [[a|e|] w']; simpl in *; [apply Hf|discriminate|congruence].
Qed.

Lemma returns_bind {W A B} (c : M W A) (f : A -> M W B) :
  returns c -> (forall a, returns (f a)) -> returns (c ≫= f).
Proof.
  intros Hc Hf w. unfold mbind, M_bind. destruct (Hc w) as [a Ha].
  destruct (c w) as [[a'|e|] w']; simpl in *; [apply Hf|discriminate|discriminate].
Qed.

(** A [try] whose body finishes and whose handler returns, returns. *)
Lemma returns_try_except {W A} (body : M W A) (handler : string -> M W A) :
  finishes body -> (forall e, returns (handler e)) -> returns (try_except body handler).
Proof.
  intros Hb Hh w. unfold try_except. specialize (Hb w).
  destruct (body w) as [[a|e|] w']; simpl in *; [eauto|apply Hh|congruence].
Qed.

Lemma finishes_if {W A} (b : bool) (c1 c2 : M W A) :
  finishes c1 -> finishes c2 -> finishes (if b then c1 else c2).
Proof. destruct b; auto. Qed.

Lemma returns_if {W A} (b : bool) (c1 c2 : M W A) :
  returns c1 -> returns c2 -> returns (if b then c1 else c2).
Proof. destruct b; auto. Qed.

(** A loop finishes when every iteration that goes on uses up at least half
    a unit of a budget [left] that the loop test requires to be positive,
    and the loop is given two iterations per unit of budget, and one. *)
Lemma finishes_while {W S R} (left : S -> W -> Q)
    (cond : S -> W -> bool) (body : S -> M W (Step S R)) :
  (forall s w, cond s w = true -> (0 < left s w)%Q) ->
  (forall s w, cond s w = true -> fst (body s w) <> OutOfFuel) ->
  (forall s w s' w', cond s w = true -> body s w = (Returns (Next s'), w') ->
                     (left s' w' + (1 # 2) <= left s w)%Q) ->
  forall (fuel : nat) (s : S) (w : W),
    (1 <= fuel)%nat ->
    (left s w * 2 + 1 <= inject_Z (Z.of_nat fuel))%Q ->
    fst (while fuel cond body s w) <> OutOfFuel.
Proof.
  intros Hpos Hbody Hstep fuel.
  induction fuel as [|fuel IH]; intros s w Hone Hfuel; [lia|].
  cbn [while]. destruct (cond s w) eqn:Hc; [|discriminate].
  specialize (Hpos s w Hc). specialize (Hbody s w Hc). specialize (Hstep s w).
  unfold mbind, M_bind.
  destruct (body s w) as [[[s'|s'|r]|e|] w']; simpl in *;
    [|discriminate|discriminate|discriminate|congruence].
  specialize (Hstep s' w' Hc eq_refl).
  rewrite Nat2Z.inj_succ, <- Z.add_1_r, inject_Z_plus in Hfuel.
  change (inject_Z 1) with 1%Q in Hfuel.
  apply IH.
  - destruct fuel; [|lia]. exfalso. change (inject_Z (Z.of_nat 0)) with 0%Q in Hfuel. lra.
  - lra.
Qed.

(** The iterations granted for a time-out suffice for its half seconds. *)
Lemma poll_fuel_suffices (timeout : Q) :
  (1 <= DynamicContent.poll_fuel timeout)%nat
  /\ (timeout * 2 + 1 <= inject_Z (Z.of_nat (DynamicContent.poll_fuel timeout)))%Q.
Proof.
  unfold DynamicContent.poll_fuel. split; [lia|].
  rewrite Nat2Z.inj_succ, <- Z.add_1_r, inject_Z_plus.
  change (inject_Z 1) with 1%Q.
  pose proof (Qle_ceiling (timeout * 2)) as Hceil.
  destruct (Z_le_gt_dec 0 (Qceiling (timeout * 2))) as [Hnonneg|Hneg].
  - rewrite Z2Nat.id by exact Hnonneg. lra.
  - assert (Hz : Z.of_nat (Z.to_nat (Qceiling (timeout * 2))) = 0%Z) by lia.
    rewrite Hz. change (inject_Z 0) with 0%Q.
    assert (Hlt : (inject_Z (Qceiling (timeout * 2)) < inject_Z 0)%Q)
      by (rewrite <- Zlt_Qlt; lia).
    change (inject_Z 0) with 0%Q in Hlt. lra.
Qed.

(** ** Content stabilization *)

Ltac run_dynamic :=
  unfold DynamicContent.evaluate, DynamicContent.log, DynamicContent.sleep,
    DynamicContent.call, try_except, modify, external, get_world,
    mbind, M_bind, mret, M_ret in *.

Lemma get_content_hash_spec (env : DynamicContent.Env) (w : DynamicContent.World) :
  DynamicContent._get_content_hash env w
  = (Returns (DynamicContent.hash_at env (DynamicContent.evaluations w)),
     DynamicContent.record DynamicContent.EvaluateContentHash
       (DynamicContent.count_evaluation w)).
Proof.
  unfold DynamicContent._get_content_hash, DynamicContent.hash_at. run_dynamic.
  destruct (DynamicContent.content_hash env (DynamicContent.evaluations w)) as [[h|]|e];
    reflexivity.
Qed.

Lemma check_loading_activity_spec (env : DynamicContent.Env) (w : DynamicContent.World) :
  DynamicContent._check_loading_activity env w
  = (Returns (DynamicContent.loading_at env (DynamicContent.evaluations w)),
     DynamicContent.record DynamicContent.EvaluateLoadingActivity
       (DynamicContent.count_evaluation w)).
Proof.
  unfold DynamicContent._check_loading_activity, DynamicContent.loading_at. run_dynamic.
  destruct (DynamicContent.loading_activity env (DynamicContent.evaluations w)) as [[d|]|e];
    reflexivity.
Qed.

Lemma tick_time_value (i : nat) :
  (DynamicContent.tick_time i == inject_Z (Z.of_nat i) * (1 # 2))%Q.
Proof.
  induction i as [|i IH].
  - reflexivity.
  - cbn [DynamicContent.tick_time]. unfold DynamicContent.check_interval.
    rewrite Nat2Z.inj_succ, <- Z.add_1_r, inject_Z_plus, IH.
    change (inject_Z 1) with 1%Q. ring.
Qed.

Lemma calm_run_le (env : DynamicContent.Env) (first i : nat) :
  (DynamicContent.calm_run env first i <= i)%nat.
Proof.
  induction i as [|i IH]; simpl; [lia|].
  destruct (DynamicContent.calm env first i); lia.
Qed.

(** [calm_run] counts the calm ticks in a row that end just before tick [i]. *)
Lemma calm_run_spec (env : DynamicContent.Env) (first i n : nat) :
  (n <= DynamicContent.calm_run env first i)%nat
  <-> (n <= i)%nat
      /\ forall j, (i - n <= j < i)%nat -> DynamicContent.calm env first j = true.
Proof.
  revert n. induction i as [|i IH]; intros n; simpl.
  - split; [intros Hn; split; [lia|intros j Hj; lia] | intros [Hn _]; lia].
  - destruct (DynamicContent.calm env first i) eqn:Hcalm.
    + destruct n as [|n].
      * split; [intros _; split; [lia|intros j Hj; lia] | intros _; lia].
      * rewrite <- Nat.succ_le_mono, IH. simpl. split.
        -- intros [Hn Hall]. split; [lia|]. intros j Hj.
           destruct (decide (j = i)) as [->|Hne]; [exact Hcalm|]. apply Hall. lia.
        -- intros [Hn Hall]. split; [lia|]. intros j Hj. apply Hall. lia.
    + split.
      * intros Hn. assert (n = 0)%nat as -> by lia. split; [lia|intros j Hj; lia].
      * intros [Hn Hall]. destruct n as [|n]; [lia|].
        rewrite Hall in Hcalm by lia. discriminate.
Qed.

(** The stability window is reached after four calm ticks. *)
Lemma stable_duration_reached (i r : nat) :
  (S r <= i)%nat ->
  Qgeb (DynamicContent.tick_time i - DynamicContent.tick_time (i - S r))
       DynamicContent.stable_duration_required
  = (4 <=? S r)%nat.
Proof.
  intros Hle.
  assert (Hdiff : (DynamicContent.tick_time i - DynamicContent.tick_time (i - S r)
                   == inject_Z (Z.of_nat (S r)) * (1 # 2))%Q).
  { rewrite !tick_time_value. rewrite (Nat2Z.inj_sub i (S r)) by exact Hle.
    unfold Z.sub. rewrite inject_Z_plus, inject_Z_opp. ring. }
  unfold DynamicContent.stable_duration_required.
  destruct (4 <=? S r)%nat eqn:Hfour.
  - apply Nat.leb_le in Hfour. apply Qgeb_ge. rewrite Hdiff.
    assert (Hq : (inject_Z 4 <= inject_Z (Z.of_nat (S r)))%Q) by (rewrite <- Zle_Qle; lia).
    change (inject_Z 4) with 4%Q in Hq. lra.
  - apply Nat.leb_gt in Hfour. apply Qgeb_lt. rewrite Hdiff.
    assert (Hq : (inject_Z (Z.of_nat (S r)) <= inject_Z 3)%Q) by (rewrite <- Zle_Qle; lia).
    change (inject_Z 3) with 3%Q in Hq. lra.
Qed.

(** One tick of the loop, from the variables the ticks before have left. *)
Lemma stabilization_poll_spec (env : DynamicContent.Env) (url : string)
    (first i : nat) (w : DynamicContent.World) :
  DynamicContent.evaluations w = (first + 2 * i)%nat ->
  DynamicContent.stabilization_poll env url (DynamicContent.tick_state env first i) w
  = if DynamicContent.declares_stable env first i
    then (Returns (Break (DynamicContent.tick_state env first i)),
          DynamicContent.record (DynamicContent.Log (DynamicContent.DebugStabilized url))
            (DynamicContent.record DynamicContent.EvaluateContentHash
               (DynamicContent.count_evaluation w)))
    else (Returns (Next (DynamicContent.tick_state env first (S i))),
          DynamicContent.tick_world env url first i w).
Proof.
  intros Hev.
  unfold DynamicContent.stabilization_poll.
  unfold mbind at 1, M_bind at 1. rewrite get_content_hash_spec, Hev.
  fold (DynamicContent.tick_hash env first i).
  assert (Hunch :
    bool_decide (Some (DynamicContent.tick_hash env first i)
                 = DynamicContent.last_content_hash (DynamicContent.tick_state env first i))
    = DynamicContent.unchanged env first i).
  { destruct i as [|j]; simpl; [reflexivity|].
    apply bool_decide_ext. split; [intros [= ->]; reflexivity | intros ->; reflexivity]. }
  rewrite Hunch. clear Hunch.
  unfold DynamicContent.declares_stable.
  pose proof (calm_run_le env first i) as Hrun.
  assert (Hstart :
    match DynamicContent.stable_start_time (DynamicContent.tick_state env first i) with
    | Some start =>
        Qgeb (DynamicContent.stabilization_time (DynamicContent.tick_state env first i) - start)
             DynamicContent.stable_duration_required
    | None => false
    end = (4 <=? DynamicContent.calm_run env first i)%nat).
  { simpl. destruct (DynamicContent.calm_run env first i) as [|r]; [reflexivity|].
    apply stable_duration_reached. exact Hrun. }
  rewrite Hstart. clear Hstart.
  destruct (DynamicContent.unchanged env first i
            && (4 <=? DynamicContent.calm_run env first i)%nat) eqn:Hbreak;
    [reflexivity|].
  unfold DynamicContent.tick_world.
  set (w1 := DynamicContent.record DynamicContent.EvaluateContentHash
               (DynamicContent.count_evaluation w)).
  assert (Hev1 : DynamicContent.evaluations w1 = (first + 2 * i + 1)%nat).
  { subst w1. simpl. lia. }
  assert (Hstate : forall (last : option string) (start : option Q),
             last = Some (DynamicContent.tick_hash env first i) ->
             start = (if DynamicContent.calm env first i
                      then match DynamicContent.calm_run env first i with
                           | O => Some (DynamicContent.tick_time i)
                           | S r => Some (DynamicContent.tick_time (i - S r))
                           end
                      else None) ->
             {| DynamicContent.stabilization_time :=
                  (DynamicContent.tick_time i + DynamicContent.check_interval)%Q;
                DynamicContent.last_content_hash := last;
                DynamicContent.stable_start_time := start |}
             = DynamicContent.tick_state env first (S i)).
  { intros last start -> ->. unfold DynamicContent.tick_state.
    cbn [DynamicContent.calm_run DynamicContent.tick_time].
    destruct (DynamicContent.calm env first i); [|reflexivity].
    destruct (DynamicContent.calm_run env first i) as [|r]; [|reflexivity].
    cbn [Nat.sub]. rewrite Nat.sub_0_r. reflexivity. }
  unfold DynamicContent.calm in Hstate.
  destruct (DynamicContent.unchanged env first i) eqn:Hun.
  - (* fingerprint unchanged *)
    assert (Hlast : DynamicContent.last_content_hash (DynamicContent.tick_state env first i)
                    = Some (DynamicContent.tick_hash env first i)).
    { destruct i as [|j]; [discriminate|]. simpl in Hun |- *.
      apply bool_decide_eq_true in Hun. rewrite Hun. reflexivity. }
    destruct (DynamicContent.stable_start_time (DynamicContent.tick_state env first i))
      as [start|] eqn:Hs.
    + unfold mbind, M_bind, mret, M_ret, DynamicContent.sleep, modify.
      rewrite check_loading_activity_spec, Hev1.
      fold (DynamicContent.tick_loading env first i).
      f_equal. f_equal. f_equal.
      simpl in Hs. destruct (DynamicContent.calm_run env first i) as [|r] eqn:Hr;
        [discriminate|]. injection Hs as <-.
      destruct (DynamicContent.tick_loading env first i);
        cbn [DynamicContent.stabilization_time DynamicContent.last_content_hash
             DynamicContent.stable_start_time DynamicContent.tick_state];
        rewrite ?Hr; (apply Hstate; [exact Hlast | reflexivity]).
    + unfold mbind, M_bind, mret, M_ret, DynamicContent.sleep, modify.
      rewrite check_loading_activity_spec, Hev1.
      fold (DynamicContent.tick_loading env first i).
      f_equal. f_equal. f_equal.
      simpl in Hs. destruct (DynamicContent.calm_run env first i) as [|r] eqn:Hr;
        [|discriminate].
      destruct (DynamicContent.tick_loading env first i);
        cbn [DynamicContent.stabilization_time DynamicContent.last_content_hash
             DynamicContent.stable_start_time DynamicContent.tick_state];
        rewrite ?Hr; (apply Hstate; [exact Hlast | reflexivity]).
  - (* fingerprint changed *)
    unfold mbind, M_bind, mret, M_ret, DynamicContent.sleep, DynamicContent.log, modify.
    rewrite check_loading_activity_spec. cbn [DynamicContent.evaluations DynamicContent.record
      DynamicContent.count_evaluation]. fold w1. rewrite Hev1.
    fold (DynamicContent.tick_loading env first i).
    f_equal. f_equal. f_equal.
    destruct (DynamicContent.tick_loading env first i);
      cbn [DynamicContent.stabilization_time DynamicContent.last_content_hash
           DynamicContent.stable_start_time DynamicContent.tick_state];
      apply Hstate; reflexivity.
Qed.

Lemma stabilization_poll_cases (env : DynamicContent.Env) (url : string)
    (s : DynamicContent.Stabilization) (w : DynamicContent.World) :
  exists w',
    DynamicContent.stabilization_poll env url s w = (Returns (Break s), w')
    \/ exists s',
         DynamicContent.stabilization_poll env url s w = (Returns (Next s'), w')
         /\ DynamicContent.stabilization_time s'
            = (DynamicContent.stabilization_time s + DynamicContent.check_interval)%Q.
Proof.
  destruct (DynamicContent.stabilization_poll env url s w) as [r w'] eqn:Hrun.
  exists w'. revert Hrun.
  unfold DynamicContent.stabilization_poll.
  unfold mbind at 1, M_bind at 1. rewrite get_content_hash_spec.
  destruct (_ && _); [intros [= <- <-]; left; reflexivity|].
  destruct (bool_decide _).
  - destruct (DynamicContent.stable_start_time s);
      unfold mbind, M_bind, mret, M_ret, DynamicContent.sleep, modify;
      rewrite check_loading_activity_spec;
      destruct (DynamicContent.loading_at _ _);
      intros [= <- <-]; right; eexists; split; reflexivity.
  - unfold mbind, M_bind, mret, M_ret, DynamicContent.sleep, DynamicContent.log, modify;
      rewrite check_loading_activity_spec;
      destruct (DynamicContent.loading_at _ _);
      intros [= <- <-]; right; eexists; split; reflexivity.
Qed.

Lemma stabilization_loop_finishes (env : DynamicContent.Env) (url : string) (timeout : Q)
    (s : DynamicContent.Stabilization) (w : DynamicContent.World) :
  (0 <= DynamicContent.stabilization_time s)%Q ->
  exists exit w',
    while (DynamicContent.poll_fuel timeout)
      (fun s _ => Qltb (DynamicContent.stabilization_time s) timeout)
      (DynamicContent.stabilization_poll env url) s w
    = (Returns exit, w').
Proof.
  intros Hnonneg.
  assert (Hno_raise : forall fuel s w e w',
            while fuel (fun s _ => Qltb (DynamicContent.stabilization_time s) timeout)
              (DynamicContent.stabilization_poll env url) s w <> (Raises e, w')).
  { intros fuel. induction fuel as [|fuel IH]; intros s0 w0 e w'; cbn [while]; [discriminate|].
    destruct (Qltb _ _); [|discriminate].
    unfold mbind, M_bind.
    destruct (stabilization_poll_cases env url s0 w0) as (w1 & [->|(s1 & -> & _)]);
      [discriminate|apply IH]. }
  pose proof (finishes_while
                (fun s (_ : DynamicContent.World) =>
                   (timeout - DynamicContent.stabilization_time s)%Q)
                (fun s _ => Qltb (DynamicContent.stabilization_time s) timeout)
                (DynamicContent.stabilization_poll env url)) as Hfin.
  destruct (poll_fuel_suffices timeout) as [Hone Hfuel].
  specialize (Hfin
    (fun s0 w0 Hc => proj1 (Qlt_minus_iff _ _) (proj1 (Qltb_lt _ _) Hc))).
  assert (Hbody : forall s0 w0,
            Qltb (DynamicContent.stabilization_time s0) timeout = true ->
            fst (DynamicContent.stabilization_poll env url s0 w0) <> OutOfFuel).
  { intros s0 w0 _.
    destruct (stabilization_poll_cases env url s0 w0) as (w1 & [->|(s1 & -> & _)]);
      discriminate. }
  assert (Hstep : forall s0 w0 s1 w1,
            Qltb (DynamicContent.stabilization_time s0) timeout = true ->
            DynamicContent.stabilization_poll env url s0 w0 = (Returns (Next s1), w1) ->
            (timeout - DynamicContent.stabilization_time s1 + (1 # 2)
             <= timeout - DynamicContent.stabilization_time s0)%Q).
  { intros s0 w0 s1 w1 _ Hrun.
    destruct (stabilization_poll_cases env url s0 w0) as (w2 & [Hb|(s2 & Hn & Htime)]).
    - rewrite Hb in Hrun. discriminate.
    - rewrite Hn in Hrun. injection Hrun as <- <-. rewrite Htime.
      unfold DynamicContent.check_interval. lra. }
  specialize (Hfin Hbody Hstep (DynamicContent.poll_fuel timeout) s w Hone).
  destruct (while _ _ _ s w) as [[exit|e|] w'] eqn:Hrun.
  - eauto.
  - exfalso. exact (Hno_raise _ _ _ _ _ Hrun).
  - exfalso. apply Hfin; [|reflexivity]. lra.
Qed.

Lemma wait_for_stabilization_returns (env : DynamicContent.Env) (url : string)
    (timeout : Q) (w : DynamicContent.World) :
  fst (DynamicContent._wait_for_content_stabilization env url timeout w) = Returns tt.
Proof.
  unfold DynamicContent._wait_for_content_stabilization, try_except.
  unfold mbind at 1, M_bind at 1, DynamicContent.log at 1, modify at 1.
  unfold mbind at 1, M_bind at 1.
  edestruct (stabilization_loop_finishes env url timeout) as (exit & w1 & ->);
    [cbn; lra|].
  destruct exit as [s|[]]; [|reflexivity].
  destruct (Qgeb _ _); reflexivity.
Qed.

Lemma ticks_world_evaluations (env : DynamicContent.Env) (url : string)
    (first k : nat) (w : DynamicContent.World) :
  DynamicContent.evaluations (DynamicContent.ticks_world env url first k w)
  = (DynamicContent.evaluations w + 2 * k)%nat.
Proof.
  induction k as [|k IH]; simpl; [lia|].
  unfold DynamicContent.tick_world.
  destruct (DynamicContent.unchanged env first k); simpl; rewrite IH; lia.
Qed.

(** The loop runs through a prefix of ticks that fall within the time-out
    and do not declare stability. *)
Lemma stabilization_prefix (env : DynamicContent.Env) (url : string) (timeout : Q)
    (k fuel : nat) (w : DynamicContent.World) :
  let first := DynamicContent.evaluations w in
  (forall i, (i < k)%nat ->
     (DynamicContent.tick_time i < timeout)%Q
     /\ DynamicContent.declares_stable env first i = false) ->
  while (k + fuel) (fun s _ => Qltb (DynamicContent.stabilization_time s) timeout)
    (DynamicContent.stabilization_poll env url) (DynamicContent.tick_state env first 0) w
  = while fuel (fun s _ => Qltb (DynamicContent.stabilization_time s) timeout)
      (DynamicContent.stabilization_poll env url) (DynamicContent.tick_state env first k)
      (DynamicContent.ticks_world env url first k w).
Proof.
  intros first. revert fuel. induction k as [|k IH]; intros fuel Hticks; [reflexivity|].
  replace (S k + fuel)%nat with (k + S fuel)%nat by lia.
  rewrite IH by (intros i Hi; apply Hticks; lia).
  destruct (Hticks k) as [Ht Hstable]; [lia|].
  cbn [while]. cbn [DynamicContent.stabilization_time DynamicContent.tick_state].
  apply Qltb_lt in Ht. rewrite Ht.
  unfold mbind, M_bind.
  rewrite stabilization_poll_spec by (rewrite ticks_world_evaluations; reflexivity).
  rewrite Hstable. reflexivity.
Qed.

Lemma poll_fuel_covers_prefix (timeout : Q) (k : nat) :
  (forall i, (i < k)%nat -> (DynamicContent.tick_time i < timeout)%Q) ->
  exists fuel, DynamicContent.poll_fuel timeout = (k + S fuel)%nat.
Proof.
  intros Hticks. unfold DynamicContent.poll_fuel.
  exists (Z.to_nat (Qceiling (timeout * 2)) - k)%nat.
  destruct k as [|k]; [lia|].
  specialize (Hticks k (Nat.lt_succ_diag_r k)). rewrite tick_time_value in Hticks.
  pose proof (Qle_ceiling (timeout * 2)) as Hceil.
  assert (Hq : (inject_Z (Z.of_nat k) < inject_Z (Qceiling (timeout * 2)))%Q) by lra.
  rewrite <- Zlt_Qlt in Hq. lia.
Qed.

Example still_page_stabilizes_after_five_ticks :
  let w' := snd (DynamicContent._wait_for_content_stabilization
                   DynamicSamples.still_page "/" 15 DynamicSamples.initial) in
  DynamicContent.declared_stable w' = true
  /\ DynamicContent.timed_out w' = false
  /\ DynamicContent.ticks_waited w' = 5%nat.
Proof. vm_compute. auto. Qed.

Example restless_page_times_out :
  let r := DynamicContent._wait_for_content_stabilization
             DynamicSamples.restless_page "/" 15 DynamicSamples.initial in
  fst r = Returns tt
  /\ DynamicContent.declared_stable (snd r) = false
  /\ DynamicContent.timed_out (snd r) = true
  /\ DynamicContent.ticks_waited (snd r) = 30%nat.
Proof. vm_compute. auto. Qed.

(** When no fingerprint can be computed, every one is "0" and the page
    counts as stable. *)
Example broken_page_stabilizes :
  let w' := snd (DynamicContent._wait_for_content_stabilization
                   DynamicSamples.broken_page "/" 15 DynamicSamples.initial) in
  DynamicContent.declared_stable w' = true
  /\ DynamicContent.ticks_waited w' = 5%nat.
Proof. vm_compute. auto. Qed.

(** One failed computation, at the fourth tick of a page at rest. *)
Example one_failure_delays_stability :
  let w' := snd (DynamicContent._wait_for_content_stabilization
                   (DynamicContent.with_failed_hash DynamicSamples.still_page 6 "timeout")
                   "/" 15 DynamicSamples.initial) in
  DynamicContent.declared_stable w' = true
  /\ DynamicContent.ticks_waited w' = 9%nat.
Proof. vm_compute. auto. Qed.

(** C6, as stated, fails on the failure clause: a fingerprint computation
    that fails where the fingerprint was unchanged does not behave as an
    unchanged fingerprint. Its constant "0" differs from the fingerprint
    before it and from the one after it: the stability start is reset
    twice, and stability is declared later. *)
Lemma C6_failure_counts_as_change :
  ~ (forall (env : DynamicContent.Env) (n : nat) (message : string) (timeout : Q),
        (2 <= n)%nat ->
        DynamicContent.hash_at env n = DynamicContent.hash_at env (n - 2) ->
        let run e :=
          snd (DynamicContent._wait_for_content_stabilization
                 e "/" timeout DynamicSamples.initial) in
        DynamicContent.ticks_waited (run (DynamicContent.with_failed_hash env n message))
        = DynamicContent.ticks_waited (run env)).
Proof.
  intros H.
  specialize (H DynamicSamples.still_page 6%nat "timeout" 15%Q).
  vm_compute in H.
  assert (Hle : (2 <= 6)%nat) by lia.
  specialize (H Hle eq_refl). discriminate.
Qed.

(** C6, amended. The detector polls every 0.5s. With "calm" said of a tick
    whose fingerprint equals that of the tick before and which sees no
    loading activity: the stability start is set by the first calm tick of
    a row and reset by any tick that is not calm; stability is declared at
    the first tick, within the time-out, whose fingerprint is unchanged and
    which comes after at least four calm ticks in a row, that is 2.0s after
    the stability start; when no tick within the time-out (default 15s)
    does so, the time-out is logged as a warning; in both cases the wait
    returns normally. A fingerprint computation that fails yields the
    constant "0": it compares as unchanged with another "0" only, and as a
    change with any other fingerprint before or after it. *)
Theorem C6_content_stabilization
    (env : DynamicContent.Env) (url : string) (timeout : Q)
    (w : DynamicContent.World) (k : nat) :
  let first := DynamicContent.evaluations w in
  let started := DynamicContent.record (DynamicContent.Log (DynamicContent.DebugWaiting url)) w in
  let before_tick := DynamicContent.ticks_world env url first k started in
  let result := DynamicContent._wait_for_content_stabilization env url timeout w in
  (forall i, (i < k)%nat ->
     (DynamicContent.tick_time i < timeout)%Q
     /\ DynamicContent.declares_stable env first i = false) ->
  fst result = Returns tt
  /\ ((DynamicContent.tick_time k < timeout)%Q ->
      DynamicContent.declares_stable env first k = true ->
      snd result
      = DynamicContent.record (DynamicContent.Log (DynamicContent.DebugStabilized url))
          (DynamicContent.record DynamicContent.EvaluateContentHash
             (DynamicContent.count_evaluation before_tick)))
  /\ ((timeout <= DynamicContent.tick_time k)%Q ->
      snd result
      = DynamicContent.record
          (DynamicContent.Log (DynamicContent.WarningStabilizationTimeout url)) before_tick)
  /\ (forall i, (DynamicContent.tick_time i == inject_Z (Z.of_nat i) * (1 # 2))%Q)
  /\ (forall i,
        DynamicContent.declares_stable env first i = true
        <-> DynamicContent.unchanged env first i = true
            /\ (4 <= i)%nat
            /\ forall j, (i - 4 <= j < i)%nat ->
                 DynamicContent.unchanged env first j = true
                 /\ DynamicContent.tick_loading env first j = false)
  /\ (forall i,
        DynamicContent.stable_start_time (DynamicContent.tick_state env first (S i))
        = if DynamicContent.unchanged env first i
             && negb (DynamicContent.tick_loading env first i)
          then Some (DynamicContent.tick_time (i - DynamicContent.calm_run env first i))
          else None)
  /\ (forall n e,
        DynamicContent.content_hash env n = Exc e -> DynamicContent.hash_at env n = "0").
Proof.
  intros first started before_tick result Hticks.
  split; [apply wait_for_stabilization_returns|].
  assert (Hfuel : exists fuel, DynamicContent.poll_fuel timeout = (k + S fuel)%nat).
  { apply poll_fuel_covers_prefix. intros i Hi. apply Hticks. exact Hi. }
  destruct Hfuel as [fuel Hfuel].
  assert (Hloop :
    while (DynamicContent.poll_fuel timeout)
      (fun s _ => Qltb (DynamicContent.stabilization_time s) timeout)
      (DynamicContent.stabilization_poll env url)
      {| DynamicContent.stabilization_time := 0; DynamicContent.last_content_hash := None;
         DynamicContent.stable_start_time := None |} started
    = while (S fuel) (fun s _ => Qltb (DynamicContent.stabilization_time s) timeout)
        (DynamicContent.stabilization_poll env url)
        (DynamicContent.tick_state env first k) before_tick).
  { rewrite Hfuel. apply (stabilization_prefix env url timeout k (S fuel) started).
    exact Hticks. }
  split; [|split; [|split; [|split; [|split]]]].
  - intros Ht Hstable. apply Qltb_lt in Ht.
    subst result. unfold DynamicContent._wait_for_content_stabilization, try_except.
    unfold mbind at 1, M_bind at 1, DynamicContent.log at 1, modify at 1.
    fold started. unfold mbind at 1, M_bind at 1. rewrite Hloop.
    cbn [while]. cbn [DynamicContent.stabilization_time DynamicContent.tick_state].
    rewrite Ht. unfold mbind, M_bind.
    rewrite stabilization_poll_spec
      by (subst before_tick; rewrite ticks_world_evaluations; reflexivity).
    rewrite Hstable. cbn. rewrite (proj2 (Qgeb_lt _ _)); [reflexivity|].
    apply Qltb_lt. exact Ht.
  - intros Ht.
    subst result. unfold DynamicContent._wait_for_content_stabilization, try_except.
    unfold mbind at 1, M_bind at 1, DynamicContent.log at 1, modify at 1.
    fold started. unfold mbind at 1, M_bind at 1. rewrite Hloop.
    cbn [while]. cbn [DynamicContent.stabilization_time DynamicContent.tick_state].
    rewrite (proj2 (Qltb_ge _ _) Ht). cbn.
    rewrite (proj2 (Qgeb_ge _ _) Ht). reflexivity.
  - apply tick_time_value.
  - intros i. unfold DynamicContent.declares_stable.
    rewrite andb_true_iff, Nat.leb_le, calm_run_spec.
    unfold DynamicContent.calm.
    split.
    + intros (Hun & Hfour & Hcalm). split; [exact Hun|]. split; [exact Hfour|].
      intros j Hj. specialize (Hcalm j Hj). apply andb_true_iff in Hcalm as [Hu Hl].
      apply negb_true_iff in Hl. auto.
    + intros (Hun & Hfour & Hcalm). split; [exact Hun|]. split; [exact Hfour|].
      intros j Hj. destruct (Hcalm j Hj) as [Hu Hl]. rewrite Hu, Hl. reflexivity.
  - intros i. cbn [DynamicContent.stable_start_time DynamicContent.tick_state
                   DynamicContent.calm_run].
    unfold DynamicContent.calm.
    destruct (DynamicContent.unchanged env first i
              && negb (DynamicContent.tick_loading env first i)); reflexivity.
  - intros n e He. unfold DynamicContent.hash_at. rewrite He. reflexivity.
Qed.

Lemma C6_content_stabilization_witness :
  fst (DynamicContent._wait_for_content_stabilization
         DynamicSamples.still_page "/" 15 DynamicSamples.initial) = Returns tt
  /\ DynamicContent.declared_stable
       (snd (DynamicContent._wait_for_content_stabilization
               DynamicSamples.still_page "/" 15 DynamicSamples.initial)) = true.
Proof.
  destruct (C6_content_stabilization DynamicSamples.still_page "/" 15
              DynamicSamples.initial 5) as (Hret & Hstable & _).
  - intros i Hi.
    destruct i as [|[|[|[|[|i]]]]]; [split; vm_compute; reflexivity.. | lia].
  - split; [exact Hret|]. rewrite Hstable; vm_compute; reflexivity.
Defined.

(** ** Post-navigation reloads *)

Example blank_page_is_reloaded_twice :
  let go := EnhancedNavigation.Completed NavigationSamples.blank_page "T1" in
  let w' := EnhancedNavigation.handle_all NavigationSamples.url
              [EnhancedNavigation.Started NavigationSamples.blank_page "T1"; go; go; go; go]
              NavigationSamples.initial in
  EnhancedNavigation.reloads (EnhancedNavigation.effects w') = [None; None]
  /\ EnhancedNavigation._loading_retry_count w' !! NavigationSamples.url = Some 2.
Proof. vm_compute. auto. Qed.

Example stuck_page_is_let_through :
  let r := EnhancedNavigation.on_NavigationCompleteEvent NavigationSamples.stuck_page
             {| EnhancedNavigation.complete_url := NavigationSamples.url;
                EnhancedNavigation.complete_target_id := "T1";
                EnhancedNavigation.error_message := None |}
             NavigationSamples.initial in
  fst r = Returns tt /\ Qred (EnhancedNavigation.clock (snd r)) = 52%Q.
Proof. vm_compute. auto. Qed.

(** *** Properties of the world kept by a computation *)

Lemma preserves_ret {W A} (P : W -> Prop) (a : A) : preserves P (mret a : M W A).
Proof. intros w Hw. exact Hw. Qed.

Lemma preserves_external {W A} (P : W -> Prop) (r : Res A) :
  preserves P (external r : M W A).
Proof. intros w Hw. exact Hw. Qed.

Lemma preserves_get_world {W} (P : W -> Prop) : preserves P (get_world : M W W).
Proof. intros w Hw. exact Hw. Qed.

Lemma preserves_modify {W} (P : W -> Prop) (f : W -> W) :
  (forall w, P w -> P (f w)) -> preserves P (modify f).
Proof. intros Hf w Hw. apply Hf, Hw. Qed.

Lemma preserves_bind {W A B} (P : W -> Prop) (c : M W A) (f : A -> M W B) :
  preserves P c -> (forall a, preserves P (f a)) -> preserves P (c ≫= f).
Proof.
  intros Hc Hf w Hw. unfold mbind, M_bind. specialize (Hc w Hw).
  destruct (c w) as [[a|e|] w']; simpl in *; [apply Hf, Hc|exact Hc|exact Hc].
Qed.

Lemma preserves_try_except {W A} (P : W -> Prop) (body : M W A) (handler : string -> M W A) :
  preserves P body -> (forall e, preserves P (handler e)) ->
  preserves P (try_except body handler).
Proof.
  intros Hb Hh w Hw. unfold try_except. specialize (Hb w Hw).
  destruct (body w) as [[a|e|] w']; simpl in *; [exact Hb|apply Hh, Hb|exact Hb].
Qed.

Lemma preserves_if {W A} (P : W -> Prop) (b : bool) (c1 c2 : M W A) :
  preserves P c1 -> preserves P c2 -> preserves P (if b then c1 else c2).
Proof. destruct b; auto. Qed.

Lemma preserves_while {W S R} (P : W -> Prop) (fuel : nat)
    (cond : S -> W -> bool) (body : S -> M W (Step S R)) (s : S) :
  (forall s, preserves P (body s)) -> preserves P (while fuel cond body s).
Proof.
  intros Hbody. revert s. induction fuel as [|fuel IH]; intros s w Hw; cbn [while].
  - exact Hw.
  - destruct (cond s w); [|exact Hw].
    apply (preserves_bind P (body s)); [apply Hbody| |exact Hw].
    intros [s'|s'|r]; [apply IH|apply preserves_ret|apply preserves_ret].
Qed.

Lemma reloads_app (es1 es2 : list EnhancedNavigation.Effect) :
  EnhancedNavigation.reloads (es1 ++ es2)
  = EnhancedNavigation.reloads es1 ++ EnhancedNavigation.reloads es2.
Proof. unfold EnhancedNavigation.reloads. apply omap_app. Qed.

Lemma within_budget_reads_reloads_only (url : string) (issued : list (option bool))
    (counted : Z) :
  ReloadBudget.reads_reloads_only (ReloadBudget.within_budget url issued counted).
Proof.
  intros w w' Hc Hr (n & Hn & Hlow & Hhigh). exists n.
  unfold ReloadBudget.retry_count in *. rewrite Hc, Hr. auto.
Qed.

Section ReadsReloadsOnly.

Variable P : EnhancedNavigation.World -> Prop.
Hypothesis P_reads : ReloadBudget.reads_reloads_only P.

Lemma preserves_nav_log (l : EnhancedNavigation.LogRecord) :
  preserves P (EnhancedNavigation.log l).
Proof.
  apply preserves_modify. intros w. apply P_reads; [reflexivity|].
  simpl. rewrite reloads_app. simpl. apply app_nil_r.
Qed.

Lemma preserves_nav_sleep (seconds : Q) : preserves P (EnhancedNavigation.sleep seconds).
Proof.
  apply preserves_modify. intros w. apply P_reads; [reflexivity|].
  simpl. rewrite reloads_app. simpl. apply app_nil_r.
Qed.

Lemma preserves_nav_call {A} (env : EnhancedNavigation.Env) (e : EnhancedNavigation.Effect)
    (r : nat -> Res A) :
  (forall p, e <> EnhancedNavigation.PageReload p) ->
  preserves P (EnhancedNavigation.call env e r).
Proof.
  intros He. unfold EnhancedNavigation.call.
  apply preserves_bind; [apply preserves_get_world|]. intros w0.
  apply preserves_bind; [|intros; apply preserves_external].
  apply preserves_modify. intros w. apply P_reads; [reflexivity|].
  simpl. rewrite reloads_app. destruct e; simpl; try apply app_nil_r.
  exfalso. eapply He. reflexivity.
Qed.

Lemma preserves_nav_session (env : EnhancedNavigation.Env) (target_id : string) :
  preserves P (EnhancedNavigation.session env target_id).
Proof. apply preserves_nav_call. discriminate. Qed.

Ltac keep :=
  repeat first
    [ apply preserves_nav_log
    | apply preserves_nav_sleep
    | apply preserves_nav_session
    | apply preserves_nav_call; discriminate
    | apply preserves_ret
    | apply preserves_get_world
    | apply preserves_external
    | apply preserves_try_except; [|intros ?]
    | apply preserves_bind; [|intros ?]
    | apply preserves_while; intros ?
    | apply preserves_if
    | match goal with
      | |- preserves _ (match ?x with _ => _ end) => destruct x
      end ].

Lemma preserves_verify_page_loaded (env : EnhancedNavigation.Env) (target_id url : string) :
  preserves P (EnhancedNavigation._verify_page_loaded env target_id url).
Proof.
  unfold EnhancedNavigation._verify_page_loaded, EnhancedNavigation.page_load_check. keep.
Qed.

Lemma preserves_wait_for_challenge (env : EnhancedNavigation.Env) (target_id url : string) :
  preserves P (EnhancedNavigation._wait_for_challenge_resolution env target_id url).
Proof. unfold EnhancedNavigation._wait_for_challenge_resolution. keep. Qed.

Lemma preserves_detect_antibot (env : EnhancedNavigation.Env) (target_id url : string) :
  preserves P (EnhancedNavigation._detect_and_handle_antibot env target_id url).
Proof.
  unfold EnhancedNavigation._detect_and_handle_antibot,
    EnhancedNavigation._handle_antibot_challenge.
  keep; apply preserves_wait_for_challenge.
Qed.

End ReadsReloadsOnly.

Lemma nav_call_spec {A} (env : EnhancedNavigation.Env) (e : EnhancedNavigation.Effect)
    (r : nat -> Res A) (w : EnhancedNavigation.World) :
  EnhancedNavigation.call env e r w
  = (outcome (r (EnhancedNavigation.calls w)),
     EnhancedNavigation.advance
       (EnhancedNavigation.seconds_of_ms
          (EnhancedNavigation.latency_ms env (EnhancedNavigation.calls w)))
       (EnhancedNavigation.record e (EnhancedNavigation.count_call w))).
Proof. reflexivity. Qed.

(** Below two retries one reload is counted and then issued, with no
    [ignoreCache] parameter; from two retries on nothing is done. *)
Lemma consider_page_reload_budget (env : EnhancedNavigation.Env) (target_id url : string)
    (issued : list (option bool)) (counted : Z) :
  preserves (ReloadBudget.within_budget url issued counted)
    (EnhancedNavigation._consider_page_reload env target_id url).
Proof.
  intros w (n & Hn & Hlow & Hhigh).
  unfold EnhancedNavigation._consider_page_reload.
  unfold mbind at 1, M_bind at 1, get_world at 1.
  fold (ReloadBudget.retry_count w url).
  destruct (ReloadBudget.retry_count w url <? 2) eqn:Hlt;
    [|exists n; auto].
  apply Z.ltb_lt in Hlt.
  unfold EnhancedNavigation.session, EnhancedNavigation.log, EnhancedNavigation.sleep,
    try_except, modify, mbind, M_bind, mret, M_ret.
  rewrite nav_call_spec.
  destruct (EnhancedNavigation.get_or_create_cdp_session env _) as [[]|e]; simpl.
  - destruct (EnhancedNavigation.reload env _) as [[]|e]; simpl;
      (exists (S n); unfold ReloadBudget.retry_count in *; simpl;
       rewrite !reloads_app, Hn; simpl; rewrite !app_nil_r, lookup_insert_eq; simpl;
       split; [rewrite <- app_assoc; f_equal; symmetry; apply replicate_cons_app | lia]).
  - exists n. unfold ReloadBudget.retry_count in *. simpl.
    rewrite !reloads_app, Hn. simpl. rewrite !app_nil_r, lookup_insert_eq. simpl.
    split; [reflexivity|lia].
Qed.

Lemma consider_page_reload_gives_up (env : EnhancedNavigation.Env) (target_id url : string)
    (w : EnhancedNavigation.World) :
  2 <= ReloadBudget.retry_count w url ->
  EnhancedNavigation._consider_page_reload env target_id url w = (Returns tt, w).
Proof.
  intros Hc. unfold EnhancedNavigation._consider_page_reload.
  unfold mbind at 1, M_bind at 1, get_world at 1.
  fold (ReloadBudget.retry_count w url).
  destruct (ReloadBudget.retry_count w url <? 2) eqn:Hlt; [|reflexivity].
  apply Z.ltb_lt in Hlt. lia.
Qed.

Ltac keep_budget :=
  repeat first
    [ apply preserves_nav_log; apply within_budget_reads_reloads_only
    | apply preserves_nav_sleep; apply within_budget_reads_reloads_only
    | apply preserves_nav_session; apply within_budget_reads_reloads_only
    | apply preserves_verify_page_loaded; apply within_budget_reads_reloads_only
    | apply preserves_detect_antibot; apply within_budget_reads_reloads_only
    | apply consider_page_reload_budget
    | apply preserves_nav_call;
        [apply within_budget_reads_reloads_only|discriminate]
    | apply preserves_ret
    | apply preserves_external
    | apply preserves_try_except; [|intros ?]
    | apply preserves_bind; [|intros ?]
    | apply preserves_if
    | match goal with
      | |- preserves _ (match ?x with _ => _ end) => destruct x
      end ].

Lemma navigation_complete_budget (env : EnhancedNavigation.Env)
    (event : EnhancedNavigation.NavigationCompleteEvent)
    (issued : list (option bool)) (counted : Z) :
  preserves
    (ReloadBudget.within_budget (EnhancedNavigation.complete_url event) issued counted)
    (EnhancedNavigation.on_NavigationCompleteEvent env event).
Proof.
  unfold EnhancedNavigation.on_NavigationCompleteEvent,
    EnhancedNavigation._verify_content_loaded.
  keep_budget.
  apply preserves_modify. intros w.
  apply within_budget_reads_reloads_only; [reflexivity|].
  simpl. rewrite reloads_app. simpl. apply app_nil_r.
Qed.

(** A navigation start sets the URL's reload counter to 0 and issues no reload. *)
Lemma navigation_started_resets (env : EnhancedNavigation.Env)
    (event : EnhancedNavigation.NavigationStartedEvent) (w : EnhancedNavigation.World) :
  let w' := snd (EnhancedNavigation.on_NavigationStartedEvent env event w) in
  EnhancedNavigation._loading_retry_count w' !! EnhancedNavigation.started_url event = Some 0
  /\ EnhancedNavigation.reloads (EnhancedNavigation.effects w')
     = EnhancedNavigation.reloads (EnhancedNavigation.effects w).
Proof.
  simpl. rewrite lookup_insert_eq. split; [reflexivity|].
  rewrite !reloads_app. simpl. rewrite !app_nil_r. reflexivity.
Qed.

Lemma completions_budget (url : string) (hs : list EnhancedNavigation.Handling)
    (issued : list (option bool)) (counted : Z) (w : EnhancedNavigation.World) :
  forallb EnhancedNavigation.is_completed hs = true ->
  ReloadBudget.within_budget url issued counted w ->
  ReloadBudget.within_budget url issued counted (EnhancedNavigation.handle_all url hs w).
Proof.
  revert w. induction hs as [|h hs IH]; intros w Hhs Hw; [exact Hw|].
  simpl in Hhs. apply andb_true_iff in Hhs as [Hh Hhs].
  unfold EnhancedNavigation.handle_all. simpl. apply IH; [exact Hhs|].
  destruct h as [env target_id|env target_id]; [discriminate|].
  apply (navigation_complete_budget env
           {| EnhancedNavigation.complete_url := url;
              EnhancedNavigation.complete_target_id := target_id;
              EnhancedNavigation.error_message := None |}).
  exact Hw.
Qed.

Lemma content_sufficient_spec (content_data : option EnhancedNavigation.ContentData) :
  EnhancedNavigation.content_sufficient content_data = false
  <-> match content_data with
      | Some d =>
          default false (EnhancedNavigation.contentFound d) = false
          /\ default 0 (EnhancedNavigation.textLength d) <= 100
          /\ default false (EnhancedNavigation.hasLinks d) = false
      | None => True
      end.
Proof.
  unfold EnhancedNavigation.content_sufficient, EnhancedNavigation.get_bool.
  destruct content_data as [d|]; [|split; auto].
  rewrite !orb_false_iff, Z.ltb_ge. tauto.
Qed.

(** C7, as stated, fails twice: the reload the watchdog issues passes no
    [ignoreCache] parameter, so it is not cache-ignoring; and the bound of 2
    holds between two navigation starts of the URL, not for the URL as
    such, because each navigation start sets the counter back to 0. *)
Lemma C7_reloads_neither_forced_nor_bounded_per_url :
  ~ (forall (url : string) (hs : list EnhancedNavigation.Handling),
        Forall (fun ignoreCache => ignoreCache = Some true)
          (EnhancedNavigation.reloads
             (EnhancedNavigation.effects
                (EnhancedNavigation.handle_all url hs NavigationSamples.initial))))
  /\ ~ (forall (url : string) (hs : list EnhancedNavigation.Handling),
          (length (EnhancedNavigation.reloads
                     (EnhancedNavigation.effects
                        (EnhancedNavigation.handle_all url hs NavigationSamples.initial)))
           <= 2)%nat).
Proof.
  split; intros H.
  - specialize (H NavigationSamples.url
                  [EnhancedNavigation.Started NavigationSamples.blank_page "T1";
                   EnhancedNavigation.Completed NavigationSamples.blank_page "T1"]).
    vm_compute in H. inversion H as [|? ? Hhead _]. discriminate Hhead.
  - specialize (H NavigationSamples.url
                  [EnhancedNavigation.Started NavigationSamples.blank_page "T1";
                   EnhancedNavigation.Completed NavigationSamples.blank_page "T1";
                   EnhancedNavigation.Completed NavigationSamples.blank_page "T1";
                   EnhancedNavigation.Started NavigationSamples.blank_page "T1";
                   EnhancedNavigation.Completed NavigationSamples.blank_page "T1"]).
    vm_compute in H. lia.
Qed.

(** C7, amended. The content check fails exactly when the page reports no
    structural content element, at most 100 characters of text and no
    hyperlink. Over the completions that follow one navigation start of a
    URL, whatever the page answers, the watchdog issues at most 2 reloads
    for that URL, each a plain [Page.reload] without [ignoreCache]; once
    the URL's counter is at 2 it gives up and leaves the page as it is. *)
Theorem C7_reload_bound
    (url : string) (start_env : EnhancedNavigation.Env) (target_id : string)
    (hs : list EnhancedNavigation.Handling) (w : EnhancedNavigation.World) :
  forallb EnhancedNavigation.is_completed hs = true ->
  let w' :=
    EnhancedNavigation.handle_all url
      (EnhancedNavigation.Started start_env target_id :: hs) w in
  (exists n : nat,
      (n <= 2)%nat
      /\ EnhancedNavigation.reloads (EnhancedNavigation.effects w')
         = EnhancedNavigation.reloads (EnhancedNavigation.effects w) ++ replicate n None)
  /\ (forall content_data,
        EnhancedNavigation.content_sufficient content_data = false
        <-> match content_data with
            | Some d =>
                default false (EnhancedNavigation.contentFound d) = false
                /\ default 0 (EnhancedNavigation.textLength d) <= 100
                /\ default false (EnhancedNavigation.hasLinks d) = false
            | None => True
            end)
  /\ (forall env target v,
        2 <= ReloadBudget.retry_count v url ->
        EnhancedNavigation._consider_page_reload env target url v = (Returns tt, v)).
Proof.
  intros Hhs w'. split; [|split].
  - destruct (navigation_started_resets start_env
                {| EnhancedNavigation.started_url := url;
                   EnhancedNavigation.started_target_id := target_id |} w)
      as [Hzero Hsame].
    cbv zeta in Hzero, Hsame. cbn [EnhancedNavigation.started_url] in Hzero.
    set (w1 := snd (EnhancedNavigation.on_NavigationStartedEvent start_env _ w)) in *.
    assert (Hbudget : ReloadBudget.within_budget url
              (EnhancedNavigation.reloads (EnhancedNavigation.effects w)) 0 w1).
    { exists 0%nat. unfold ReloadBudget.retry_count. rewrite Hzero, Hsame. simpl.
      rewrite app_nil_r. split; [reflexivity|lia]. }
    apply (completions_budget url hs _ 0 w1 Hhs) in Hbudget.
    destruct Hbudget as (n & Hn & Hlow & Hhigh).
    exists n. split; [lia|exact Hn].
  - apply content_sufficient_spec.
  - intros env target v. apply consider_page_reload_gives_up.
Qed.

Lemma C7_reload_bound_witness :
  exists n : nat,
    (n <= 2)%nat
    /\ EnhancedNavigation.reloads
         (EnhancedNavigation.effects
            (EnhancedNavigation.handle_all NavigationSamples.url
               [EnhancedNavigation.Started NavigationSamples.blank_page "T1";
                EnhancedNavigation.Completed NavigationSamples.blank_page "T1";
                EnhancedNavigation.Completed NavigationSamples.stuck_page "T1";
                EnhancedNavigation.Completed NavigationSamples.blank_page "T1";
                EnhancedNavigation.Completed NavigationSamples.blank_page "T1"]
               NavigationSamples.initial))
       = EnhancedNavigation.reloads (EnhancedNavigation.effects NavigationSamples.initial)
         ++ replicate n None.
Proof.
  refine (proj1 (C7_reload_bound NavigationSamples.url NavigationSamples.blank_page "T1"
                   [EnhancedNavigation.Completed NavigationSamples.blank_page "T1";
                    EnhancedNavigation.Completed NavigationSamples.stuck_page "T1";
                    EnhancedNavigation.Completed NavigationSamples.blank_page "T1";
                    EnhancedNavigation.Completed NavigationSamples.blank_page "T1"]
                   NavigationSamples.initial _)).
  reflexivity.
Defined.

(** ** Exception containment *)

Create HintDb returning.

Lemma returns_try_of_returning_body {W A} (body : M W A) (handler : string -> M W A) :
  returns body -> returns (try_except body handler).
Proof.
  intros Hb w. unfold try_except. destruct (Hb w) as [a Ha].
  destruct (body w) as [[a'|e|] w']; simpl in *; [eauto|discriminate|discriminate].
Qed.

(** Splits a goal [returns c] or [finishes c] along the structure of [c];
    the leaves are closed with the lemmas of the [returning] database. *)
Ltac ends_step :=
  match goal with
  | |- returns (mret _) => apply returns_ret
  | |- returns (modify _) => apply returns_modify
  | |- returns get_world => apply returns_get_world
  | |- returns (try_except _ _) => apply returns_try_except; [|intros ?]
  | |- returns (mbind _ _) => apply returns_bind; [|intros ?]
  | |- returns (if _ then _ else _) => apply returns_if
  | |- returns (match ?x with _ => _ end) => destruct x
  | |- finishes (external _) => apply finishes_external
  | |- finishes (mbind _ _) => apply finishes_bind; [|intros ?]
  | |- finishes (if _ then _ else _) => apply finishes_if
  | |- finishes (match ?x with _ => _ end) => destruct x
  | |- finishes (fun w => (Raises _, w)) => apply finishes_raise
  | |- finishes _ => apply returns_finishes
  end.

Ltac ends := repeat first [solve [auto 1 with returning nocore] | ends_step].

(** *** Element staleness watchdog *)

Lemma staleness_call_finishes {A} (e : Staleness.Effect) (r : Res A) :
  finishes (Staleness.call e r).
Proof. unfold Staleness.call. ends. Qed.
#[local] Hint Resolve staleness_call_finishes : returning.

Lemma check_element_staleness_returns (env : Staleness.Env) (node : EnhancedDOMTreeNode) :
  returns (Staleness._check_element_staleness env node).
Proof. unfold Staleness._check_element_staleness. ends. Qed.
#[local] Hint Resolve check_element_staleness_returns : returning.

Lemma force_dom_rebuild_returns (env : Staleness.Env) :
  returns (Staleness._force_dom_rebuild env).
Proof. unfold Staleness._force_dom_rebuild, Staleness._get_dom_watchdog. ends. Qed.
#[local] Hint Resolve force_dom_rebuild_returns : returning.

Lemma find_fresh_element_returns (env : Staleness.Env) (stale_node : EnhancedDOMTreeNode) :
  returns (Staleness._find_fresh_element_equivalent env stale_node).
Proof.
  unfold Staleness._find_fresh_element_equivalent, Staleness._get_dom_watchdog. ends.
Qed.
#[local] Hint Resolve find_fresh_element_returns : returning.

Lemma retry_count_ops_return (retry_key : string) :
  returns (Staleness._get_retry_count retry_key)
  /\ returns (Staleness._increment_retry_count retry_key)
  /\ returns (Staleness._reset_retry_count retry_key).
Proof.
  unfold Staleness._get_retry_count, Staleness._increment_retry_count,
    Staleness._reset_retry_count, Staleness._get_retry_count.
  repeat split; ends.
Qed.

(** The error event is dispatched outside any [try] of [_handle_stale_element]:
    the function may raise; it is its caller that contains the exception. *)
Lemma handle_stale_element_finishes (env : Staleness.Env) (action_type : string)
    (stale_node : EnhancedDOMTreeNode) (retry_key : string) :
  finishes (Staleness._handle_stale_element env action_type stale_node retry_key).
Proof.
  destruct (retry_count_ops_return retry_key) as (Hget & Hinc & Hreset).
  unfold Staleness._handle_stale_element, Staleness._update_event_with_fresh_element. ends.
Qed.
#[local] Hint Resolve handle_stale_element_finishes : returning.

Lemma handle_element_action_returns (env : Staleness.Env) (action_type : string)
    (node : EnhancedDOMTreeNode) :
  returns (Staleness._handle_element_action_with_staleness_check env action_type node).
Proof.
  unfold Staleness._handle_element_action_with_staleness_check.
  match goal with
  | |- context [Staleness._reset_retry_count ?k] =>
      destruct (retry_count_ops_return k) as (_ & _ & Hreset)
  end.
  ends.
Qed.
#[local] Hint Resolve handle_element_action_returns : returning.

Lemma staleness_on_event_returns (env : Staleness.Env) : returns (Staleness.on_event env).
Proof. unfold Staleness.on_event. ends. Qed.

(** *** Network reliability watchdog *)

Lemma network_call_finishes {A} (e : NetworkReliability.Effect) (r : Res A) :
  finishes (NetworkReliability.call e r).
Proof. unfold NetworkReliability.call. ends. Qed.
#[local] Hint Resolve network_call_finishes : returning.

Lemma handle_network_error_returns (env : NetworkReliability.Env)
    (url error_message target_id : string) :
  returns (NetworkReliability._handle_network_error env url error_message target_id).
Proof.
  unfold NetworkReliability._handle_network_error.
  apply returns_bind; [ends|]. intros w.
  destruct (NetworkReliability._calculate_retry_strategy _ _ _ _) as [should_retry delay].
  ends.
Qed.
#[local] Hint Resolve handle_network_error_returns : returning.

Lemma network_handlers_return (env : NetworkReliability.Env) :
  (forall event, returns (NetworkReliability.on_NavigationStartedEvent env event))
  /\ (forall event, returns (NetworkReliability.on_NavigationCompleteEvent env event)).
Proof.
  split; intros event.
  - unfold NetworkReliability.on_NavigationStartedEvent. ends.
  - unfold NetworkReliability.on_NavigationCompleteEvent. ends.
Qed.

(** *** Form reliability watchdog *)

Lemma form_call_finishes {A} (e : FormReliability.Effect) (r : Res A) :
  finishes (FormReliability.call e r).
Proof. unfold FormReliability.call. ends. Qed.
#[local] Hint Resolve form_call_finishes : returning.

Lemma form_log_returns (l : FormReliability.LogRecord) : returns (FormReliability.log l).
Proof. unfold FormReliability.log. ends. Qed.

Lemma form_sleep_returns (seconds : Q) : returns (FormReliability.sleep seconds).
Proof. unfold FormReliability.sleep. ends. Qed.
#[local] Hint Resolve form_log_returns form_sleep_returns : returning.

Lemma form_capture_returns (env : FormReliability.Env) :
  returns (FormReliability._capture_page_state env).
Proof. intros w. rewrite capture_page_state_spec. eauto. Qed.
#[local] Hint Resolve form_capture_returns : returning.

Lemma verify_form_submission_returns (env : FormReliability.Env)
    (pre : FormReliability.PageState) (info : FormReliability.ElementInfo) :
  returns (FormReliability._verify_form_submission_success env pre info).
Proof. apply returns_unit. intros w. apply verify_returns. Qed.
#[local] Hint Resolve verify_form_submission_returns : returning.

Lemma track_form_submission_returns (env : FormReliability.Env)
    (element : EnhancedDOMTreeNode) :
  returns (FormReliability._track_form_submission env element).
Proof. unfold FormReliability._track_form_submission. ends. Qed.

Lemma verify_input_success_returns (env : FormReliability.Env)
    (element : EnhancedDOMTreeNode) (expected_text : string) :
  returns (FormReliability._verify_input_success env element expected_text).
Proof. unfold FormReliability._verify_input_success. ends. Qed.

Lemma detect_form_submission_by_enter_returns (env : FormReliability.Env) :
  returns (FormReliability._detect_form_submission_by_enter env).
Proof. unfold FormReliability._detect_form_submission_by_enter. ends. Qed.
#[local] Hint Resolve track_form_submission_returns verify_input_success_returns
  detect_form_submission_by_enter_returns : returning.

Lemma form_handlers_return (env : FormReliability.Env) :
  (forall node, returns (FormReliability.on_ClickElementEvent env node))
  /\ (forall node text, returns (FormReliability.on_TypeTextEvent env node text))
  /\ (forall keys, returns (FormReliability.on_SendKeysEvent env keys)).
Proof.
  split; [|split]; intros.
  - unfold FormReliability.on_ClickElementEvent. ends.
  - unfold FormReliability.on_TypeTextEvent. ends.
  - unfold FormReliability.on_SendKeysEvent. ends.
Qed.

(** *** Dynamic content watchdog *)

Lemma dynamic_log_returns (l : DynamicContent.LogRecord) : returns (DynamicContent.log l).
Proof. unfold DynamicContent.log. ends. Qed.

Lemma dynamic_sleep_returns (seconds : Q) : returns (DynamicContent.sleep seconds).
Proof. unfold DynamicContent.sleep. ends. Qed.
#[local] Hint Resolve dynamic_log_returns dynamic_sleep_returns : returning.

Lemma dynamic_call_finishes {A} (e : DynamicContent.Effect) (r : Res A) :
  finishes (DynamicContent.call e r).
Proof. unfold DynamicContent.call. ends. Qed.
#[local] Hint Resolve dynamic_call_finishes : returning.

Lemma dynamic_evaluate_finishes {A} (e : DynamicContent.Effect) (script : nat -> Res A) :
  finishes (DynamicContent.evaluate e script).
Proof. unfold DynamicContent.evaluate. ends. Qed.
#[local] Hint Resolve dynamic_evaluate_finishes : returning.

Lemma wait_for_content_stabilization_returns (env : DynamicContent.Env)
    (url : string) (timeout : Q) :
  returns (DynamicContent._wait_for_content_stabilization env url timeout).
Proof. apply returns_unit. intros w. apply wait_for_stabilization_returns. Qed.
#[local] Hint Resolve wait_for_content_stabilization_returns : returning.

(** A loop that counts [elapsed] up to [timeout] by half seconds finishes
    within the iterations [poll_fuel] grants. *)
Lemma counting_loop_finishes {R} (timeout : Q)
    (body : Q -> M DynamicContent.World (Step Q R)) :
  (forall elapsed, finishes (body elapsed)) ->
  (forall elapsed w elapsed' w',
      body elapsed w = (Returns (Next elapsed'), w') -> (elapsed + (1 # 2) <= elapsed')%Q) ->
  finishes (while (DynamicContent.poll_fuel timeout)
              (fun elapsed _ => Qltb elapsed timeout) body 0%Q).
Proof.
  intros Hbody Hstep w.
  destruct (poll_fuel_suffices timeout) as [Hone Hfuel].
  apply (finishes_while (fun elapsed (_ : DynamicContent.World) => (timeout - elapsed)%Q)).
  - intros elapsed v Hc. apply Qltb_lt in Hc. lra.
  - intros elapsed v _. apply Hbody.
  - intros elapsed v elapsed' v' _ Hrun. specialize (Hstep _ _ _ _ Hrun). lra.
  - exact Hone.
  - lra.
Qed.

Ltac run_poll Hrun :=
  unfold DynamicContent.evaluate, DynamicContent.call, DynamicContent.log,
    DynamicContent.sleep, modify, external, get_world, mbind, M_bind, mret, M_ret in Hrun;
  cbn in Hrun;
  repeat match type of Hrun with
         | context [outcome ?r] => destruct r as [[?|]|?]; cbn in Hrun
         | context [if ?b then _ else _] => destruct b; cbn in Hrun
         end;
  try discriminate Hrun;
  injection Hrun as <- _; lra.

Lemma wait_for_spa_content_returns (env : DynamicContent.Env) (timeout : Q) :
  returns (DynamicContent._wait_for_spa_content env timeout).
Proof.
  unfold DynamicContent._wait_for_spa_content.
  apply returns_try_except; [|intros e; ends].
  apply finishes_bind; [|intros; ends].
  apply counting_loop_finishes.
  - intros elapsed. ends.
  - intros elapsed w elapsed' w' Hrun. run_poll Hrun.
Qed.

Lemma wait_for_lazy_loaded_images_returns (env : DynamicContent.Env) (timeout : Q) :
  returns (DynamicContent._wait_for_lazy_loaded_images env timeout).
Proof.
  unfold DynamicContent._wait_for_lazy_loaded_images.
  apply returns_try_except; [|intros e; ends].
  apply finishes_bind; [|intros; ends].
  apply counting_loop_finishes.
  - intros elapsed. ends.
  - intros elapsed w elapsed' w' Hrun. run_poll Hrun.
Qed.

Lemma wait_for_dynamic_lists_returns (env : DynamicContent.Env) (timeout : Q) :
  returns (DynamicContent._wait_for_dynamic_lists env timeout).
Proof.
  unfold DynamicContent._wait_for_dynamic_lists.
  apply returns_try_except; [|intros e; ends].
  apply finishes_bind; [ends|]. intros initial_result.
  apply finishes_if; [ends|].
  apply finishes_bind; [ends|]. intros _.
  apply finishes_bind; [|intros; ends].
  apply counting_loop_finishes.
  - intros elapsed. ends.
  - intros elapsed w elapsed' w' Hrun. run_poll Hrun.
Qed.
#[local] Hint Resolve wait_for_spa_content_returns wait_for_lazy_loaded_images_returns
  wait_for_dynamic_lists_returns : returning.

Lemma setup_network_monitoring_returns (env : DynamicContent.Env) (url : string) :
  returns (DynamicContent._setup_network_monitoring env url).
Proof. unfold DynamicContent._setup_network_monitoring. ends. Qed.
#[local] Hint Resolve setup_network_monitoring_returns : returning.

Lemma dynamic_handlers_return (env : DynamicContent.Env) :
  (forall event, returns (DynamicContent.on_NavigationCompleteEvent env event))
  /\ (forall target_id, returns (DynamicContent.on_BrowserStateRequestEvent env target_id)).
Proof.
  split; intros.
  - unfold DynamicContent.on_NavigationCompleteEvent,
      DynamicContent._start_dynamic_content_monitoring. ends.
  - unfold DynamicContent.on_BrowserStateRequestEvent,
      DynamicContent._ensure_dynamic_content_loaded. ends.
Qed.

(** *** Enhanced navigation watchdog *)

(** A loop whose iterations all return cannot raise. *)
Lemma while_returns {W S R} (fuel : nat) (cond : S -> W -> bool)
    (body : S -> M W (Step S R)) (s : S) (w : W) :
  (forall s, returns (body s)) ->
  fst (while fuel cond body s w) <> OutOfFuel ->
  exists exit, fst (while fuel cond body s w) = Returns exit.
Proof.
  intros Hbody. revert s w. induction fuel as [|fuel IH]; intros s w; cbn [while].
  - intros H. exfalso. apply H. reflexivity.
  - destruct (cond s w); [|eauto].
    unfold mbind, M_bind. destruct (Hbody s w) as [step Hstep].
    destruct (body s w) as [[step'|e|] w1]; simpl in Hstep; try discriminate.
    destruct step' as [s'|s'|r]; [apply IH|eauto|eauto].
Qed.

Lemma seconds_of_ms_nonneg (ms : N) : (0 <= EnhancedNavigation.seconds_of_ms ms)%Q.
Proof.
  unfold EnhancedNavigation.seconds_of_ms.
  apply Qle_shift_div_l; [reflexivity|].
  rewrite Qmult_0_l. change 0%Q with (inject_Z 0). rewrite <- Zle_Qle. lia.
Qed.

Lemma nav_log_returns (l : EnhancedNavigation.LogRecord) :
  returns (EnhancedNavigation.log l).
Proof. unfold EnhancedNavigation.log. ends. Qed.

Lemma nav_sleep_returns (seconds : Q) : returns (EnhancedNavigation.sleep seconds).
Proof. unfold EnhancedNavigation.sleep. ends. Qed.
#[local] Hint Resolve nav_log_returns nav_sleep_returns : returning.

Lemma nav_call_finishes {A} (env : EnhancedNavigation.Env) (e : EnhancedNavigation.Effect)
    (r : nat -> Res A) :
  finishes (EnhancedNavigation.call env e r).
Proof. unfold EnhancedNavigation.call. ends. Qed.

Lemma nav_session_finishes (env : EnhancedNavigation.Env) (target_id : string) :
  finishes (EnhancedNavigation.session env target_id).
Proof. apply nav_call_finishes. Qed.
#[local] Hint Resolve nav_call_finishes nav_session_finishes : returning.

Lemma page_load_check_returns (env : EnhancedNavigation.Env) (target_id url : string)
    (start_time : Q) :
  returns (EnhancedNavigation.page_load_check env target_id url start_time).
Proof. unfold EnhancedNavigation.page_load_check. ends. Qed.
#[local] Hint Resolve page_load_check_returns : returning.

(** Runs a loop body on its hypothesis, case by case on what the session
    answers, down to the clock of the world it leaves. *)
Ltac run_nav_body Hrun :=
  unfold EnhancedNavigation.page_load_check, EnhancedNavigation.session,
    EnhancedNavigation.call, EnhancedNavigation.log, EnhancedNavigation.sleep,
    try_except, modify, external, get_world, mbind, M_bind, mret, M_ret in Hrun;
  cbn in Hrun;
  repeat match type of Hrun with
         | context [outcome ?r] => destruct r as [?|?]; cbn in Hrun
         | context [match ?x with Some _ => _ | None => _ end] =>
             destruct x; cbn in Hrun
         | context [if ?b then _ else _] => destruct b; cbn in Hrun
         end;
  try discriminate Hrun;
  injection Hrun as <- <-; cbn;
  repeat match goal with
         | |- context [EnhancedNavigation.seconds_of_ms ?ms] =>
             lazymatch goal with
             | _ : (0 <= EnhancedNavigation.seconds_of_ms ms)%Q |- _ => fail
             | _ => pose proof (seconds_of_ms_nonneg ms)
             end
         end;
  (split; [reflexivity|lra]).

(** A loop that runs while less than [max_wait] seconds have passed on the
    clock since [start_time], and whose iterations each take half a second
    at least, returns within two iterations per second, and one. *)
Lemma clock_loop_returns {R} (max_wait : Q) (fuel : nat)
    (body : Q -> M EnhancedNavigation.World (Step Q R)) (w : EnhancedNavigation.World) :
  (forall s, returns (body s)) ->
  (forall s v s' v',
      body s v = (Returns (Next s'), v') ->
      s' = s /\ (EnhancedNavigation.clock v + (1 # 2) <= EnhancedNavigation.clock v')%Q) ->
  (1 <= fuel)%nat ->
  (max_wait * 2 + 1 <= inject_Z (Z.of_nat fuel))%Q ->
  exists exit,
    fst (while fuel (fun start_time v => Qltb (EnhancedNavigation.clock v - start_time) max_wait)
           body (EnhancedNavigation.clock w) w)
    = Returns exit.
Proof.
  intros Hbody Hstep Hone Hfuel.
  apply while_returns; [exact Hbody|].
  apply (finishes_while
           (fun s (v : EnhancedNavigation.World) =>
              (max_wait - (EnhancedNavigation.clock v - s))%Q)).
  - intros s v Hc. apply Qltb_lt in Hc. lra.
  - intros s v _. apply returns_finishes, Hbody.
  - intros s v s' v' _ Hrun. destruct (Hstep _ _ _ _ Hrun) as [-> Hclock]. lra.
  - exact Hone.
  - lra.
Qed.

Lemma verify_page_loaded_returns (env : EnhancedNavigation.Env) (target_id url : string) :
  returns (EnhancedNavigation._verify_page_loaded env target_id url).
Proof.
  intros w. unfold EnhancedNavigation._verify_page_loaded.
  unfold mbind at 1, M_bind at 1, get_world at 1.
  unfold mbind at 1, M_bind at 1.
  match goal with
  | |- context [while ?fuel ?cond ?body ?s w] =>
      assert (Hloop : exists exit, fst (while fuel cond body s w) = Returns exit);
      [|destruct Hloop as [exit Hexit]; destruct (while fuel cond body s w) as [r w1]]
  end.
  - apply (clock_loop_returns (R := unit) EnhancedNavigation.page_load_max_wait).
    + intros s. ends.
    + intros s v s' v' Hrun. run_nav_body Hrun.
    + unfold EnhancedNavigation.page_load_fuel. lia.
    + vm_compute. discriminate.
  - simpl in Hexit. subst r. destruct exit as [s|[]]; [|eauto]. exists tt. reflexivity.
Qed.
#[local] Hint Resolve verify_page_loaded_returns : returning.

Lemma wait_for_challenge_resolution_returns (env : EnhancedNavigation.Env)
    (target_id url : string) :
  returns (EnhancedNavigation._wait_for_challenge_resolution env target_id url).
Proof.
  intros w. unfold EnhancedNavigation._wait_for_challenge_resolution.
  unfold mbind at 1, M_bind at 1, get_world at 1.
  unfold mbind at 1, M_bind at 1.
  match goal with
  | |- context [while ?fuel ?cond ?body ?s w] =>
      assert (Hloop : exists exit, fst (while fuel cond body s w) = Returns exit);
      [|destruct Hloop as [exit Hexit]; destruct (while fuel cond body s w) as [r w1]]
  end.
  - apply (clock_loop_returns (R := unit) EnhancedNavigation.challenge_max_wait).
    + intros s. ends.
    + intros s v s' v' Hrun. run_nav_body Hrun.
    + unfold EnhancedNavigation.challenge_fuel. lia.
    + vm_compute. discriminate.
  - simpl in Hexit. subst r. destruct exit as [s|[]]; [|eauto]. exists tt. reflexivity.
Qed.
#[local] Hint Resolve wait_for_challenge_resolution_returns : returning.

Lemma handle_antibot_challenge_returns (env : EnhancedNavigation.Env)
    (target_id url : string) (challenge : EnhancedNavigation.ChallengeData) :
  returns (EnhancedNavigation._handle_antibot_challenge env target_id url challenge).
Proof. unfold EnhancedNavigation._handle_antibot_challenge. ends. Qed.
#[local] Hint Resolve handle_antibot_challenge_returns : returning.

Lemma detect_and_handle_antibot_returns (env : EnhancedNavigation.Env)
    (target_id url : string) :
  returns (EnhancedNavigation._detect_and_handle_antibot env target_id url).
Proof. unfold EnhancedNavigation._detect_and_handle_antibot. ends. Qed.

Lemma consider_page_reload_returns (env : EnhancedNavigation.Env) (target_id url : string) :
  returns (EnhancedNavigation._consider_page_reload env target_id url).
Proof. unfold EnhancedNavigation._consider_page_reload. ends. Qed.
#[local] Hint Resolve detect_and_handle_antibot_returns consider_page_reload_returns
  : returning.

Lemma verify_content_loaded_returns (env : EnhancedNavigation.Env) (target_id url : string) :
  returns (EnhancedNavigation._verify_content_loaded env target_id url).
Proof. unfold EnhancedNavigation._verify_content_loaded. ends. Qed.
#[local] Hint Resolve verify_content_loaded_returns : returning.

(** The handler of [on_NavigationCompleteEvent] dispatches an error event,
    which may raise; it is never entered, since nothing in the body raises. *)
Lemma navigation_handlers_return (env : EnhancedNavigation.Env) :
  (forall event, returns (EnhancedNavigation.on_NavigationStartedEvent env event))
  /\ (forall event, returns (EnhancedNavigation.on_NavigationCompleteEvent env event)).
Proof.
  split; intros event.
  - unfold EnhancedNavigation.on_NavigationStartedEvent. ends.
  - unfold EnhancedNavigation.on_NavigationCompleteEvent.
    apply returns_try_of_returning_body. ends.
Qed.

Example staleness_handler_contains_bus_failure :
  let env :=
    {| Staleness.get_or_create_cdp_session := Ok tt;
       Staleness.describeNode := Exc "node not found";
       Staleness.time := 1000;
       Staleness._dom_watchdog := None;
       Staleness.state_request := Exc "event bus stopped";
       Staleness.dispatch_error := Exc "event bus stopped" |} in
  let w := {| Staleness._retry_counts := {[ "click_T1_7_47" := 2 ]};
              Staleness._last_dom_rebuild := 0;
              Staleness.event := Staleness.ClickElementEvent StalenessSamples.button ∅;
              Staleness.effects := [] |} in
  fst (Staleness._handle_stale_element env "click" StalenessSamples.button
         "click_T1_7_47" w) = Raises "event bus stopped"
  /\ fst (Staleness.on_event env w) = Returns tt.
Proof. vm_compute. auto. Qed.

Example dynamic_handler_on_broken_page :
  fst (DynamicContent.on_BrowserStateRequestEvent DynamicSamples.broken_page (Some "T1")
         DynamicSamples.initial) = Returns tt
  /\ fst (DynamicContent.on_NavigationCompleteEvent DynamicSamples.broken_page
            {| DynamicContent.complete_url := "/";
               DynamicContent.complete_target_id := "T1";
               DynamicContent.error_message := None |}
            DynamicSamples.initial) = Returns tt.
Proof. vm_compute. auto. Qed.

(** C8. Whatever the browser session, the CDP client and the event bus
    answer or raise, every event handler of the five watchdogs returns
    normally: it neither raises nor fails to come to an end. *)
Theorem C8_exception_containment :
  (forall env, returns (Staleness.on_event env))
  /\ (forall env node, returns (FormReliability.on_ClickElementEvent env node))
  /\ (forall env node text, returns (FormReliability.on_TypeTextEvent env node text))
  /\ (forall env keys, returns (FormReliability.on_SendKeysEvent env keys))
  /\ (forall env event, returns (DynamicContent.on_NavigationCompleteEvent env event))
  /\ (forall env target_id,
        returns (DynamicContent.on_BrowserStateRequestEvent env target_id))
  /\ (forall env event, returns (EnhancedNavigation.on_NavigationStartedEvent env event))
  /\ (forall env event, returns (EnhancedNavigation.on_NavigationCompleteEvent env event))
  /\ (forall env event, returns (NetworkReliability.on_NavigationStartedEvent env event))
  /\ (forall env event, returns (NetworkReliability.on_NavigationCompleteEvent env event)).
Proof.
  split; [exact staleness_on_event_returns|].
  split; [intros env; apply (form_handlers_return env)|].
  split; [intros env; apply (form_handlers_return env)|].
  split; [intros env; apply (form_handlers_return env)|].
  split; [intros env; apply (dynamic_handlers_return env)|].
  split; [intros env; apply (dynamic_handlers_return env)|].
  split; [intros env; apply (navigation_handlers_return env)|].
  split; [intros env; apply (navigation_handlers_return env)|].
  split; intros env; apply (network_handlers_return env).
Qed.

(** * Further properties *)

(** ** Error classification: parameters and schedule *)

(** The four fields that steer a retry, for each way [classify_error] ends. *)
Lemma classify_error_parameters (error : ErrorClassifier.PyError) (action_name : string)
    (context : option (gmap string string)) :
  let r := ErrorClassifier.classify_error error action_name context in
  ErrorClassifier.user_message r <> EmptyString
  /\ ((ErrorClassifier.category r = ErrorClassifier.RETRYABLE_NETWORK
       /\ ErrorClassifier.should_retry r = true
       /\ ErrorClassifier.retry_delay r = 2%Q /\ ErrorClassifier.max_retries r = 3)
      \/ (ErrorClassifier.category r = ErrorClassifier.RETRYABLE_TIMING
          /\ ErrorClassifier.should_retry r = true
          /\ ErrorClassifier.retry_delay r = 3%Q /\ ErrorClassifier.max_retries r = 2)
      \/ (ErrorClassifier.category r = ErrorClassifier.RETRYABLE_RESOURCE
          /\ ErrorClassifier.should_retry r = true
          /\ ErrorClassifier.retry_delay r = 5%Q /\ ErrorClassifier.max_retries r = 2)
      \/ (ErrorClassifier.category r = ErrorClassifier.RETRYABLE_STALE_ELEMENT
          /\ ErrorClassifier.should_retry r = true
          /\ ErrorClassifier.retry_delay r = (1 # 2)%Q /\ ErrorClassifier.max_retries r = 2)
      \/ (In (ErrorClassifier.category r)
             [ ErrorClassifier.PERMANENT_INVALID_INPUT; ErrorClassifier.PERMANENT_NOT_FOUND;
               ErrorClassifier.PERMANENT_ACCESS_DENIED; ErrorClassifier.PERMANENT_CONFIGURATION;
               ErrorClassifier.UNKNOWN ]
          /\ ErrorClassifier.should_retry r = false
          /\ ErrorClassifier.retry_delay r = 0%Q /\ ErrorClassifier.max_retries r = 0)).
Proof.
  cbv zeta. unfold ErrorClassifier.classify_error.
  repeat match goal with
         | |- context [match ErrorClassifier.first_match ?p ?s with _ => _ end] =>
             destruct (ErrorClassifier.first_match p s)
         end;
    try destruct (ErrorClassifier.is_TimeoutError error);
    (split; [cbn; discriminate|]); cbn; tauto.
Qed.

(** X1. Whatever the error, [classify_error] recommends a retry exactly for
    the categories whose value is named [retryable_...]; each retryable
    category comes with its own fixed base delay and retry limit (network
    2.0s and 3, timing 3.0s and 2, resource 5.0s and 2, stale element 0.5s
    and 2), every other category with delay 0.0 and limit 0; and the user
    message is never empty. *)
Theorem classification_parameters_follow_category
    (error : ErrorClassifier.PyError) (action_name : string)
    (context : option (gmap string string)) :
  let r := ErrorClassifier.classify_error error action_name context in
  ErrorClassifier.should_retry r
  = String.prefix "retryable_" (ErrorCategoryValue.value (ErrorClassifier.category r))
  /\ (ErrorClassifier.retry_delay r, ErrorClassifier.max_retries r)
     = match ErrorClassifier.category r with
       | ErrorClassifier.RETRYABLE_NETWORK => (2%Q, 3)
       | ErrorClassifier.RETRYABLE_TIMING => (3%Q, 2)
       | ErrorClassifier.RETRYABLE_RESOURCE => (5%Q, 2)
       | ErrorClassifier.RETRYABLE_STALE_ELEMENT => ((1 # 2)%Q, 2)
       | _ => (0%Q, 0)
       end
  /\ ErrorClassifier.user_message r <> EmptyString.
Proof.
  intros r. destruct (classify_error_parameters error action_name context) as [Hmsg Hcases].
  fold r in Hmsg, Hcases. split; [|split; [|exact Hmsg]].
  - destruct Hcases as [H|[H|[H|[H|H]]]]; destruct H as (Hc & -> & _);
      [rewrite Hc; reflexivity..|].
    simpl in Hc. destruct Hc as [<-|[<-|[<-|[<-|[<-|[]]]]]]; reflexivity.
  - destruct Hcases as [H|[H|[H|[H|H]]]]; destruct H as (Hc & _ & -> & ->);
      [rewrite Hc; reflexivity..|].
    simpl in Hc. destruct Hc as [<-|[<-|[<-|[<-|[<-|[]]]]]]; reflexivity.
Qed.

(** X2. The schedule a classified error gets from [get_retry_strategy], for
    attempt numbers from 0 and a jitter drawn from [0, 1]: no error is
    retried at attempt 3 or later; a refusal always comes with delay 0.0; and
    a granted retry waits between 0.5 and 8.5 seconds, so the cap of 30
    seconds is never reached for a classification [classify_error] made. *)
Theorem classified_retry_schedule
    (error : ErrorClassifier.PyError) (action_name : string)
    (context : option (gmap string string)) (attempt_number : Z) (jitter : Q) :
  0 <= attempt_number ->
  (0 <= jitter <= 1)%Q ->
  let classification := ErrorClassifier.classify_error error action_name context in
  let strategy := ErrorClassifier.get_retry_strategy classification attempt_number jitter in
  (3 <= attempt_number -> strategy = (false, 0%Q))
  /\ (fst strategy = false -> strategy = (false, 0%Q))
  /\ (fst strategy = true -> (1 # 2 <= snd strategy <= 17 # 2)%Q).
Proof.
  intros Hattempt Hjitter classification strategy.
  destruct (classify_error_parameters error action_name context) as [_ Hcases].
  fold classification in Hcases. subst strategy.
  unfold ErrorClassifier.get_retry_strategy.
  assert (Hmin : forall q : Q, (q <= 30)%Q -> Qmin q 30 = q).
  { intros q Hq. unfold Qmin, GenericMinMax.gmin.
    destruct (q ?= 30)%Q eqn:Hcmp; try reflexivity.
    apply Qgt_alt in Hcmp. lra. }
  destruct Hcases as [H|[H|[H|[H|H]]]]; destruct H as (Hc & -> & -> & ->); cbn [negb];
    try (split; [|split]; [reflexivity.. | discriminate]).
  - destruct (3 <=? attempt_number) eqn:Hle.
    { split; [|split]; [reflexivity.. | discriminate]. }
    apply Z.leb_gt in Hle. rewrite Hc.
    split; [lia|]. split; [discriminate|]. intros _. cbn [snd].
    assert (attempt_number = 0 \/ attempt_number = 1 \/ attempt_number = 2)
      as [-> | [-> | ->]] by lia;
      (rewrite Hmin; [|vm_compute; discriminate]); split; vm_compute; discriminate.
  - destruct (2 <=? attempt_number) eqn:Hle.
    { split; [|split]; [reflexivity.. | discriminate]. }
    apply Z.leb_gt in Hle. rewrite Hc.
    split; [lia|]. split; [discriminate|]. intros _. cbn [snd].
    assert (attempt_number = 0 \/ attempt_number = 1) as [-> | ->] by lia;
      (rewrite Hmin; [|vm_compute; discriminate]); split; vm_compute; discriminate.
  - destruct (2 <=? attempt_number) eqn:Hle.
    { split; [|split]; [reflexivity.. | discriminate]. }
    apply Z.leb_gt in Hle. rewrite Hc.
    split; [lia|]. split; [discriminate|]. intros _. cbn [snd].
    assert (attempt_number = 0 \/ attempt_number = 1) as [-> | ->] by lia.
    + change ((5 * (3 # 2) ^ 0)%Q) with (5 * 1)%Q. rewrite Hmin; lra.
    + change ((5 * (3 # 2) ^ 1)%Q) with (5 * (3 # 2))%Q. rewrite Hmin; lra.
  - destruct (2 <=? attempt_number) eqn:Hle.
    { split; [|split]; [reflexivity.. | discriminate]. }
    apply Z.leb_gt in Hle. rewrite Hc.
    split; [lia|]. split; [discriminate|]. intros _. cbn [snd].
    rewrite Hmin; [|vm_compute; discriminate]. split; vm_compute; discriminate.
Qed.

Lemma classified_retry_schedule_witness :
  let classification :=
    ErrorClassifier.classify_error ErrorSamples.connection_reset "navigate" None in
  let strategy := ErrorClassifier.get_retry_strategy classification 2 (1 # 4) in
  (3 <= 2 -> strategy = (false, 0%Q))
  /\ (fst strategy = false -> strategy = (false, 0%Q))
  /\ (fst strategy = true -> (1 # 2 <= snd strategy <= 17 # 2)%Q).
Proof.
  apply (classified_retry_schedule ErrorSamples.connection_reset "navigate" None 2 (1 # 4)).
  - lia.
  - split; vm_compute; discriminate.
Defined.

(** A pattern that is one literal is found where the literal is a substring. *)
Lemma search_literal (lit s : string) : Regex.search [lit] s = PyStr.contains lit s.
Proof.
  assert (Hhere : forall lit s, Regex.match_here [lit] s = String.prefix lit s).
  { clear. intros lit. induction lit as [|a lit IH]; intros s.
    - destruct s; reflexivity.
    - destruct s as [|b s]; [reflexivity|].
      specialize (IH s). cbn in IH |- *.
      destruct (Ascii.eqb_spec a b) as [->|Hne].
      + destruct (ascii_dec b b) as [_|Hbb]; [exact IH|congruence].
      + destruct (ascii_dec a b) as [Hab|_]; [congruence|reflexivity]. }
  unfold Regex.search, PyStr.contains.
  induction s as [|c s IH].
  - rewrite Hhere. reflexivity.
  - rewrite Hhere, IH. reflexivity.
Qed.

(** X3. The two literal patterns at the head of the tables. An error whose
    text contains "net::err_", in any letter case, is always a retryable
    network error (base delay 2.0s, 3 retries). An error whose text contains
    "timeout", in any letter case, is always retryable: a network error when
    a network pattern is found in it too, a timing error otherwise; it is
    never classified as permanent or unknown, whatever else the text says. *)
Theorem literal_patterns_decide
    (error : ErrorClassifier.PyError) (action_name : string)
    (context : option (gmap string string)) :
  let error_str := PyStr.lower (ErrorClassifier.error_text error) in
  let r := ErrorClassifier.classify_error error action_name context in
  (PyStr.contains "net::err_" error_str = true ->
     ErrorClassifier.category r = ErrorClassifier.RETRYABLE_NETWORK
     /\ ErrorClassifier.user_message r = "Network issue: Network error. Retrying..."
     /\ ErrorClassifier.technical_details r = error_str)
  /\ (PyStr.contains "timeout" error_str = true ->
      ErrorClassifier.should_retry r = true
      /\ ErrorClassifier.technical_details r = error_str
      /\ match ErrorClassifier.first_match ErrorClassifier.network_patterns error_str with
         | Some _ => ErrorClassifier.category r = ErrorClassifier.RETRYABLE_NETWORK
         | None =>
             ErrorClassifier.category r = ErrorClassifier.RETRYABLE_TIMING
             /\ ErrorClassifier.user_message r
                = "Timing issue: Operation timed out. Retrying with longer timeout..."
         end).
Proof.
  intros error_str r.
  assert (Hdetails : forall s : string, ErrorClassifier.str_or s "" = s).
  { intros [|c s]; reflexivity. }
  split.
  - intros Hnet. subst r. unfold ErrorClassifier.classify_error. fold error_str.
    unfold ErrorClassifier.network_patterns. cbn [ErrorClassifier.first_match].
    rewrite search_literal, Hnet. cbn. rewrite Hdetails. auto.
  - intros Htimeout. subst r. unfold ErrorClassifier.classify_error. fold error_str.
    destruct (ErrorClassifier.first_match ErrorClassifier.network_patterns error_str).
    + cbn. rewrite Hdetails. auto.
    + unfold ErrorClassifier.timing_patterns. cbn [ErrorClassifier.first_match].
      rewrite search_literal, Htimeout. cbn. rewrite Hdetails. auto.
Qed.

(** ** Substrings *)

Lemma append_assoc (a b c : string) : (a +:+ b) +:+ c = a +:+ (b +:+ c).
Proof.
  induction a as [|x a IH]; [reflexivity|].
  change (String x ((a +:+ b) +:+ c) = String x (a +:+ (b +:+ c))). rewrite IH. reflexivity.
Qed.

Lemma append_cons (x : ascii) (a b : string) : String x a +:+ b = String x (a +:+ b).
Proof. reflexivity. Qed.

Lemma prefix_spec (a s : string) : String.prefix a s = true <-> exists q, s = a +:+ q.
Proof.
  revert s. induction a as [|x a IH]; intros s.
  - split; [intros _; exists s; reflexivity|]. intros _. destruct s; reflexivity.
  - destruct s as [|y s]; cbn.
    + split; [discriminate|]. intros (q & Hq). discriminate.
    + destruct (ascii_dec x y) as [->|Hne].
      * rewrite IH. split; intros (q & Hq); exists q; rewrite append_cons in *; congruence.
      * split; [discriminate|]. intros (q & Hq). rewrite append_cons in Hq. congruence.
Qed.

(** [needle in hay] holds exactly when [hay] is [needle] between two strings. *)
Lemma contains_spec (needle hay : string) :
  PyStr.contains needle hay = true <-> exists p q, hay = p +:+ needle +:+ q.
Proof.
  induction hay as [|c hay IH]; unfold PyStr.contains; fold PyStr.contains.
  - rewrite orb_false_r, prefix_spec. split.
    + intros (q & ->). exists EmptyString, q. reflexivity.
    + intros ([|x p] & q & Hq); [exists q; exact Hq|discriminate].
  - rewrite orb_true_iff, prefix_spec, IH. split.
    + intros [(q & ->)|(p & q & ->)].
      * exists EmptyString, q. reflexivity.
      * exists (String c p), q. reflexivity.
    + intros ([|x p] & q & Hq).
      * left. exists q. exact Hq.
      * right. exists p, q. change (String c hay = String x (p +:+ needle +:+ q)) in Hq.
        congruence.
Qed.

Lemma contains_trans (a b s : string) :
  PyStr.contains a b = true -> PyStr.contains b s = true -> PyStr.contains a s = true.
Proof.
  rewrite !contains_spec. intros (p1 & q1 & ->) (p2 & q2 & ->).
  exists (p2 +:+ p1), (q1 +:+ q2). rewrite !append_assoc. reflexivity.
Qed.

Lemma contains_empty (s : string) : PyStr.contains "" s = true.
Proof. apply contains_spec. exists EmptyString, s. reflexivity. Qed.

Lemma contains_refl (s : string) : PyStr.contains s s = true.
Proof.
  apply contains_spec. exists EmptyString, EmptyString.
  change (s = s +:+ EmptyString).
  induction s as [|c s IH]; [reflexivity|].
  change (String c s = String c (s +:+ EmptyString)). congruence.
Qed.

(** ** Network reliability watchdog: ledger and retries *)

(** One handled failure, written out. *)
Lemma handle_network_error_spec (env : NetworkReliability.Env)
    (url error_message target_id : string) (w : NetworkReliability.World) :
  let failure_count := default 0 (NetworkReliability._network_failure_count w !! url) + 1 in
  let w1 :=
    NetworkReliability.set_last_failure <[url := NetworkReliability.time env]>
      (NetworkReliability.set_failure_count <[url := failure_count]> w) in
  NetworkReliability._handle_network_error env url error_message target_id w
  = (Returns tt,
     match NetworkReliability._calculate_retry_strategy url error_message failure_count
             (NetworkReliability.jitter env) with
     | (true, retry_delay) =>
         let w2 := NetworkReliability.record (NetworkReliability.Sleep retry_delay) w1 in
         match NetworkReliability.get_or_create_cdp_session env with
         | Exc _ => w2
         | Ok _ =>
             let w3 := NetworkReliability.record NetworkReliability.EvaluateLocationHref w2 in
             match NetworkReliability.location_href env with
             | Exc _ => w3
             | Ok current_url_result =>
                 let current_url := default "" current_url_result in
                 if PyStr.eqb current_url url || PyStr.eqb current_url "about:blank"
                 then NetworkReliability.record
                        (NetworkReliability.PageReload (Some true)) w3
                 else NetworkReliability.record
                        (NetworkReliability.DispatchNavigateToUrl url target_id) w3
             end
         end
     | (false, _) => w1
     end).
Proof.
  cbv zeta. unfold NetworkReliability._handle_network_error.
  unfold NetworkReliability.call, try_except, modify, external, get_world,
    mbind, M_bind, mret, M_ret. cbn.
  destruct (NetworkReliability._calculate_retry_strategy _ _ _ _) as [[] retry_delay];
    [|reflexivity].
  cbn. destruct (NetworkReliability.get_or_create_cdp_session env) as [[]|e]; cbn;
    [|reflexivity].
  destruct (NetworkReliability.location_href env) as [href|e]; cbn; [|reflexivity].
  destruct (_ || _); cbn.
  - destruct (NetworkReliability.reload env) as [[]|e]; reflexivity.
  - destruct (NetworkReliability.dispatch_navigate env) as [[]|e]; reflexivity.
Qed.




(** X5. A failure that is not retried is recorded all the same. When the
    message carries a permanent marker, or the URL has failed twice or more
    already, handling the failure sets the URL's count to one more and its
    timestamp to the current time, and does nothing else: no sleep, no
    reload, no navigation. The count is not capped. *)
Theorem network_failure_recorded_without_retry
    (env : NetworkReliability.Env) (url error_message target_id : string)
    (w : NetworkReliability.World) :
  let failures_before := default 0 (NetworkReliability.failures w url) in
  let w' := snd (NetworkReliability._handle_network_error env url error_message target_id w) in
  PyStr.any_in NetworkReliability.permanent_errors (PyStr.lower error_message) = true
  \/ 2 <= failures_before ->
  NetworkReliability.effects w' = NetworkReliability.effects w
  /\ NetworkReliability._network_failure_count w'
     = <[url := failures_before + 1]> (NetworkReliability._network_failure_count w)
  /\ NetworkReliability._last_network_failure w'
     = <[url := NetworkReliability.time env]> (NetworkReliability._last_network_failure w).
Proof.
  intros failures_before w' Hrefused.
  subst w'. rewrite handle_network_error_spec. cbv zeta.
  unfold NetworkReliability.failures in failures_before. fold failures_before.
  unfold NetworkReliability._calculate_retry_strategy.
  destruct (PyStr.any_in _ _) eqn:Hperm; [cbn; auto|].
  destruct Hrefused as [Hp|Hcount]; [discriminate|].
  destruct (3 <=? failures_before + 1) eqn:Hle; [cbn; auto|].
  apply Z.leb_gt in Hle. lia.
Qed.

Lemma network_failure_recorded_without_retry_witness :
  let w' := snd (NetworkReliability._handle_network_error (NetworkSamples.env_at 20)
                   NetworkSamples.url "net::ERR_CONNECTION_RESET" "T1"
                   NetworkSamples.after_two_failures) in
  NetworkReliability.effects w' = NetworkReliability.effects NetworkSamples.after_two_failures
  /\ NetworkReliability._network_failure_count w'
     = <[NetworkSamples.url :=
           default 0 (NetworkReliability.failures NetworkSamples.after_two_failures
                        NetworkSamples.url) + 1]>
         (NetworkReliability._network_failure_count NetworkSamples.after_two_failures)
  /\ NetworkReliability._last_network_failure w'
     = <[NetworkSamples.url := NetworkReliability.time (NetworkSamples.env_at 20)]>
         (NetworkReliability._last_network_failure NetworkSamples.after_two_failures).
Proof.
  apply (network_failure_recorded_without_retry (NetworkSamples.env_at 20)
           NetworkSamples.url "net::ERR_CONNECTION_RESET" "T1"
           NetworkSamples.after_two_failures).
  right. vm_compute. discriminate.
Defined.

(** One failure with a message free of permanent markers: the count goes up
    by one, and a retry is attempted exactly when it is the first or the
    second failure in a row. *)
Lemma handle_network_error_streak_step (env : NetworkReliability.Env)
    (url error_message target_id : string) (w : NetworkReliability.World) :
  PyStr.any_in NetworkReliability.permanent_errors (PyStr.lower error_message) = false ->
  let failures_before := default 0 (NetworkReliability.failures w url) in
  let w' := snd (NetworkReliability._handle_network_error env url error_message target_id w) in
  NetworkReliability.failures w' url = Some (failures_before + 1)
  /\ NetworkHealth.retries_attempted w'
     = (NetworkHealth.retries_attempted w + if (failures_before <? 2)%Z then 1 else 0)%nat.
Proof.
  intros Hperm failures_before w'.
  subst w'. rewrite handle_network_error_spec. cbv zeta.
  unfold NetworkReliability.failures in *. fold failures_before.
  unfold NetworkReliability._calculate_retry_strategy. rewrite Hperm.
  destruct (3 <=? failures_before + 1) eqn:Hle.
  - apply Z.leb_le in Hle. destruct (failures_before <? 2) eqn:Hlt;
      [apply Z.ltb_lt in Hlt; lia|].
    cbn. rewrite lookup_insert_eq. split; [reflexivity|].
    unfold NetworkHealth.retries_attempted. cbn. lia.
  - apply Z.leb_gt in Hle. destruct (failures_before <? 2) eqn:Hlt;
      [|apply Z.ltb_ge in Hlt; lia].
    cbv zeta.
    destruct (NetworkReliability.get_or_create_cdp_session env) as [[]|e];
      [destruct (NetworkReliability.location_href env) as [href|e];
       [destruct (_ || _)|]|];
      cbn; rewrite lookup_insert_eq; (split; [reflexivity|]);
      unfold NetworkHealth.retries_attempted; cbn;
      rewrite !List.filter_app, !length_app; cbn; lia.
Qed.

(** X6. A streak of failures of one URL, each with a message free of
    permanent markers and with no success or expiry in between: after [n]
    more failures the URL's count is [n] higher, without bound, and only
    the failures that leave the count at 1 or 2 attempt a retry; from the
    third failure of the streak on the watchdog only counts. *)
Theorem network_failure_streak
    (envs : list NetworkReliability.Env) (url error_message target_id : string)
    (w : NetworkReliability.World) :
  let failures_before := default 0 (NetworkReliability.failures w url) in
  let w' := NetworkHealth.fail_repeatedly envs url error_message target_id w in
  PyStr.any_in NetworkReliability.permanent_errors (PyStr.lower error_message) = false ->
  0 <= failures_before ->
  default 0 (NetworkReliability.failures w' url) = failures_before + Z.of_nat (length envs)
  /\ NetworkHealth.retries_attempted w'
     = (NetworkHealth.retries_attempted w
        + Nat.min (length envs) (Z.to_nat (2 - failures_before)))%nat.
Proof.
  cbv zeta. intros Hperm. revert w.
  induction envs as [|env envs IH]; intros w Hbefore.
  - cbn [NetworkHealth.fail_repeatedly length Nat.min Z.of_nat]. split; lia.
  - cbn [NetworkHealth.fail_repeatedly length].
    destruct (handle_network_error_streak_step env url error_message target_id w Hperm)
      as [Hcount Hretries].
    set (w1 := snd (NetworkReliability._handle_network_error env url error_message
                      target_id w)) in *.
    destruct (IH w1) as [IHcount IHretries].
    { rewrite Hcount. cbn. lia. }
    rewrite IHcount, IHretries, Hretries, Hcount. cbn [default from_option id].
    split; [lia|].
    destruct (default 0 (NetworkReliability.failures w url) <? 2) eqn:Hlt.
    + apply Z.ltb_lt in Hlt. lia.
    + apply Z.ltb_ge in Hlt.
      lia.
Qed.

Lemma network_failure_streak_witness :
  let env := NetworkSamples.env_at 0 in
  let w' := NetworkHealth.fail_repeatedly [env; env; env; env] NetworkSamples.url
              "net::ERR_CONNECTION_RESET" "T1" NetworkSamples.initial in
  default 0 (NetworkReliability.failures w' NetworkSamples.url)
  = default 0 (NetworkReliability.failures NetworkSamples.initial NetworkSamples.url)
    + Z.of_nat (length [env; env; env; env])
  /\ NetworkHealth.retries_attempted w'
     = (NetworkHealth.retries_attempted NetworkSamples.initial
        + Nat.min (length [env; env; env; env])
            (Z.to_nat (2 - default 0%Z (NetworkReliability.failures NetworkSamples.initial
                                          NetworkSamples.url))))%nat.
Proof.
  apply (network_failure_streak
           [NetworkSamples.env_at 0; NetworkSamples.env_at 0; NetworkSamples.env_at 0;
            NetworkSamples.env_at 0]
           NetworkSamples.url "net::ERR_CONNECTION_RESET" "T1" NetworkSamples.initial).
  - vm_compute. reflexivity.
  - vm_compute. discriminate.
Defined.

Lemma network_world_eq (w1 w2 : NetworkReliability.World) :
  NetworkReliability._network_failure_count w1 = NetworkReliability._network_failure_count w2 ->
  NetworkReliability._last_network_failure w1 = NetworkReliability._last_network_failure w2 ->
  NetworkReliability.effects w1 = NetworkReliability.effects w2 ->
  w1 = w2.
Proof. destruct w1, w2. cbn. intros -> -> ->. reflexivity. Qed.

(** X7. The sweep at a navigation start: every entry it leaves is at most
    300 seconds old and is as it was before; the URL that is starting plays
    no part; and sweeping again at the same time changes nothing. *)
Theorem navigation_start_sweep_is_idempotent
    (env : NetworkReliability.Env)
    (event1 event2 : NetworkReliability.NavigationStartedEvent)
    (w : NetworkReliability.World) :
  let swept := snd (NetworkReliability.on_NavigationStartedEvent env event1 w) in
  (forall url last_failure,
      NetworkReliability._last_network_failure swept !! url = Some last_failure ->
      (NetworkReliability.time env - last_failure <= 300)%Q
      /\ NetworkReliability._last_network_failure w !! url = Some last_failure
      /\ NetworkReliability._network_failure_count swept !! url
         = NetworkReliability._network_failure_count w !! url)
  /\ snd (NetworkReliability.on_NavigationStartedEvent env event2 w) = swept
  /\ snd (NetworkReliability.on_NavigationStartedEvent env event2 swept) = swept.
Proof.
  intros swept.
  assert (Hkept : forall url last_failure,
             NetworkReliability._last_network_failure swept !! url = Some last_failure ->
             (NetworkReliability.time env - last_failure <= 300)%Q
             /\ NetworkReliability._last_network_failure w !! url = Some last_failure
             /\ NetworkReliability._network_failure_count swept !! url
                = NetworkReliability._network_failure_count w !! url).
  { intros url last_failure Hlast. subst swept.
    destruct (navigation_started_sweep env event1 w url) as (w' & Hrun & Hcount & Hl & _).
    rewrite Hrun in Hlast |- *. cbn [snd] in *. rewrite Hl in Hlast. rewrite Hcount.
    destruct (NetworkReliability._last_network_failure w !! url) as [t|]; [|discriminate].
    destruct (Qgtb (NetworkReliability.time env - t) 300) eqn:Hexp; [discriminate|].
    injection Hlast as <-. apply Qgtb_le in Hexp. auto. }
  split; [exact Hkept|]. split.
  - reflexivity.
  - set (w2 := snd (NetworkReliability.on_NavigationStartedEvent env event2 swept)).
    assert (Hsweep : forall url,
               NetworkReliability._network_failure_count w2 !! url
               = NetworkReliability._network_failure_count swept !! url
               /\ NetworkReliability._last_network_failure w2 !! url
                  = NetworkReliability._last_network_failure swept !! url
               /\ NetworkReliability.effects w2 = NetworkReliability.effects swept).
    { intros url. subst w2.
      destruct (navigation_started_sweep env event2 swept url) as (w' & -> & Hc & Hl & He).
      cbn [snd]. rewrite Hc, Hl, He.
      destruct (NetworkReliability._last_network_failure swept !! url) as [t|] eqn:Hlast;
        [|auto].
      destruct (Hkept url t Hlast) as (Hage & _).
      apply Qgtb_le in Hage. rewrite Hage. auto. }
    apply network_world_eq.
    + apply map_eq. intros url. apply (Hsweep url).
    + apply map_eq. intros url. apply (Hsweep url).
    + apply (Hsweep "").
Qed.

Lemma handle_network_error_ledger (env : NetworkReliability.Env)
    (url error_message target_id : string) (w : NetworkReliability.World) :
  let w' := snd (NetworkReliability._handle_network_error env url error_message target_id w) in
  NetworkReliability._network_failure_count w'
  = <[url := default 0 (NetworkReliability._network_failure_count w !! url) + 1]>
      (NetworkReliability._network_failure_count w)
  /\ NetworkReliability._last_network_failure w'
     = <[url := NetworkReliability.time env]> (NetworkReliability._last_network_failure w).
Proof.
  cbv zeta. rewrite handle_network_error_spec. cbv zeta.
  destruct (NetworkReliability._calculate_retry_strategy _ _ _ _) as [[] retry_delay];
    [|cbn; auto].
  destruct (NetworkReliability.get_or_create_cdp_session env) as [[]|e]; [|cbn; auto].
  destruct (NetworkReliability.location_href env) as [href|e]; [|cbn; auto].
  destruct (_ || _); cbn; auto.
Qed.

(** X8. The two dictionaries of the failure ledger, counts and timestamps,
    always have the same URLs as keys: both handlers keep it so, whatever
    the event, the time and the answers of the browser session. *)
Theorem network_ledger_stays_consistent
    (env : NetworkReliability.Env) (w : NetworkReliability.World) :
  NetworkHealth.ledger_consistent w ->
  (forall event,
      NetworkHealth.ledger_consistent
        (snd (NetworkReliability.on_NavigationStartedEvent env event w)))
  /\ (forall event,
        NetworkHealth.ledger_consistent
          (snd (NetworkReliability.on_NavigationCompleteEvent env event w))).
Proof.
  unfold NetworkHealth.ledger_consistent. intros Hdom. split; intros event.
  - apply set_eq. intros url. rewrite !elem_of_dom.
    destruct (navigation_started_sweep env event w url) as (w' & Hrun & Hc & Hl & _).
    rewrite Hrun. cbn [snd]. rewrite Hc, Hl.
    assert (Hw : is_Some (NetworkReliability._network_failure_count w !! url)
                 <-> is_Some (NetworkReliability._last_network_failure w !! url)).
    { rewrite <- !elem_of_dom, Hdom. reflexivity. }
    destruct (NetworkReliability._last_network_failure w !! url) as [t|]; [|exact Hw].
    destruct (Qgtb _ _); [|exact Hw].
    split; intros [? ?]; discriminate.
  - unfold NetworkReliability.on_NavigationCompleteEvent.
    assert (Hforget :
              dom (NetworkReliability._network_failure_count
                     (NetworkReliability.forget (NetworkReliability.complete_url event) w))
              = dom (NetworkReliability._last_network_failure
                       (NetworkReliability.forget (NetworkReliability.complete_url event) w))).
    { cbn. rewrite !dom_delete_L, Hdom. reflexivity. }
    destruct (NetworkReliability.error_message event) as [[|c message]|];
      [exact Hforget| |exact Hforget].
    destruct (PyStr.any_in _ _); [|exact Hdom].
    destruct (handle_network_error_ledger env (NetworkReliability.complete_url event)
                (String c message) (NetworkReliability.complete_target_id event) w)
      as [-> ->].
    rewrite !dom_insert_L, Hdom. reflexivity.
Qed.

Lemma network_ledger_stays_consistent_witness :
  (forall event,
      NetworkHealth.ledger_consistent
        (snd (NetworkReliability.on_NavigationStartedEvent (NetworkSamples.env_at 311) event
                NetworkSamples.after_two_failures)))
  /\ (forall event,
        NetworkHealth.ledger_consistent
          (snd (NetworkReliability.on_NavigationCompleteEvent (NetworkSamples.env_at 311) event
                  NetworkSamples.after_two_failures))).
Proof.
  apply (network_ledger_stays_consistent (NetworkSamples.env_at 311)
           NetworkSamples.after_two_failures).
  vm_compute. reflexivity.
Defined.

(** X9. The connection check never raises and leaves the ledger and the
    record of calls as they are; it reports a healthy connection only when
    the session is obtained and the page answers that it is on line: a
    failure of either call, a reply without a value and the answer "off
    line" all give [False]. *)
Theorem connection_health_check
    (env : NetworkReliability.Env) (navigator_onLine : Res (option bool))
    (w : NetworkReliability.World) :
  exists healthy : bool,
    NetworkHealth._check_connection_health env navigator_onLine w = (Returns healthy, w)
    /\ (healthy = true
        <-> NetworkReliability.get_or_create_cdp_session env = Ok tt
            /\ navigator_onLine = Ok (Some true)).
Proof.
  unfold NetworkHealth._check_connection_health, try_except, external,
    mbind, M_bind, mret, M_ret.
  destruct (NetworkReliability.get_or_create_cdp_session env) as [[]|e]; cbn.
  - destruct navigator_onLine as [[[]|]|e]; cbn; eexists; (split; [reflexivity|]);
      split; try discriminate; try tauto; intros [_ H]; discriminate.
  - eexists. split; [reflexivity|]. split; [discriminate|]. intros [H _]. discriminate.
Qed.

(** Every permanent marker contains a network keyword. *)
Lemma permanent_errors_are_network_errors (error_lower : string) :
  PyStr.any_in NetworkReliability.permanent_errors error_lower = true ->
  PyStr.any_in NetworkReliability.network_keywords error_lower = true.
Proof.
  rewrite !any_in_spec. intros (marker & Hin & Hcontains).
  assert (exists keyword, In keyword NetworkReliability.network_keywords
                          /\ PyStr.contains keyword marker = true) as (keyword & Hk & Hkm).
  { cbn in Hin. destruct Hin as [<-|[<-|[<-|[<-|[]]]]].
    - exists "name_not_resolved". split; [cbn; tauto|vm_compute; reflexivity].
    - exists "dns_probe_finished". split; [cbn; tauto|vm_compute; reflexivity].
    - exists "cert_". split; [cbn; tauto|vm_compute; reflexivity].
    - exists "cert_". split; [cbn; tauto|vm_compute; reflexivity]. }
  exists keyword. split; [exact Hk|]. exact (contains_trans _ _ _ Hkm Hcontains).
Qed.

(** X10. A navigation that completes with an error message carrying one of
    the permanent markers ("name_not_resolved", "dns_probe_finished_nxdomain",
    "cert_authority_invalid", "cert_common_name_invalid", in any letter
    case) is always recognised as a network error, since every permanent
    marker contains a network keyword: the failure is counted against the
    URL and time-stamped, and nothing is retried, slept or dispatched. *)
Theorem permanent_errors_are_counted_not_retried
    (env : NetworkReliability.Env) (event : NetworkReliability.NavigationCompleteEvent)
    (message : string) (w : NetworkReliability.World) :
  NetworkReliability.error_message event = Some message ->
  PyStr.any_in NetworkReliability.permanent_errors (PyStr.lower message) = true ->
  let url := NetworkReliability.complete_url event in
  let r := NetworkReliability.on_NavigationCompleteEvent env event w in
  fst r = Returns tt
  /\ NetworkReliability.effects (snd r) = NetworkReliability.effects w
  /\ NetworkReliability.failures (snd r) url
     = Some (default 0 (NetworkReliability.failures w url) + 1)
  /\ NetworkReliability._last_network_failure (snd r) !! url
     = Some (NetworkReliability.time env).
Proof.
  intros Hmessage Hperm url r. subst r.
  unfold NetworkReliability.on_NavigationCompleteEvent. rewrite Hmessage.
  destruct message as [|c message].
  { exfalso. apply any_in_spec in Hperm as (marker & Hin & Hcontains).
    cbn in Hin. destruct Hin as [<-|[<-|[<-|[<-|[]]]]]; vm_compute in Hcontains;
      discriminate. }
  rewrite (permanent_errors_are_network_errors _ Hperm).
  fold url. rewrite handle_network_error_spec. cbv zeta.
  unfold NetworkReliability._calculate_retry_strategy. rewrite Hperm.
  cbn. unfold NetworkReliability.failures. cbn. rewrite !lookup_insert_eq. auto.
Qed.

Lemma permanent_errors_are_counted_not_retried_witness :
  let event := {| NetworkReliability.complete_url := NetworkSamples.url;
                  NetworkReliability.complete_target_id := "T1";
                  NetworkReliability.error_message :=
                    Some "net::ERR_CERT_AUTHORITY_INVALID" |} in
  let r := NetworkReliability.on_NavigationCompleteEvent (NetworkSamples.env_at 5) event
             NetworkSamples.initial in
  fst r = Returns tt
  /\ NetworkReliability.effects (snd r) = NetworkReliability.effects NetworkSamples.initial
  /\ NetworkReliability.failures (snd r) NetworkSamples.url
     = Some (default 0 (NetworkReliability.failures NetworkSamples.initial NetworkSamples.url)
             + 1)
  /\ NetworkReliability._last_network_failure (snd r) !! NetworkSamples.url
     = Some (NetworkReliability.time (NetworkSamples.env_at 5)).
Proof.
  apply (permanent_errors_are_counted_not_retried (NetworkSamples.env_at 5)
           {| NetworkReliability.complete_url := NetworkSamples.url;
              NetworkReliability.complete_target_id := "T1";
              NetworkReliability.error_message := Some "net::ERR_CERT_AUTHORITY_INVALID" |}
           "net::ERR_CERT_AUTHORITY_INVALID" NetworkSamples.initial).
  - reflexivity.
  - vm_compute. reflexivity.
Defined.

(** X11. What a completed navigation does to the ledger when it is not a
    network failure. Without an error message (none, or an empty one) the
    count and the timestamp of the event's URL are dropped, and those of
    every other URL are kept; with an error message that contains none of
    the network keywords nothing at all is changed. In both cases no call
    is made. *)
Theorem navigation_complete_without_network_error
    (env : NetworkReliability.Env) (event : NetworkReliability.NavigationCompleteEvent)
    (w : NetworkReliability.World) :
  let url := NetworkReliability.complete_url event in
  let w' := snd (NetworkReliability.on_NavigationCompleteEvent env event w) in
  (NetworkReliability.error_message event = None
   \/ NetworkReliability.error_message event = Some EmptyString ->
     NetworkReliability.effects w' = NetworkReliability.effects w
     /\ NetworkReliability.failures w' url = None
     /\ NetworkReliability._last_network_failure w' !! url = None
     /\ forall other, other <> url ->
          NetworkReliability.failures w' other = NetworkReliability.failures w other
          /\ NetworkReliability._last_network_failure w' !! other
             = NetworkReliability._last_network_failure w !! other)
  /\ (forall message,
        NetworkReliability.error_message event = Some message ->
        message <> EmptyString ->
        PyStr.any_in NetworkReliability.network_keywords (PyStr.lower message) = false ->
        w' = w).
Proof.
  intros url w'. subst w'. unfold NetworkReliability.on_NavigationCompleteEvent.
  fold url. split.
  - intros [Hnone|Hnone]; rewrite Hnone; cbn; unfold NetworkReliability.failures; cbn;
      rewrite !lookup_delete_eq; (repeat split; try reflexivity);
      apply lookup_delete_ne; congruence.
  - intros message -> Hne Hkw. destruct message as [|c message]; [congruence|].
    rewrite Hkw. reflexivity.
Qed.

(** ** Element staleness watchdog: keys, rebuilds and lookups *)

Lemma contains_underscore_cons (c : ascii) (s : string) :
  PyStr.contains "_" (String c s) = Ascii.eqb "_" c || PyStr.contains "_" s.
Proof.
  unfold PyStr.contains at 1. fold PyStr.contains. cbn [String.prefix].
  destruct (ascii_dec "_" c) as [<-|Hne].
  - destruct s; reflexivity.
  - apply Ascii.eqb_neq in Hne. rewrite Hne. reflexivity.
Qed.

(** A string is cut in one way only at an underscore that is its last one. *)
Lemma split_at_last_underscore (a a' t t' : string) :
  PyStr.contains "_" t = false -> PyStr.contains "_" t' = false ->
  a +:+ "_" +:+ t = a' +:+ "_" +:+ t' -> a = a' /\ t = t'.
Proof.
  intros Ht Ht'. revert a'. induction a as [|c a IH]; intros [|c' a'] Heq.
  - change (String "_" t = String "_" t') in Heq. split; congruence.
  - change (String "_" t = String c' (a' +:+ "_" +:+ t')) in Heq.
    injection Heq as _ ->. exfalso.
    assert (PyStr.contains "_" (a' +:+ "_" +:+ t') = true) by (apply contains_spec; eauto).
    congruence.
  - change (String c (a +:+ "_" +:+ t) = String "_" t') in Heq.
    injection Heq as _ <-. exfalso.
    assert (PyStr.contains "_" (a +:+ "_" +:+ t) = true) by (apply contains_spec; eauto).
    congruence.
  - change (String c (a +:+ "_" +:+ t) = String c' (a' +:+ "_" +:+ t')) in Heq.
    injection Heq as -> Heq. destruct (IH a' Heq) as [-> ->]. auto.
Qed.

(** A string is cut in one way only at an underscore that is its first one. *)
Lemma split_at_first_underscore (a a' t t' : string) :
  PyStr.contains "_" a = false -> PyStr.contains "_" a' = false ->
  a +:+ "_" +:+ t = a' +:+ "_" +:+ t' -> a = a' /\ t = t'.
Proof.
  revert a'. induction a as [|c a IH]; intros [|c' a'] Ha Ha' Heq.
  - change (String "_" t = String "_" t') in Heq. split; congruence.
  - change (String "_" t = String c' (a' +:+ "_" +:+ t')) in Heq.
    injection Heq as <- _. rewrite contains_underscore_cons in Ha'. discriminate.
  - change (String c (a +:+ "_" +:+ t) = String "_" t') in Heq.
    injection Heq as -> _. rewrite contains_underscore_cons in Ha. discriminate.
  - change (String c (a +:+ "_" +:+ t) = String c' (a' +:+ "_" +:+ t')) in Heq.
    injection Heq as -> Heq.
    rewrite contains_underscore_cons in Ha, Ha'.
    apply orb_false_elim in Ha as [_ Ha]. apply orb_false_elim in Ha' as [_ Ha'].
    destruct (IH a' Ha Ha' Heq) as [-> ->]. auto.
Qed.

(** The decimal notation of an integer has no underscore. *)
Lemma pretty_N_go_no_underscore (x : N) (s : string) :
  PyStr.contains "_" s = false -> PyStr.contains "_" (pretty_N_go x s) = false.
Proof.
  revert s. induction (N.lt_wf_0 x) as [x _ IH]; intros s Hs.
  assert (x = 0 \/ 0 < x)%N as [->|Hpos] by lia.
  - rewrite pretty_N_go_0. exact Hs.
  - rewrite pretty_N_go_step by exact Hpos. apply IH.
    + apply N.div_lt; [exact Hpos|reflexivity].
    + rewrite contains_underscore_cons, Hs.
      unfold pretty_N_char. repeat case_match; reflexivity.
Qed.

Lemma pretty_Z_no_underscore (z : Z) : PyStr.contains "_" (pretty z) = false.
Proof.
  assert (HN : forall p : positive, PyStr.contains "_" (pretty p) = false).
  { intros p. unfold pretty, pretty_positive, pretty, pretty_N.
    destruct (decide (N.pos p = 0%N)); [discriminate|].
    apply pretty_N_go_no_underscore. reflexivity. }
  destruct z as [|p|p]; unfold pretty, pretty_Z.
  - reflexivity.
  - apply HN.
  - change ("-" +:+ pretty p) with (String "-" (pretty p)).
    rewrite contains_underscore_cons. apply HN.
Qed.

(** X12. The key under which retries are counted identifies the action and
    the element: two elements have the same element key exactly when they
    have the same target id, element index and node id, and two of the
    four actions ("click", "type", "upload", "scroll") on two elements give
    the same retry key only when the action and the three identifiers are
    the same. No two different elements share a retry counter. *)
Theorem retry_keys_identify_action_and_element (node1 node2 : EnhancedDOMTreeNode) :
  (Staleness._get_element_key node1 = Staleness._get_element_key node2
   <-> target_id node1 = target_id node2
       /\ element_index node1 = element_index node2
       /\ node_id node1 = node_id node2)
  /\ (forall action_type1 action_type2 : string,
        In action_type1 ["click"; "type"; "upload"; "scroll"] ->
        In action_type2 ["click"; "type"; "upload"; "scroll"] ->
        action_type1 +:+ "_" +:+ Staleness._get_element_key node1
        = action_type2 +:+ "_" +:+ Staleness._get_element_key node2 ->
        action_type1 = action_type2
        /\ target_id node1 = target_id node2
        /\ element_index node1 = element_index node2
        /\ node_id node1 = node_id node2).
Proof.
  assert (Hkey : Staleness._get_element_key node1 = Staleness._get_element_key node2 ->
                 target_id node1 = target_id node2
                 /\ element_index node1 = element_index node2
                 /\ node_id node1 = node_id node2).
  { unfold Staleness._get_element_key. intros Heq.
    rewrite <- !(append_assoc (target_id _) "_" _) in Heq.
    rewrite <- !(append_assoc (target_id _ +:+ "_") _ _) in Heq.
    rewrite !(append_assoc (target_id _) "_" (pretty _)) in Heq.
    apply split_at_last_underscore in Heq as [Heq Hnode];
      [|apply pretty_Z_no_underscore..].
    apply split_at_last_underscore in Heq as [Htarget Hindex];
      [|apply pretty_Z_no_underscore..].
    apply (inj pretty) in Hnode. apply (inj pretty) in Hindex. auto. }
  split.
  - split; [exact Hkey|].
    intros (Ht & Hi & Hn). unfold Staleness._get_element_key. rewrite Ht, Hi, Hn. reflexivity.
  - intros action_type1 action_type2 H1 H2 Heq.
    apply split_at_first_underscore in Heq as [Haction Heq].
    + split; [exact Haction|]. exact (Hkey Heq).
    + cbn in H1. destruct H1 as [<-|[<-|[<-|[<-|[]]]]]; vm_compute; reflexivity.
    + cbn in H2. destruct H2 as [<-|[<-|[<-|[<-|[]]]]]; vm_compute; reflexivity.
Qed.

(** X13. Rebuilds of the DOM are throttled to one per second, counted from
    the last rebuild that succeeded. Less than a second after it nothing is
    done. Otherwise the cache of the DOM watchdog, when there is one, is
    cleared and then a state request is dispatched; the time of the rebuild
    is recorded only when both went through, so a rebuild that failed is
    not counted against the throttle; when clearing the cache fails the
    state request is not dispatched. The function never raises and leaves
    the retry counters and the event alone. *)
Theorem dom_rebuild_is_throttled (env : Staleness.Env) (w : Staleness.World) :
  let r := Staleness._force_dom_rebuild env w in
  let cleared :=
    match Staleness._dom_watchdog env with
    | Some dom_watchdog => Staleness.clear_cache dom_watchdog
    | None => Ok tt
    end in
  let rebuilt :=
    match cleared, Staleness.state_request env with
    | Ok _, Ok _ => true
    | _, _ => false
    end in
  fst r = Returns tt
  /\ Staleness._retry_counts (snd r) = Staleness._retry_counts w
  /\ Staleness.event (snd r) = Staleness.event w
  /\ ((Staleness.time env - Staleness._last_dom_rebuild w < 1)%Q -> snd r = w)
  /\ ((1 <= Staleness.time env - Staleness._last_dom_rebuild w)%Q ->
      Staleness.effects (snd r)
      = Staleness.effects w
        ++ match Staleness._dom_watchdog env with
           | Some _ => [Staleness.DomClearCache]
           | None => []
           end
        ++ match cleared with
           | Ok _ => [Staleness.DispatchBrowserStateRequest]
           | Exc _ => []
           end
      /\ Staleness._last_dom_rebuild (snd r)
         = if rebuilt then Staleness.time env else Staleness._last_dom_rebuild w).
Proof.
  cbv zeta. unfold Staleness._force_dom_rebuild, Staleness._get_dom_watchdog.
  unfold Staleness.call, try_except, modify, external, get_world, mbind, M_bind, mret, M_ret.
  destruct (Qltb (Staleness.time env - Staleness._last_dom_rebuild w) 1) eqn:Hrecent.
  - apply Qltb_lt in Hrecent. cbn.
    do 3 (split; [reflexivity|]). split; [reflexivity|]. intros Hle. lra.
  - apply Qltb_ge in Hrecent.
    destruct (Staleness._dom_watchdog env) as [dom_watchdog|]; cbn;
      [destruct (Staleness.clear_cache dom_watchdog) as [[]|e]; cbn|];
      try (destruct (Staleness.state_request env) as [[]|e']; cbn);
      (do 3 (split; [reflexivity|])); (split; [intros Hlt; lra|]); intros _;
      rewrite <- ?app_assoc, ?app_nil_r; split; reflexivity.
Qed.



(** The staleness check only adds the query to the record of calls. *)
Lemma check_element_staleness_frame (env : Staleness.Env) (node : EnhancedDOMTreeNode)
    (w : Staleness.World) :
  exists (is_stale : bool) (w1 : Staleness.World),
    Staleness._check_element_staleness env node w = (Returns is_stale, w1)
    /\ Staleness._retry_counts w1 = Staleness._retry_counts w
    /\ Staleness.event w1 = Staleness.event w
    /\ Staleness.errors_emitted w1 = Staleness.errors_emitted w.
Proof.
  unfold Staleness._check_element_staleness.
  unfold Staleness.call, try_except, modify, external, get_world, mbind, M_bind, mret, M_ret.
  destruct (negb (PyStr.truthy (target_id node))); [eauto 10|].
  destruct (Staleness.get_or_create_cdp_session env) as [[]|e]; cbn; [|eauto 10].
  destruct (Staleness.describeNode env) as [reply|e]; cbn.
  - destruct (_ && _); eexists _, _; (split; [reflexivity|]); cbn;
      (repeat split; try reflexivity); errors_frame.
  - destruct (PyStr.any_in _ _); eexists _, _; (split; [reflexivity|]); cbn;
      (repeat split; try reflexivity); errors_frame.
Qed.

(** X15. Handling an event touches no retry counter but the one of its own
    key, the action joined to the element key, whatever the outcome of the
    check and of the recovery; and when the check finds the element fresh,
    that counter is removed, so that earlier failed recoveries of the
    element are forgotten, while the event is left as it is and no error
    event is dispatched. The handling never raises. *)
Theorem staleness_handling_touches_its_own_counter_only
    (env : Staleness.Env) (action_type : string) (node : EnhancedDOMTreeNode)
    (w : Staleness.World) :
  let retry_key := action_type +:+ "_" +:+ Staleness._get_element_key node in
  let r := Staleness._handle_element_action_with_staleness_check env action_type node w in
  fst r = Returns tt
  /\ (forall other_key, other_key <> retry_key ->
        Staleness._retry_counts (snd r) !! other_key = Staleness._retry_counts w !! other_key)
  /\ (fst (Staleness._check_element_staleness env node w) = Returns false ->
      Staleness._retry_counts (snd r) = delete retry_key (Staleness._retry_counts w)
      /\ Staleness.event (snd r) = Staleness.event w
      /\ Staleness.errors_emitted (snd r) = Staleness.errors_emitted w).
Proof.
  intros retry_key r. subst r.
  unfold Staleness._handle_element_action_with_staleness_check. fold retry_key.
  destruct (check_element_staleness_frame env node w)
    as (is_stale & w1 & Hcheck & Hcounts & Hevent & Herrors).
  unfold try_except, mbind, M_bind. rewrite Hcheck.
  destruct is_stale.
  - destruct (Z_lt_le_dec (Staleness.retry_count_of w1 retry_key) 2) as [Hlt|Hge].
    + destruct (handle_stale_below_limit env action_type node retry_key w1 Hlt)
        as (w2 & Hrun & _ & Hcase).
      rewrite Hrun. cbn. split; [reflexivity|]. split; [|discriminate].
      intros other_key Hother.
      destruct (fst (Staleness._find_fresh_element_equivalent env node w1)) as [[fresh|]| |];
        destruct Hcase as [_ ->]; rewrite <- Hcounts;
        first [apply lookup_delete_ne | apply lookup_insert_ne]; congruence.
    + rewrite (handle_stale_at_limit env action_type node retry_key w1 Hge).
      destruct (Staleness.dispatch_error env) as [[]|e]; cbn;
        (split; [reflexivity|]); (split; [|discriminate]);
        intros other_key _; rewrite Hcounts; reflexivity.
  - unfold Staleness._reset_retry_count, modify. cbn.
    split; [reflexivity|]. split.
    + intros other_key Hother. rewrite Hcounts. apply lookup_delete_ne. congruence.
    + intros _. rewrite Hcounts. split; [reflexivity|]. split; assumption.
Qed.

(** ** Stale-element scoring: symmetry and the unchanged element *)

Lemma equal_attributes_sym (a b : EnhancedDOMTreeNode) :
  Scoring.equal_attributes a b = Scoring.equal_attributes b a.
Proof.
  apply set_eq. intros attr. rewrite !elem_of_equal_attributes.
  split; intros (v & H1 & H2); exists v; auto.
Qed.

Lemma name_matches_sym (a b : EnhancedDOMTreeNode) :
  Scoring.name_matches a b = Scoring.name_matches b a.
Proof.
  apply eq_true_iff_eq. rewrite !name_matches_spec. intuition congruence.
Qed.

Lemma position_matches_sym (a b : EnhancedDOMTreeNode) :
  Scoring.position_matches a b = Scoring.position_matches b a.
Proof.
  apply eq_true_iff_eq. rewrite !position_matches_spec.
  split; intros (p & q & Hp & Hq & Hx & Hy); exists q, p;
    rewrite (sub_abs_sym (x q) (x p)), (sub_abs_sym (y q) (y p)); auto.
Qed.

(** X16. The score is symmetric in the two elements; it is never negative;
    and an element scores, against itself, 15 plus 2 for each of its
    attributes when it has a name and a position, which is never below the
    threshold. Hence an element that has a name and a position and is still
    in the selector map, under whatever index, is never lost: the search
    returns a candidate, and one that scores no less than the element
    itself. *)
Theorem unchanged_element_is_found
    (stale_node : EnhancedDOMTreeNode) (fresh_selector_map : SelectorMap) :
  (forall fresh_node,
      Scoring.score stale_node fresh_node = Scoring.score fresh_node stale_node
      /\ 0 <= Scoring.score stale_node fresh_node)
  /\ (node_name stale_node <> EmptyString ->
      absolute_position stale_node <> None ->
      Scoring.score stale_node stale_node
      = 15 + 2 * Z.of_nat (size (dom (attributes stale_node)))
      /\ (In stale_node (selector_values fresh_selector_map) ->
          exists best,
            Scoring._find_by_element_characteristics stale_node fresh_selector_map
            = Some best
            /\ Scoring.score stale_node stale_node <= Scoring.score stale_node best)).
Proof.
  split.
  - intros fresh_node. rewrite !score_formula.
    rewrite (equal_attributes_sym stale_node fresh_node),
      (name_matches_sym stale_node fresh_node),
      (position_matches_sym stale_node fresh_node).
    split; [reflexivity|].
    destruct (Scoring.name_matches _ _), (Scoring.position_matches _ _); lia.
  - intros Hname Hposition.
    assert (Hself : Scoring.score stale_node stale_node
                    = 15 + 2 * Z.of_nat (size (dom (attributes stale_node)))).
    { rewrite score_formula.
      assert (Hn : Scoring.name_matches stale_node stale_node = true).
      { apply name_matches_spec. auto. }
      assert (Hp : Scoring.position_matches stale_node stale_node = true).
      { apply position_matches_spec.
        destruct (absolute_position stale_node) as [p|]; [|congruence].
        exists p, p. rewrite !sub_self. repeat split; reflexivity. }
      assert (He : Scoring.equal_attributes stale_node stale_node
                   = dom (attributes stale_node)).
      { apply set_eq. intros attr. rewrite elem_of_equal_attributes, elem_of_dom.
        split; [intros (v & Hv & _); eauto|intros [v Hv]; eauto]. }
      rewrite Hn, Hp, He. lia. }
    split; [exact Hself|].
    intros Hin. apply list_elem_of_In in Hin.
    pose proof (best_loop_invariant stale_node (selector_values fresh_selector_map)) as Hinv.
    unfold Scoring._find_by_element_characteristics.
    unfold best_so_far in Hinv.
    destruct (fst (Scoring.best_loop stale_node (None, 0)
                     (selector_values fresh_selector_map))) as [best|].
    + exists best. split; [reflexivity|].
      destruct Hinv as (Hscore & _ & i & _ & Hmax & _).
      apply list_elem_of_lookup_1 in Hin as [j Hj].
      rewrite <- Hscore. exact (Hmax j stale_node Hj).
    + destruct Hinv as [_ Hlow]. specialize (Hlow stale_node Hin). lia.
Qed.

Lemma unchanged_element_is_found_witness :
  Scoring.score ScoringSamples.full_match ScoringSamples.full_match
  = 15 + 2 * Z.of_nat (size (dom (attributes ScoringSamples.full_match)))
  /\ (In ScoringSamples.full_match (selector_values ScoringSamples.fresh_index) ->
      exists best,
        Scoring._find_by_element_characteristics ScoringSamples.full_match
          ScoringSamples.fresh_index
        = Some best
        /\ Scoring.score ScoringSamples.full_match ScoringSamples.full_match
           <= Scoring.score ScoringSamples.full_match best).
Proof.
  apply (proj2 (unchanged_element_is_found ScoringSamples.full_match
                  ScoringSamples.fresh_index)).
  - discriminate.
  - discriminate.
Defined.

(** ** Loops: invariants *)

(** A property [P] of the world holds when a loop is left, however it is
    left, if an invariant [I] of the loop variables and the world implies
    it, is kept by every iteration that goes on, and every iteration that
    leaves the loop or raises establishes [P]. *)
Lemma while_invariant {W S R} (I : S -> W -> Prop) (P : W -> Prop)
    (cond : S -> W -> bool) (body : S -> M W (Step S R)) :
  (forall s w, I s w -> P w) ->
  (forall s w, I s w -> cond s w = true ->
     match body s w with
     | (Returns (Next s'), w') => I s' w'
     | (_, w') => P w'
     end) ->
  forall (fuel : nat) (s : S) (w : W), I s w -> P (snd (while fuel cond body s w)).
Proof.
  intros Hexit Hbody fuel. induction fuel as [|fuel IH]; intros s w Hinv.
  - cbn. exact (Hexit s w Hinv).
  - cbn [while]. destruct (cond s w) eqn:Hcond; [|cbn; exact (Hexit s w Hinv)].
    specialize (Hbody s w Hinv Hcond). unfold mbind, M_bind.
    destruct (body s w) as [[[s'|s'|r]|e|] w']; cbn; try exact Hbody.
    apply IH. exact Hbody.
Qed.

(** ** Form reliability watchdog: bounds and edge cases *)

Lemma slept_app (es1 es2 : list FormReliability.Effect) :
  (FormTiming.slept (es1 ++ es2) == FormTiming.slept es1 + FormTiming.slept es2)%Q.
Proof.
  unfold FormTiming.slept. induction es1 as [|e es1 IH]; cbn [app fold_right].
  - lra.
  - rewrite IH. lra.
Qed.

Lemma slept_single (e : FormReliability.Effect) :
  (FormTiming.slept [e] == FormTiming.sleep_seconds e)%Q.
Proof. unfold FormTiming.slept. cbn [fold_right]. lra. Qed.

(** Brings the seconds slept over an extended record of effects to a sum. *)
Ltac slept_sum :=
  cbn; rewrite ?slept_app, ?slept_single; cbn [FormTiming.sleep_seconds].

(** What the verification adds to the world: at most 21 snapshots of the
    page state and at most 10.5 seconds of sleep. *)
Lemma verify_form_submission_bounds (env : FormReliability.Env)
    (pre : FormReliability.PageState) (info : FormReliability.ElementInfo)
    (w : FormReliability.World) :
  let w' := snd (FormReliability._verify_form_submission_success env pre info w) in
  (FormReliability.captures w' <= FormReliability.captures w + 21)%nat
  /\ (FormTiming.slept (FormReliability.effects w')
      <= FormTiming.slept (FormReliability.effects w) + (21 # 2))%Q.
Proof.
  cbv zeta.
  set (P := fun (extra : nat) (v : FormReliability.World) =>
              (FormReliability.captures v + extra <= FormReliability.captures w + 21)%nat
              /\ (FormTiming.slept (FormReliability.effects v)
                  <= FormTiming.slept (FormReliability.effects w) + (21 # 2))%Q).
  set (I := fun (elapsed : Q) (v : FormReliability.World) =>
              exists polls halves : nat,
                (elapsed == inject_Z (Z.of_nat halves) * (1 # 2))%Q
                /\ (polls <= halves)%nat /\ (polls <= 20)%nat /\ (halves <= 21)%nat
                /\ (FormReliability.captures v <= FormReliability.captures w + polls)%nat
                /\ (FormTiming.slept (FormReliability.effects v)
                    == FormTiming.slept (FormReliability.effects w) + elapsed)%Q).
  assert (Hloop : P 1%nat
            (snd (while FormReliability.verify_fuel
                    (fun elapsed _ => Qltb elapsed FormReliability.max_wait_time)
                    (FormReliability.verify_poll env pre info) 0%Q w))).
  { apply (while_invariant I (P 1%nat)).
    - intros elapsed v (polls & halves & He & Hp & Hp20 & Hh & Hc & Hs). split; [lia|].
      rewrite Hs, He.
      assert (inject_Z (Z.of_nat halves) <= inject_Z 21)%Q
        by (rewrite <- Zle_Qle; lia).
      change (inject_Z 21) with 21%Q in *. lra.
    - intros elapsed v (polls & halves & He & Hp & Hp20 & Hh & Hc & Hs) Hcond.
      apply Qltb_lt in Hcond. unfold FormReliability.max_wait_time in Hcond.
      assert (Hhalves : (halves <= 19)%nat).
      { rewrite He in Hcond.
        assert (inject_Z (Z.of_nat halves) < inject_Z 20)%Q
          by (change (inject_Z 20) with 20%Q; lra).
        rewrite <- Zlt_Qlt in H. lia. }
      assert (Hle : (inject_Z (Z.of_nat halves) <= inject_Z 19)%Q)
        by (rewrite <- Zle_Qle; lia).
      change (inject_Z 19) with 19%Q in Hle.
      rewrite verify_poll_spec. cbv zeta.
      destruct (FormReliability.url_differs _ _);
        [|destruct (FormReliability.hasSuccessMessages _);
          [|destruct (FormReliability.hasErrorMessages _);
            [|destruct (FormReliability.hasLoadingIndicators _)]]].
      + split; [cbn; lia|]. slept_sum. rewrite Hs, He. lra.
      + split; [cbn; lia|]. slept_sum. rewrite Hs, He. lra.
      + rewrite handle_form_error_spec. cbn [snd]. split; [cbn; lia|].
        slept_sum. rewrite Hs, He. lra.
      + exists (S polls), (S (S halves)). split; [|split; [lia|split; [lia|split; [lia|]]]].
        * rewrite He, !Nat2Z.inj_succ, <- !Z.add_1_r, !inject_Z_plus.
          unfold FormReliability.check_interval. change (inject_Z 1) with 1%Q. lra.
        * split; [cbn; lia|]. slept_sum. rewrite Hs.
          unfold FormReliability.check_interval. lra.
      + exists (S polls), (S halves). split; [|split; [lia|split; [lia|split; [lia|]]]].
        * rewrite He, !Nat2Z.inj_succ, <- !Z.add_1_r, !inject_Z_plus.
          unfold FormReliability.check_interval. change (inject_Z 1) with 1%Q. lra.
        * split; [cbn; lia|]. slept_sum. rewrite Hs.
          unfold FormReliability.check_interval. lra.
    - exists 0%nat, 0%nat. cbn. repeat split; try lia; lra. }
  unfold FormReliability._verify_form_submission_success, try_except.
  unfold mbind, M_bind.
  destruct (while FormReliability.verify_fuel _ _ 0%Q w) as [[[elapsed|[]]|e|] w1];
    cbn [snd] in Hloop; destruct Hloop as [Hc Hs].
  - rewrite capture_page_state_spec.
    destruct (_ && _); cbn [snd]; (split; [cbn; lia|]); slept_sum; lra.
  - cbn. split; [lia|exact Hs].
  - split; [cbn; lia|]. slept_sum. lra.
  - cbn. split; [lia|exact Hs].
Qed.

(** X17. A click holds the form watchdog for a bounded time: whatever the
    page answers, handling one click takes at most 22 snapshots of the page
    state (one before the submission, at most 20 polls and a last one at
    the time-out) and sleeps at most 11.5 seconds in all (1.0s to settle,
    and at most 10.5s of polling, a last poll begun before the tenth second
    being allowed one more second when the page shows a loading indicator);
    and the handler returns normally. *)
Theorem form_click_is_bounded
    (env : FormReliability.Env) (node : option EnhancedDOMTreeNode)
    (w : FormReliability.World) :
  let r := FormReliability.on_ClickElementEvent env node w in
  fst r = Returns tt
  /\ (FormReliability.captures (snd r) <= FormReliability.captures w + 22)%nat
  /\ (FormTiming.slept (FormReliability.effects (snd r))
      <= FormTiming.slept (FormReliability.effects w) + (23 # 2))%Q.
Proof.
  cbv zeta. split.
  { destruct (form_handlers_return env) as [Hclick _].
    apply (proj1 (returns_unit _) (Hclick node)). }
  unfold FormReliability.on_ClickElementEvent.
  destruct node as [element|]; [|cbn; split; [lia|lra]].
  destruct (FormReliability.is_submit_element element); [|cbn; split; [lia|lra]].
  unfold FormReliability._track_form_submission, try_except.
  destruct (FormReliability.agent_focus env) as [focus|]; [|cbn; split; [lia|lra]].
  unfold mbind, M_bind, external.
  destruct (FormReliability.get_or_create_cdp_session env) as [[]|e]; cbn [outcome].
  2:{ split; [cbn; lia|]. slept_sum. lra. }
  rewrite capture_page_state_spec.
  unfold FormReliability.log, FormReliability.sleep, modify.
  match goal with
  | |- context [FormReliability._verify_form_submission_success env ?pre ?info ?v] =>
      pose proof (verify_form_submission_bounds env pre info v) as Hverify;
      pose proof (verify_returns env pre info v) as Hreturns;
      destruct (FormReliability._verify_form_submission_success env pre info v)
        as [outcome w']
  end.
  cbv zeta in Hverify. cbn [fst snd] in Hverify, Hreturns. subst outcome.
  destruct Hverify as [Hc Hs]. cbn [snd]. split.
  - cbn in Hc. lia.
  - eapply Qle_trans; [exact Hs|]. slept_sum. lra.
Qed.

Lemma elapsed_after_unreadable (env : FormReliability.Env) (first k : nat) :
  (forall n, FormReliability.state_at env n = FormReliability.empty_state) ->
  (FormReliability.elapsed_after env first 0 k == inject_Z (Z.of_nat k) * (1 # 2))%Q.
Proof.
  intros Hempty. induction k as [|k IH].
  - vm_compute. reflexivity.
  - rewrite elapsed_after_step, IH, Hempty.
    rewrite Nat2Z.inj_succ, <- Z.add_1_r, inject_Z_plus.
    unfold FormReliability.poll_wait, FormReliability.check_interval. cbn.
    change (inject_Z 1) with 1%Q. lra.
Qed.

(** The verification on a page whose state cannot be read: 20 quiet polls,
    the time-out, and the warning. *)
Lemma verify_on_unreadable_page (env : FormReliability.Env)
    (info : FormReliability.ElementInfo) (w1 : FormReliability.World) :
  (forall n, FormReliability.state_at env n = FormReliability.empty_state) ->
  FormReliability._verify_form_submission_success env FormReliability.empty_state info w1
  = (Returns tt,
     FormReliability.record
       (FormReliability.Log (FormReliability.WarningSubmissionUnclear info))
       (FormReliability.record FormReliability.CapturePageState
          (FormReliability.count_capture (FormReliability.world_after env w1 20)))).
Proof.
  intros Hempty.
  destruct (verify_after_quiet_prefix env FormReliability.empty_state info w1 20)
    as (fuel & Hfuel & Hloop).
  { intros i Hi. rewrite Hempty. split; [reflexivity|].
    rewrite elapsed_after_unreadable by exact Hempty.
    assert (inject_Z (Z.of_nat i) <= inject_Z 19)%Q by (rewrite <- Zle_Qle; lia).
    change (inject_Z 19) with 19%Q in *. unfold FormReliability.max_wait_time. lra. }
  assert (fuel = 0%nat) as -> by (unfold FormReliability.verify_fuel in Hfuel; lia).
  unfold FormReliability._verify_form_submission_success, try_except.
  unfold mbind at 1, M_bind at 1. rewrite Hloop. cbn [while].
  assert (Hdone : Qltb (FormReliability.elapsed_after env (FormReliability.captures w1) 0 20)
                    FormReliability.max_wait_time = false).
  { apply Qltb_ge. rewrite elapsed_after_unreadable by exact Hempty.
    unfold FormReliability.max_wait_time. vm_compute. discriminate. }
  rewrite Hdone. unfold mbind, M_bind. rewrite capture_page_state_spec, Hempty.
  reflexivity.
Qed.

Lemma click_on_unreadable_page
    (env : FormReliability.Env) (element : EnhancedDOMTreeNode)
    (focus : string) (w : FormReliability.World) :
  FormReliability.is_submit_element element = true ->
  FormReliability.agent_focus env = Some focus ->
  FormReliability.get_or_create_cdp_session env = Ok tt ->
  (forall n, FormReliability.state_at env n = FormReliability.empty_state) ->
  let info := {| FormReliability.info_tag_name := tag_name element;
                 FormReliability.info_text := children_text element;
                 FormReliability.info_index := element_index element |} in
  FormReliability.on_ClickElementEvent env (Some element) w
  = (Returns tt,
     FormReliability.record
       (FormReliability.Log (FormReliability.WarningSubmissionUnclear info))
       (FormReliability.record FormReliability.CapturePageState
          (FormReliability.count_capture
             (FormReliability.world_after env
                (FormReliability.record (FormReliability.Sleep 1)
                   (FormReliability.record
                      (FormReliability.Log (FormReliability.DebugTracking info))
                      (FormReliability.record FormReliability.CapturePageState
                         (FormReliability.count_capture w))))
                20)))).
Proof.
  intros Hsubmit Hfocus Hsession Hempty info.
  unfold FormReliability.on_ClickElementEvent. rewrite Hsubmit.
  unfold FormReliability._track_form_submission, try_except. rewrite Hfocus.
  unfold mbind, M_bind, external. rewrite Hsession. cbn [outcome].
  rewrite capture_page_state_spec, Hempty.
  unfold FormReliability.log, FormReliability.sleep, modify.
  fold info.
  rewrite (verify_on_unreadable_page env info _ Hempty). reflexivity.
Qed.

Lemma form_effects_record (e : FormReliability.Effect) (w : FormReliability.World) :
  FormReliability.effects (FormReliability.record e w) = FormReliability.effects w ++ [e].
Proof. reflexivity. Qed.

Lemma form_effects_count_capture (w : FormReliability.World) :
  FormReliability.effects (FormReliability.count_capture w) = FormReliability.effects w.
Proof. reflexivity. Qed.

Lemma form_captures_record (e : FormReliability.Effect) (w : FormReliability.World) :
  FormReliability.captures (FormReliability.record e w) = FormReliability.captures w.
Proof. reflexivity. Qed.

Lemma form_captures_count_capture (w : FormReliability.World) :
  FormReliability.captures (FormReliability.count_capture w)
  = S (FormReliability.captures w).
Proof. reflexivity. Qed.

(** X18. A page whose state cannot be read is reported as unclear, never as
    failed or successful. When every evaluation of the page-state script
    fails, a click on a submit element takes the empty snapshot before the
    submission and at each of the 20 polls, ten seconds pass, and the one
    record above debug level is the warning that the submission is unclear,
    for the clicked element; 22 evaluations were attempted in all. *)
Theorem unreadable_page_is_reported_unclear
    (env : FormReliability.Env) (element : EnhancedDOMTreeNode)
    (focus : string) (w : FormReliability.World) :
  FormReliability.is_submit_element element = true ->
  FormReliability.agent_focus env = Some focus ->
  FormReliability.get_or_create_cdp_session env = Ok tt ->
  (forall n, exists e, FormReliability.page_state env n = Exc e) ->
  let w' := snd (FormReliability.on_ClickElementEvent env (Some element) w) in
  FormReliability.reported (FormReliability.effects w')
  = FormReliability.reported (FormReliability.effects w)
    ++ [ FormReliability.WarningSubmissionUnclear
           {| FormReliability.info_tag_name := tag_name element;
              FormReliability.info_text := children_text element;
              FormReliability.info_index := element_index element |} ]
  /\ FormReliability.captures w' = (FormReliability.captures w + 22)%nat.
Proof.
  intros Hsubmit Hfocus Hsession Hfails.
  assert (Hempty : forall n, FormReliability.state_at env n = FormReliability.empty_state).
  { intros n. unfold FormReliability.state_at. destruct (Hfails n) as [e ->]. reflexivity. }
  cbv zeta.
  rewrite (click_on_unreadable_page env element focus w Hsubmit Hfocus Hsession Hempty).
  cbn [snd]. split.
  - rewrite !form_effects_record, form_effects_count_capture.
    rewrite !reported_app, world_after_reported.
    rewrite !form_effects_record, form_effects_count_capture, !reported_app.
    set (before := FormReliability.reported (FormReliability.effects w)).
    cbn. rewrite !app_nil_r. reflexivity.
  - rewrite !form_captures_record, form_captures_count_capture, world_after_captures.
    rewrite !form_captures_record, form_captures_count_capture. lia.
Qed.

Lemma unreadable_page_is_reported_unclear_witness :
  let w' := snd (FormReliability.on_ClickElementEvent UnreadableFormSamples.env
                   (Some StalenessSamples.button) FormSamples.initial) in
  FormReliability.reported (FormReliability.effects w')
  = FormReliability.reported (FormReliability.effects FormSamples.initial)
    ++ [ FormReliability.WarningSubmissionUnclear
           {| FormReliability.info_tag_name := tag_name StalenessSamples.button;
              FormReliability.info_text := children_text StalenessSamples.button;
              FormReliability.info_index := element_index StalenessSamples.button |} ]
  /\ FormReliability.captures w' = (FormReliability.captures FormSamples.initial + 22)%nat.
Proof.
  apply (unreadable_page_is_reported_unclear UnreadableFormSamples.env
           StalenessSamples.button "T1" FormSamples.initial).
  - vm_compute. reflexivity.
  - reflexivity.
  - reflexivity.
  - intros n. exists "Execution context was destroyed". reflexivity.
Defined.

(** X19. Verification of typed text. With an agent focus, a session, an
    element that has a backend node id and a reply that carries a value: the
    value is queried once; the input counts as verified exactly when the
    expected text contains the value or the value contains the expected
    text, so that an empty value, or an empty expected text, always counts
    as verified; otherwise the mismatch is logged as a warning, followed by
    at most one diagnosis, in this order of precedence: the element is
    disabled, it is read-only, it has lost the focus. *)
Theorem input_verification_outcome
    (env : FormReliability.Env) (element : EnhancedDOMTreeNode) (expected_text : string)
    (focus : string) (input_data : FormReliability.InputData) (current_value : string)
    (w : FormReliability.World) :
  FormReliability.agent_focus env = Some focus ->
  FormReliability.get_or_create_cdp_session env = Ok tt ->
  backend_node_id element <> 0 ->
  FormReliability.input_data env = Ok (Some input_data) ->
  FormReliability.value input_data = Some current_value ->
  let verified :=
    PyStr.contains expected_text current_value || PyStr.contains current_value expected_text in
  FormReliability._verify_input_success env element expected_text w
  = (Returns tt,
     {| FormReliability.captures := FormReliability.captures w;
        FormReliability.effects :=
          FormReliability.effects w
          ++ FormReliability.QueryInputValue (backend_node_id element)
             :: (if verified then [FormReliability.Log FormReliability.DebugInputVerified]
                 else
                   FormReliability.Log
                     (FormReliability.WarningInputMismatch expected_text current_value)
                   :: (if FormReliability.disabled input_data
                       then [FormReliability.Log FormReliability.WarningInputDisabled]
                       else if FormReliability.readonly input_data
                       then [FormReliability.Log FormReliability.WarningInputReadonly]
                       else if FormReliability.focused input_data then []
                       else [FormReliability.Log FormReliability.DebugLostFocus])) |})
  /\ (current_value = EmptyString \/ expected_text = EmptyString
      \/ current_value = expected_text -> verified = true).
Proof.
  intros Hfocus Hsession Hnode Hdata Hvalue verified. split.
  - unfold FormReliability._verify_input_success, try_except. rewrite Hfocus.
    unfold FormReliability.call, FormReliability.log, modify, external, mbind, M_bind,
      mret, M_ret.
    rewrite Hsession. cbn [outcome]. rewrite bool_decide_eq_false_2 by exact Hnode.
    rewrite Hdata. cbn [outcome]. rewrite Hvalue. fold verified.
    destruct verified; cbn;
      [|destruct (FormReliability.disabled input_data); cbn;
        [|destruct (FormReliability.readonly input_data); cbn;
          [|destruct (FormReliability.focused input_data); cbn]]];
      unfold FormReliability.record; cbn [FormReliability.captures FormReliability.effects];
      rewrite <- ?app_assoc; reflexivity.
  - subst verified. intros [-> | [-> | ->]].
    + rewrite (contains_empty expected_text). apply orb_true_r.
    + rewrite (contains_empty current_value). reflexivity.
    + rewrite contains_refl. reflexivity.
Qed.

Lemma input_verification_outcome_witness :
  let verified := PyStr.contains "hello" "" || PyStr.contains "" "hello" in
  FormReliability._verify_input_success UnreadableFormSamples.env StalenessSamples.button
    "hello" FormSamples.initial
  = (Returns tt,
     {| FormReliability.captures := FormReliability.captures FormSamples.initial;
        FormReliability.effects :=
          FormReliability.effects FormSamples.initial
          ++ FormReliability.QueryInputValue (backend_node_id StalenessSamples.button)
             :: (if verified then [FormReliability.Log FormReliability.DebugInputVerified]
                 else
                   FormReliability.Log (FormReliability.WarningInputMismatch "hello" "")
                   :: [FormReliability.Log FormReliability.WarningInputDisabled]) |})
  /\ (EmptyString = EmptyString \/ "hello" = EmptyString \/ EmptyString = "hello"
      -> verified = true).
Proof.
  apply (input_verification_outcome UnreadableFormSamples.env StalenessSamples.button
           "hello" "T1"
           {| FormReliability.value := Some "";
              FormReliability.focused := false;
              FormReliability.disabled := true;
              FormReliability.readonly := false |}
           "" FormSamples.initial).
  - reflexivity.
  - reflexivity.
  - discriminate.
  - reflexivity.
  - reflexivity.
Defined.

(** X20. When the form watchdog does not look at the page. A click on an
    element that is not a submit element, a click or typed text without a
    node, and keys other than exactly "Enter" leave the watchdog's world as
    it is. Without an agent focus no handler queries the page: a click and
    any keys do nothing, and typed text only sleeps its 0.1 seconds. *)
Theorem form_watchdog_stays_idle (env : FormReliability.Env) (w : FormReliability.World) :
  (forall element,
      FormReliability.is_submit_element element = false ->
      FormReliability.on_ClickElementEvent env (Some element) w = (Returns tt, w))
  /\ FormReliability.on_ClickElementEvent env None w = (Returns tt, w)
  /\ (forall text, FormReliability.on_TypeTextEvent env None text w = (Returns tt, w))
  /\ (forall keys, keys <> "Enter" ->
        FormReliability.on_SendKeysEvent env keys w = (Returns tt, w))
  /\ (FormReliability.agent_focus env = None ->
      (forall node, FormReliability.on_ClickElementEvent env node w = (Returns tt, w))
      /\ (forall element text,
            FormReliability.on_TypeTextEvent env (Some element) text w
            = (Returns tt, FormReliability.record (FormReliability.Sleep (1 # 10)) w))
      /\ (forall keys, FormReliability.on_SendKeysEvent env keys w = (Returns tt, w))).
Proof.
  split; [|split; [|split; [|split]]].
  - intros element Hsubmit. unfold FormReliability.on_ClickElementEvent.
    rewrite Hsubmit. reflexivity.
  - reflexivity.
  - reflexivity.
  - intros keys Hkeys. unfold FormReliability.on_SendKeysEvent, PyStr.eqb.
    rewrite bool_decide_eq_false_2 by exact Hkeys. reflexivity.
  - intros Hfocus. split; [|split].
    + intros [element|]; [|reflexivity]. unfold FormReliability.on_ClickElementEvent.
      destruct (FormReliability.is_submit_element element); [|reflexivity].
      unfold FormReliability._track_form_submission, try_except. rewrite Hfocus. reflexivity.
    + intros element text. unfold FormReliability.on_TypeTextEvent.
      unfold FormReliability._verify_input_success, try_except, FormReliability.sleep,
        modify, mbind, M_bind.
      rewrite Hfocus. reflexivity.
    + intros keys. unfold FormReliability.on_SendKeysEvent.
      destruct (PyStr.eqb keys "Enter"); [|reflexivity].
      unfold FormReliability._detect_form_submission_by_enter, try_except.
      rewrite Hfocus. reflexivity.
Qed.
